(** * Client-side cart, persistence and catalog view of the storefront

    A shallow embedding of
    - [frontend/src/context/CartContext.js] (reducer, entry points, totals),
    - the [handleAddToCart] handler of the product detail page,
    - [frontend/src/utils/storage.js] (cart snapshot in localStorage),
    - [frontend/src/context/ProductContext.js] ([getFilteredProducts]),
    together with the properties the specification states about them.

    Conventions.  A JavaScript number is a binary64 floating-point value
    ([JS.number]): the sums and products of [getCartTotal], what
    [parseInt] and [parseFloat] return and the comparisons with it are
    the IEEE 754 ones, rounding to nearest, ties to even.  Ids,
    quantities and other counts are kept as the integers they are ([Z]),
    with the integers' sums and order.  A price is kept as its amount in
    hundredths (99.99 is [9999]); the number the code holds is the one
    nearest to that amount ([JS.number_of_price]), which is what the
    literal [99.99] denotes.  Strings are [string]; arrays are lists;
    [undefined] fields are [option]s. *)

From Stdlib Require Import ZArith QArith Qround Lia Lqa Permutation Sorted.
From Stdlib Require Import OrderedTypeEx.
From Stdlib Require SpecFloat.
From Stdlib Require Import Ascii DecimalString DecimalPos.
From stdpp Require Import base option list strings gmap fin_maps.

Local Open Scope Z_scope.

(* ===================================================================== *)
(** * The JavaScript built-ins the code calls                             *)
(* ===================================================================== *)

Module JS.

(** ** Numbers *)

(** A number: an IEEE 754 binary64 value. *)
Definition number : Type := SpecFloat.spec_float.

Definition prec : Z := 53.
Definition emax : Z := 1024.

Definition NaN : number := SpecFloat.S754_nan.

(** [+0], and [-0] when [negative]. *)
Definition zero (negative : bool) : number := SpecFloat.S754_zero negative.

(** [Infinity], and [-Infinity] when [negative]. *)
Definition Infinity (negative : bool) : number :=
  SpecFloat.S754_infinity negative.

(** [a + b] and [a * b] *)
Definition plus (a b : number) : number := SpecFloat.SFadd prec emax a b.
Definition times (a b : number) : number := SpecFloat.SFmul prec emax a b.

(** [a <= b], [a >= b] and [a === b] on numbers; each is [false] as soon
    as [NaN] is involved. *)
Definition number_le (a b : number) : bool := SpecFloat.SFleb a b.
Definition number_ge (a b : number) : bool := SpecFloat.SFleb b a.
Definition strict_equal (a b : number) : bool := SpecFloat.SFeqb a b.

(** The number nearest to the integer [z]. *)
Definition number_of_Z (z : Z) : number :=
  SpecFloat.binary_normalize prec emax z 0 false.

(** The number nearest to the fraction [n / d], for [d > 0].  The
    quotient is taken with enough binary digits to leave two below the
    last one a number keeps, and a last digit that records whether the
    division left a remainder; rounding that is rounding the fraction. *)
Definition number_of_ratio (n d : Z) : number :=
  if n =? 0 then zero false
  else
    let a := Z.abs n in
    let s := Z.max 0 (Z.log2 d + 57 - Z.log2 a) in
    let q := (a * 2 ^ s) / d in
    let r := (a * 2 ^ s) mod d in
    let m := 2 * q + (if r =? 0 then 0 else 1) in
    SpecFloat.binary_normalize prec emax (if n <? 0 then - m else m) (- s - 1)
      false.

(** The number a price stands for, the price given in hundredths. *)
Definition number_of_price (hundredths : Z) : number :=
  number_of_ratio hundredths 100.

(** ** Text *)

(** [String(n)] for an integer [n], as a template literal inserts it. *)
Definition number_to_string (n : Z) : string :=
  NilZero.string_of_int (Z.to_int n).

Definition newline : Ascii.ascii := Ascii.ascii_of_nat 10.
Definition tab : Ascii.ascii := Ascii.ascii_of_nat 9.
Definition carriage_return : Ascii.ascii := Ascii.ascii_of_nat 13.

(** The white space of JSON text. *)
Definition is_whitespace (c : Ascii.ascii) : bool :=
  Ascii.eqb c " "%char || Ascii.eqb c newline || Ascii.eqb c tab
  || Ascii.eqb c carriage_return.

Fixpoint skip_whitespace (s : string) : string :=
  match s with
  | String c s' => if is_whitespace c then skip_whitespace s' else s
  | EmptyString => s
  end.

Definition digit_of (c : Ascii.ascii) : option Z :=
  let n := Ascii.nat_of_ascii c in
  if ((48 <=? n) && (n <=? 57))%nat then Some (Z.of_nat n - 48) else None.

Fixpoint read_digits (s : string) (acc : Z) : Z * string :=
  match s with
  | String c s' =>
      match digit_of c with
      | Some d => read_digits s' (10 * acc + d)
      | None => (acc, s)
      end
  | EmptyString => (acc, s)
  end.

(** ** [parseInt] and [parseFloat] *)

(** The white space the two skip at the head of their argument: TAB, LF,
    VT, FF, CR and the space.  (Strings are ASCII in this model; the
    white space beyond it is not modelled.) *)
Definition is_StrWhiteSpaceChar (c : Ascii.ascii) : bool :=
  let n := Ascii.nat_of_ascii c in
  (((9 <=? n) && (n <=? 13)) || (n =? 32))%nat.

Fixpoint trim_start (s : string) : string :=
  match s with
  | String c s' => if is_StrWhiteSpaceChar c then trim_start s' else s
  | EmptyString => s
  end.

(** An optional sign at the head of [s]: whether it is [-], and the text
    after it. *)
Definition read_sign (s : string) : bool * string :=
  match s with
  | String c rest =>
      if Ascii.eqb c "-"%char then (true, rest)
      else if Ascii.eqb c "+"%char then (false, rest)
      else (false, s)
  | EmptyString => (false, s)
  end.

Definition hex_digit_of (c : Ascii.ascii) : option Z :=
  let n := Ascii.nat_of_ascii c in
  if ((48 <=? n) && (n <=? 57))%nat then Some (Z.of_nat n - 48)
  else if ((97 <=? n) && (n <=? 102))%nat then Some (Z.of_nat n - 87)
  else if ((65 <=? n) && (n <=? 70))%nat then Some (Z.of_nat n - 55)
  else None.

Definition digit_in (radix : Z) (c : Ascii.ascii) : option Z :=
  if radix =? 16 then hex_digit_of c else digit_of c.

Fixpoint read_radix_digits (radix : Z) (s : string) (acc : Z) : Z * string :=
  match s with
  | String c s' =>
      match digit_in radix c with
      | Some d => read_radix_digits radix s' (radix * acc + d)
      | None => (acc, s)
      end
  | EmptyString => (acc, s)
  end.

(** The text after a leading [0x] or [0X]. *)
Definition strip_hex_prefix (s : string) : option string :=
  match s with
  | String c s' =>
      if Ascii.eqb c "0"%char then
        match s' with
        | String x rest =>
            if Ascii.eqb x "x"%char || Ascii.eqb x "X"%char then Some rest
            else None
        | EmptyString => None
        end
      else None
  | EmptyString => None
  end.

(** [parseInt(s)], no radix given: leading white space, an optional sign,
    an optional [0x] that switches to radix 16, then the longest run of
    digits of the radix; [NaN] when there is none, a signed zero when
    they say zero, else the number nearest to the integer read. *)
Definition parseInt (s : string) : number :=
  let '(negative, text) := read_sign (trim_start s) in
  let '(radix, text) :=
    match strip_hex_prefix text with
    | Some rest => (16, rest)
    | None => (10, text)
    end in
  match text with
  | String c _ =>
      match digit_in radix c with
      | Some _ =>
          let mathInt := fst (read_radix_digits radix text 0) in
          if mathInt =? 0 then zero negative
          else number_of_Z (if negative then - mathInt else mathInt)
      | None => NaN
      end
  | EmptyString => NaN
  end.

(** Decimal digits at the head of [s]: their value on top of [acc], how
    many there are on top of [n], and the text after them. *)
Fixpoint read_decimal_digits (s : string) (acc n : Z) : Z * Z * string :=
  match s with
  | String c s' =>
      match digit_of c with
      | Some d => read_decimal_digits s' (10 * acc + d) (n + 1)
      | None => (acc, n, s)
      end
  | EmptyString => (acc, n, s)
  end.

(** The exponent part at the head of [s]: [e] or [E], an optional sign,
    at least one digit.  Anything short of that is no exponent part, and
    counts for 0. *)
Definition read_exponent (s : string) : Z :=
  match s with
  | String c rest =>
      if Ascii.eqb c "e"%char || Ascii.eqb c "E"%char then
        let '(negative, digits) := read_sign rest in
        let '(e, n, _) := read_decimal_digits digits 0 0 in
        if n =? 0 then 0 else if negative then - e else e
      else 0
  | EmptyString => 0
  end.

(** [parseFloat(s)]: leading white space, an optional sign, then the
    longest prefix that is [Infinity] or a decimal literal (digits, a
    point and digits, digits on one side of the point at least, and an
    exponent part); [NaN] when there is none, a signed zero when the
    digits say zero, else the number nearest to the value written. *)
Definition parseFloat (s : string) : number :=
  let '(negative, text) := read_sign (trim_start s) in
  if String.prefix "Infinity" text then Infinity negative
  else
    let '(int_part, int_digits, after_int) := read_decimal_digits text 0 0 in
    let '(mantissa, frac_digits, after_frac) :=
      match after_int with
      | String c rest =>
          if Ascii.eqb c "."%char then read_decimal_digits rest int_part 0
          else (int_part, 0, after_int)
      | EmptyString => (int_part, 0, after_int)
      end in
    if int_digits + frac_digits =? 0 then NaN
    else if mantissa =? 0 then zero negative
    else
      let exponent := read_exponent after_frac - frac_digits in
      let m := if negative then - mantissa else mantissa in
      number_of_ratio (m * 10 ^ Z.max 0 exponent) (10 ^ Z.max 0 (- exponent)).

(** ** Strings and arrays *)

(** [s.toLowerCase()], on ASCII. *)
Definition lower_char (c : Ascii.ascii) : Ascii.ascii :=
  let n := Ascii.nat_of_ascii c in
  if ((65 <=? n) && (n <=? 90))%nat then Ascii.ascii_of_nat (n + 32) else c.

Fixpoint toLowerCase (s : string) : string :=
  match s with
  | EmptyString => EmptyString
  | String c s' => String (lower_char c) (toLowerCase s')
  end.

(** [s.includes(sub)] *)
Fixpoint includes (s sub : string) : bool :=
  String.prefix sub s
  || match s with
     | String _ s' => includes s' sub
     | EmptyString => false
     end.

(** A string used as a condition: the empty string is falsy. *)
Definition nonempty (s : string) : bool := negb (String.eqb s "").

(** The values a product field can hold. *)
Inductive value : Type :=
| VUndefined
| VNum (n : Z)
| VStr (s : string).

(** [a > b] and [a < b]: numeric on numbers, by code units on strings,
    and [false] as soon as [undefined] is involved.  (Number against
    string does not arise: both operands are the same field of two
    records.) *)
Definition js_gt (a b : value) : bool :=
  match a, b with
  | VNum x, VNum y => y <? x
  | VStr x, VStr y => String.ltb y x
  | _, _ => false
  end.

Definition js_lt (a b : value) : bool := js_gt b a.

(** [Array.prototype.sort(comparefn)].  The language requires the sort to
    be stable and leaves the result to the engine when [comparefn] is not
    a consistent comparator.  The model is the stable insertion sort that
    asks [comparefn(x, y)] for [x] ahead of [y] in the input and keeps [x]
    ahead unless the answer is positive. *)
Fixpoint insert_sorted {A} (comparefn : A -> A -> Z) (x : A) (l : list A)
  : list A :=
  match l with
  | [] => [x]
  | y :: l' =>
      if comparefn x y <=? 0 then x :: y :: l'
      else y :: insert_sorted comparefn x l'
  end.

Fixpoint Array_sort {A} (comparefn : A -> A -> Z) (l : list A) : list A :=
  match l with
  | [] => []
  | x :: l' => insert_sorted comparefn x (Array_sort comparefn l')
  end.

End JS.

(* ===================================================================== *)
(** * CartContext.js                                                      *)
(* ===================================================================== *)

Module Cart.
Import JS.

(** The argument the UI hands to [updateQuantity] / [removeFromCart]:
    [Cart.js] passes [item.cartId || item.id], so it is either a number
    (a product id) or a string (a cartId). *)
Inductive jskey : Type :=
| KNum (n : Z)
| KStr (s : string).

(** A cart line: the product's fields spread into an object, plus
    [quantity] and, when it was added from the product detail page, the
    selected variant and the [cartId] built there.  The [price] is in
    hundredths. *)
Record item : Type := Item {
  id : Z;
  name : string;
  price : Z;
  stock : option Z;
  quantity : Z;
  selectedSize : option string;
  selectedColor : option string;
  cartId : option string
}.

(** [{ ...it, quantity: q }] *)
Definition with_quantity (it : item) (q : Z) : item :=
  {| id := id it; name := name it; price := price it; stock := stock it;
     quantity := q;
     selectedSize := selectedSize it; selectedColor := selectedColor it;
     cartId := cartId it |}.

(** [item.id === k] where [item.id] is a number: strict equality never
    identifies a number with a string. *)
Definition id_is (it : item) (k : jskey) : bool :=
  match k with
  | KNum n => id it =? n
  | KStr _ => false
  end.

Record state : Type := State {
  items : list item;
  loading : bool;
  error : option string
}.

Inductive action : Type :=
| SET_CART (payload : list item)
| ADD_ITEM (payload : item)
| UPDATE_ITEM (payload_id : jskey) (payload_quantity : Z)
| REMOVE_ITEM (payload : jskey)
| CLEAR_CART
| SET_LOADING (payload : bool)
| SET_ERROR (payload : string)
| OTHER (type : string).

Definition cartReducer (s : state) (a : action) : state :=
  match a with
  | SET_CART payload =>
      {| items := payload; loading := false; error := error s |}
  | ADD_ITEM payload =>
      match List.find (fun it => id it =? id payload) (items s) with
      | Some _ =>
          {| items :=
               map (fun it =>
                      if id it =? id payload
                      then with_quantity it (quantity it + quantity payload)
                      else it) (items s);
             loading := loading s; error := error s |}
      | None =>
          {| items := items s ++ [payload];
             loading := loading s; error := error s |}
      end
  | UPDATE_ITEM k q =>
      {| items := map (fun it => if id_is it k then with_quantity it q else it)
                      (items s);
         loading := loading s; error := error s |}
  | REMOVE_ITEM k =>
      {| items := List.filter (fun it => negb (id_is it k)) (items s);
         loading := loading s; error := error s |}
  | CLEAR_CART =>
      {| items := []; loading := loading s; error := error s |}
  | SET_LOADING b =>
      {| items := items s; loading := b; error := error s |}
  | SET_ERROR msg =>
      {| items := items s; loading := false; error := Some msg |}
  | OTHER _ => s
  end.

Definition initialState : state :=
  {| items := []; loading := false; error := None |}.

(** ** Entry points

    Each entry point of the provider is an [async] function whose only
    effect is a sequence of [dispatch] calls; none of them contains an
    [await], so the dispatches happen in program order, and the promise
    resolves to [undefined] on every path.  An entry point is modelled by
    the list of actions it dispatches; [run] feeds them to the reducer.
    The [catch] blocks dispatch [SET_ERROR], but nothing inside the [try]
    blocks throws, so no path reaches them. *)

Definition run (s : state) (acts : list action) : state :=
  fold_left cartReducer acts s.

Definition addToCart (product : item) (quantity : Z) : list action :=
  [SET_LOADING true; ADD_ITEM (with_quantity product quantity)].

Definition removeFromCart (productId : jskey) : list action :=
  [REMOVE_ITEM productId].

Definition updateQuantity (productId : jskey) (quantity : Z) : list action :=
  if quantity <=? 0 then removeFromCart productId
  else [UPDATE_ITEM productId quantity].

Definition updateCartItem := updateQuantity.

Definition clearCart : list action := [CLEAR_CART].

Definition getCartTotal (s : state) : number :=
  fold_left
    (fun total it =>
       plus total (times (number_of_price (price it)) (number_of_Z (quantity it))))
    (items s) (zero false).

Definition getCartItemCount (s : state) : Z :=
  fold_left (fun count it => count + quantity it) (items s) 0.

(** ** The product detail page's [handleAddToCart]

    [cartItem] carries the chosen quantity, the selected variant and a
    [cartId] of the form [<id>-<size>-<color>]; it is then passed to
    [addToCart] as the product, without a second argument, so the
    parameter default [quantity = 1] applies. *)

Definition make_cartId (product : item) (selectedSize selectedColor : string)
  : string :=
  number_to_string (id product) +:+ "-" +:+ selectedSize +:+ "-" +:+ selectedColor.

Definition handleAddToCart (product : option item) (quantity : Z)
    (selectedSize selectedColor : string) : list action :=
  match product with
  | None => []
  | Some product =>
      let cartItem :=
        {| id := id product; name := name product; price := price product;
           stock := stock product;
           quantity := quantity;
           selectedSize := Some selectedSize;
           selectedColor := Some selectedColor;
           cartId := Some (make_cartId product selectedSize selectedColor) |} in
      addToCart cartItem 1
  end.

(** ** The cart page ([components/Cart/Cart.js])

    The page addresses a line by [item.cartId || item.id]: the cartId when
    the line has a non-empty one, the product id otherwise. *)

Definition line_key (it : item) : jskey :=
  match cartId it with
  | Some c => if String.eqb c "" then KNum (id it) else KStr c
  | None => KNum (id it)
  end.

Definition handleQuantityChange (it : item) (newQuantity : Z) : list action :=
  if newQuantity <=? 0 then removeFromCart (line_key it)
  else updateQuantity (line_key it) newQuantity.

(** The remove button of a line. *)
Definition remove_button (it : item) : list action :=
  removeFromCart (line_key it).

(** ** Sequences of cart mutations *)

Inductive mutation : Type :=
| AddToCart (product : item) (quantity : Z)
| UpdateQuantity (productId : jskey) (quantity : Z)
| RemoveFromCart (productId : jskey)
| ClearCart.

Definition dispatched (m : mutation) : list action :=
  match m with
  | AddToCart p q => addToCart p q
  | UpdateQuantity k q => updateQuantity k q
  | RemoveFromCart k => removeFromCart k
  | ClearCart => clearCart
  end.

Definition apply_mutation (s : state) (m : mutation) : state :=
  run s (dispatched m).

(** The states reached after each step, the starting state first. *)
Fixpoint trace (s : state) (ms : list mutation) : list state :=
  match ms with
  | [] => [s]
  | m :: ms => s :: trace (apply_mutation s m) ms
  end.

(** ** The sums the specification speaks of, written as the sums they are *)

Fixpoint sum_quantity (l : list item) : Z :=
  match l with
  | [] => 0
  | it :: l => quantity it + sum_quantity l
  end.

(** [item.price * item.quantity] *)
Definition line_total (it : item) : number :=
  times (number_of_price (price it)) (number_of_Z (quantity it)).

(** The sum of a list of numbers, taken in the order of the list: that of
    no number is [0], and that of a list with one more number at its end
    is the sum of the list plus that number.  (The order matters: the
    sum of numbers rounds at every step.) *)
Inductive sums_to : list number -> number -> Prop :=
| sums_to_nil : sums_to [] (zero false)
| sums_to_snoc (l : list number) (x total : number) :
    sums_to l total -> sums_to (l ++ [x]) (plus total x).

(** A line addressed by a key is present in the cart. *)
Definition has_line (k : jskey) (s : state) : bool :=
  existsb (fun it => id_is it k) (items s).

(** The relation between a line before and after an add of [q] units of
    the product with id [n]: a line of that product gains [q] units and
    keeps every other field, its price included; any other line is kept
    as it is. *)
Definition line_after_add (n q : Z) (it it' : item) : Prop :=
  if id it =? n
  then it' = with_quantity it (quantity it + q)
       /\ quantity it' = quantity it + q
       /\ price it' = price it
  else it' = it.

(** No action of the list is a [SET_ERROR]. *)
Definition is_SET_ERROR (a : action) : bool :=
  match a with SET_ERROR _ => true | _ => false end.

Definition reports_no_error (acts : list action) : Prop :=
  forallb (fun a => negb (is_SET_ERROR a)) acts = true.

(** ** Sample data used by the examples *)

Definition shirt : item :=
  {| id := 7; name := "Shirt"; price := 1000; stock := Some 5; quantity := 0;
     selectedSize := None; selectedColor := None; cartId := None |}.

Definition mug : item :=
  {| id := 3; name := "Mug"; price := 450; stock := None; quantity := 0;
     selectedSize := None; selectedColor := None; cartId := None |}.

End Cart.

(* ===================================================================== *)
(** * utils/storage.js                                                    *)
(* ===================================================================== *)

Module Storage.
Import Cart.

(** ** Statements that may throw *)

Inductive completion (A : Type) : Type :=
| Normal (v : A)
| Throw (e : string).
Arguments Normal {A} v.
Arguments Throw {A} e.

(** Sequencing: a throw skips the rest of the block. *)
#[global] Instance completion_ret : MRet completion := fun A v => Normal v.
#[global] Instance completion_bind : MBind completion := fun A B k c =>
  match c with
  | Normal v => k v
  | Throw e => Throw e
  end.

(** [try { body } catch (error) { handler }] *)
Definition try_catch {A} (body : completion A) (handler : string -> completion A)
  : completion A :=
  match body with
  | Normal v => Normal v
  | Throw e => handler e
  end.

(** ** JavaScript values that JSON text denotes *)

#[local] Unset Elimination Schemes.
Inductive json : Type :=
| JNull
| JBool (b : bool)
| JNum (n : Z)
| JStr (s : string)
| JArr (elements : list json)
| JObj (properties : list (string * json)).
#[local] Set Elimination Schemes.

(** The platform's [JSON] object.  [JSON.parse] throws a SyntaxError on
    text that is not JSON; [JSON.stringify] can throw as well. *)
Record JSON : Type := {
  JSON_parse : string -> completion json;
  JSON_stringify : json -> completion string
}.

(** ** The cart items as the JavaScript value they are

    A property whose value is [undefined] does not appear in the text
    [JSON.stringify] writes, nor in what [JSON.parse] reads back. *)

Definition optional {A} (key : string) (f : A -> json) (v : option A)
  : list (string * json) :=
  match v with
  | Some a => [(key, f a)]
  | None => []
  end.

Definition item_to_json (it : item) : json :=
  JObj ([("id", JNum (id it)); ("name", JStr (name it)); ("price", JNum (price it))]
        ++ optional "stock" JNum (stock it)
        ++ [("quantity", JNum (quantity it))]
        ++ optional "selectedSize" JStr (selectedSize it)
        ++ optional "selectedColor" JStr (selectedColor it)
        ++ optional "cartId" JStr (cartId it)).

Definition items_to_json (cartItems : list item) : json :=
  JArr (map item_to_json cartItems).

(** The empty state [[]]. *)
Definition empty_cart : json := JArr [].

(** ** [localStorage]

    A string-to-string store of bounded capacity.  Every access throws a
    SecurityError when the page is denied storage; [setItem] throws a
    QuotaExceededError when the store would outgrow its quota. *)

Record localStorage : Type := {
  entries : gmap string string;
  quota : nat;
  accessible : bool
}.

Definition usage (m : gmap string string) : nat :=
  map_fold (fun k v acc => (String.length k + String.length v + acc)%nat) 0%nat m.

Definition getItem (ls : localStorage) (key : string) : completion (option string) :=
  if accessible ls then Normal (entries ls !! key) else Throw "SecurityError".

Definition setItem (ls : localStorage) (key value : string)
  : completion localStorage :=
  if accessible ls then
    let m := <[key := value]> (entries ls) in
    if (usage m <=? quota ls)%nat
    then Normal {| entries := m; quota := quota ls; accessible := true |}
    else Throw "QuotaExceededError"
  else Throw "SecurityError".

(** Truthiness of what [getItem] returns: [null] and the empty string are
    falsy. *)
Definition truthy (v : option string) : bool :=
  match v with
  | Some text => negb (String.eqb text "")
  | None => false
  end.

(** ** The cart-specific methods *)

Definition getCart (J : JSON) (ls : localStorage) : completion json :=
  try_catch
    (cart ← getItem ls "cart";
     match cart with
     | Some text => if truthy cart then JSON_parse J text else Normal empty_cart
     | None => Normal empty_cart
     end)
    (fun _ => Normal empty_cart).

(** [saveCart] returns [true] or [false]; the store it leaves behind is
    the second component. *)
Definition saveCart (J : JSON) (ls : localStorage) (cartItems : list item)
  : bool * localStorage :=
  match (text ← JSON_stringify J (items_to_json cartItems);
         setItem ls "cart" text) with
  | Normal ls' => (true, ls')
  | Throw _ => (false, ls)
  end.

(** A [JSON] that reads back every value it writes, and never writes the
    empty text. *)
Definition JSON_faithful (J : JSON) : Prop :=
  forall (v : json) (text : string),
    JSON_stringify J v = Normal text ->
    text <> "" /\ JSON_parse J text = Normal v.

(** What the cart key holds: nothing, or text that [JSON.parse] rejects. *)
Definition absent_or_corrupt (J : JSON) (ls : localStorage) : Prop :=
  match entries ls !! "cart" with
  | None => True
  | Some text => exists e, JSON_parse J text = Throw e
  end.

End Storage.

(* ===================================================================== *)
(** * A reference [JSON] for integer-valued data                          *)
(* ===================================================================== *)

(** The browser's [JSON] object is not part of the repository.  This
    module gives one concrete [JSON] (compact output, as [JSON.stringify]
    writes it; a recursive-descent reader) with which the storage code can
    be run on actual text.  Number literals with a fraction or an exponent
    and [\u] escapes lie outside the integer/ASCII model and are
    rejected. *)

Module ReferenceJSON.
Import JS Cart Storage.

Definition dquote : Ascii.ascii := Ascii.ascii_of_nat 34.
Definition backslash : Ascii.ascii := Ascii.ascii_of_nat 92.

Fixpoint escape (s : string) : string :=
  match s with
  | EmptyString => EmptyString
  | String c s' =>
      if Ascii.eqb c dquote then String backslash (String dquote (escape s'))
      else if Ascii.eqb c backslash
      then String backslash (String backslash (escape s'))
      else if Ascii.eqb c newline then String backslash (String "n"%char (escape s'))
      else if Ascii.eqb c tab then String backslash (String "t"%char (escape s'))
      else if Ascii.eqb c carriage_return
      then String backslash (String "r"%char (escape s'))
      else String c (escape s')
  end.

Definition quoted (s : string) : string :=
  String dquote (escape s +:+ String dquote EmptyString).

Fixpoint print (v : json) : string :=
  match v with
  | JNull => "null"
  | JBool true => "true"
  | JBool false => "false"
  | JNum n => number_to_string n
  | JStr s => quoted s
  | JArr l =>
      "[" +:+
      (fix elements (l : list json) : string :=
         match l with
         | [] => ""
         | x :: l' =>
             match l' with
             | [] => print x
             | _ :: _ => print x +:+ "," +:+ elements l'
             end
         end) l
      +:+ "]"
  | JObj ps =>
      "{" +:+
      (fix members (ps : list (string * json)) : string :=
         match ps with
         | [] => ""
         | (k, x) :: ps' =>
             match ps' with
             | [] => quoted k +:+ ":" +:+ print x
             | _ :: _ => quoted k +:+ ":" +:+ print x +:+ "," +:+ members ps'
             end
         end) ps
      +:+ "}"
  end.

Fixpoint strip_prefix (p s : string) : option string :=
  match p, s with
  | EmptyString, _ => Some s
  | String a p', String b s' => if Ascii.eqb a b then strip_prefix p' s' else None
  | String _ _, EmptyString => None
  end.

(** Digits, at least one, not followed by a fraction or an exponent. *)
Definition read_natural (s : string) : option (Z * string) :=
  match s with
  | String c _ =>
      match digit_of c with
      | Some _ =>
          let '(n, rest) := read_digits s 0 in
          match rest with
          | String d _ =>
              if Ascii.eqb d "."%char || Ascii.eqb d "e"%char || Ascii.eqb d "E"%char
              then None else Some (n, rest)
          | EmptyString => Some (n, rest)
          end
      | None => None
      end
  | EmptyString => None
  end.

Definition unescape (c : Ascii.ascii) : option Ascii.ascii :=
  if Ascii.eqb c dquote then Some dquote
  else if Ascii.eqb c backslash then Some backslash
  else if Ascii.eqb c "/"%char then Some "/"%char
  else if Ascii.eqb c "n"%char then Some newline
  else if Ascii.eqb c "t"%char then Some tab
  else if Ascii.eqb c "r"%char then Some carriage_return
  else None.

(** The characters after an opening quote, up to the closing one. *)
Fixpoint read_string (s : string) : option (string * string) :=
  match s with
  | EmptyString => None
  | String c s' =>
      if Ascii.eqb c dquote then Some (EmptyString, s')
      else if Ascii.eqb c backslash then
        match s' with
        | String e s'' =>
            match unescape e, read_string s'' with
            | Some ch, Some (str, rest) => Some (String ch str, rest)
            | _, _ => None
            end
        | EmptyString => None
        end
      else
        match read_string s' with
        | Some (str, rest) => Some (String c str, rest)
        | None => None
        end
  end.

Fixpoint read_value (fuel : nat) (s : string) : option (json * string) :=
  match fuel with
  | O => None
  | S fuel =>
      match skip_whitespace s with
      | EmptyString => None
      | String c rest =>
          if Ascii.eqb c "n"%char then
            rest' ← strip_prefix "ull" rest; Some (JNull, rest')
          else if Ascii.eqb c "t"%char then
            rest' ← strip_prefix "rue" rest; Some (JBool true, rest')
          else if Ascii.eqb c "f"%char then
            rest' ← strip_prefix "alse" rest; Some (JBool false, rest')
          else if Ascii.eqb c dquote then
            '(str, rest') ← read_string rest; Some (JStr str, rest')
          else if Ascii.eqb c "-"%char then
            '(n, rest') ← read_natural rest; Some (JNum (- n), rest')
          else if Ascii.eqb c "["%char then
            match skip_whitespace rest with
            | String d rest' =>
                if Ascii.eqb d "]"%char then Some (JArr [], rest')
                else '(l, rest'') ← read_elements fuel rest; Some (JArr l, rest'')
            | EmptyString => None
            end
          else if Ascii.eqb c "{"%char then
            match skip_whitespace rest with
            | String d rest' =>
                if Ascii.eqb d "}"%char then Some (JObj [], rest')
                else '(ps, rest'') ← read_members fuel rest; Some (JObj ps, rest'')
            | EmptyString => None
            end
          else
            '(n, rest') ← read_natural (String c rest); Some (JNum n, rest')
      end
  end
with read_elements (fuel : nat) (s : string) : option (list json * string) :=
  match fuel with
  | O => None
  | S fuel =>
      '(v, rest) ← read_value fuel s;
      match skip_whitespace rest with
      | String d rest' =>
          if Ascii.eqb d "]"%char then Some ([v], rest')
          else if Ascii.eqb d ","%char then
            '(l, rest'') ← read_elements fuel rest'; Some (v :: l, rest'')
          else None
      | EmptyString => None
      end
  end
with read_members (fuel : nat) (s : string)
  : option (list (string * json) * string) :=
  match fuel with
  | O => None
  | S fuel =>
      match skip_whitespace s with
      | String q rest =>
          if Ascii.eqb q dquote then
            '(k, rest1) ← read_string rest;
            match skip_whitespace rest1 with
            | String colon rest2 =>
                if Ascii.eqb colon ":"%char then
                  '(v, rest3) ← read_value fuel rest2;
                  match skip_whitespace rest3 with
                  | String d rest4 =>
                      if Ascii.eqb d "}"%char then Some ([(k, v)], rest4)
                      else if Ascii.eqb d ","%char then
                        '(ps, rest5) ← read_members fuel rest4;
                        Some ((k, v) :: ps, rest5)
                      else None
                  | EmptyString => None
                  end
                else None
            | EmptyString => None
            end
          else None
      | EmptyString => None
      end
  end.

Definition parse (text : string) : completion json :=
  match read_value (2 * String.length text + 2) text with
  | Some (v, rest) =>
      match skip_whitespace rest with
      | EmptyString => Normal v
      | String _ _ => Throw "SyntaxError"
      end
  | None => Throw "SyntaxError"
  end.

(** *** Notions used to state that [parse] reads back what [print] wrote *)

(** The number a run of decimal digits denotes, read left to right. *)
Fixpoint digits_value (d : Decimal.uint) (acc : Z) : Z :=
  match d with
  | Decimal.Nil => acc
  | Decimal.D0 d => digits_value d (10 * acc + 0)
  | Decimal.D1 d => digits_value d (10 * acc + 1)
  | Decimal.D2 d => digits_value d (10 * acc + 2)
  | Decimal.D3 d => digits_value d (10 * acc + 3)
  | Decimal.D4 d => digits_value d (10 * acc + 4)
  | Decimal.D5 d => digits_value d (10 * acc + 5)
  | Decimal.D6 d => digits_value d (10 * acc + 6)
  | Decimal.D7 d => digits_value d (10 * acc + 7)
  | Decimal.D8 d => digits_value d (10 * acc + 8)
  | Decimal.D9 d => digits_value d (10 * acc + 9)
  end.

(** Text that can follow a number literal without being read into it. *)
Definition ends_number (rest : string) : Prop :=
  match rest with
  | EmptyString => True
  | String c _ =>
      digit_of c = None
      /\ (Ascii.eqb c "."%char || Ascii.eqb c "e"%char || Ascii.eqb c "E"%char)
         = false
  end.

Fixpoint print_elements (l : list json) : string :=
  match l with
  | [] => ""
  | x :: l' =>
      match l' with
      | [] => print x
      | _ :: _ => print x +:+ "," +:+ print_elements l'
      end
  end.

Fixpoint print_members (ps : list (string * json)) : string :=
  match ps with
  | [] => ""
  | (k, x) :: ps' =>
      match ps' with
      | [] => quoted k +:+ ":" +:+ print x
      | _ :: _ => quoted k +:+ ":" +:+ print x +:+ "," +:+ print_members ps'
      end
  end.

(** Fuel that suffices to read a value back. *)
Fixpoint cost (v : json) : nat :=
  match v with
  | JArr l => S (fold_right (fun x n => S (cost x + n)) O l)
  | JObj ps => S (fold_right (fun kx n => S (cost (snd kx) + n)) O ps)
  | _ => 1
  end.

Definition elements_cost (l : list json) : nat :=
  fold_right (fun x n => S (cost x + n)) O l.

Definition members_cost (ps : list (string * json)) : nat :=
  fold_right (fun kx n => S (cost (snd kx) + n)) O ps.

(** With fuel to cover its cost, a printed value is read back, and what
    follows it in the text is left over. *)
Definition reads_back (v : json) : Prop :=
  forall (fuel : nat) (rest : string),
    (cost v <= fuel)%nat -> ends_number rest ->
    read_value fuel (print v +:+ rest) = Some (v, rest).

Definition reference : JSON :=
  {| JSON_parse := parse;
     JSON_stringify := fun v => Normal (print v) |}.

(** A device store with room to spare, and one that is full. *)
Definition roomy : localStorage :=
  {| entries := ∅; quota := 5000; accessible := true |}.

Definition cramped : localStorage :=
  {| entries := {[ "cart" := "[]" ]}; quota := 10; accessible := true |}.

(** A store whose snapshot was cut short, and one the page may not touch. *)
Definition torn : localStorage :=
  {| entries := {[ "cart" := "[{oops" ]}; quota := 5000; accessible := true |}.

Definition denied : localStorage :=
  {| entries := {[ "cart" := "[]" ]}; quota := 5000; accessible := false |}.

End ReferenceJSON.

(* ===================================================================== *)
(** * context/ProductContext.js: [getFilteredProducts]                    *)
(* ===================================================================== *)

Module Catalog.
Import JS.

(** A product record; the [price] is in hundredths. *)
Record product : Type := {
  id : Z;
  name : string;
  description : string;
  price : Z;
  category_id : Z;
  rating : Z;
  stock : Z
}.

Record filters_t : Type := {
  category : string;
  minPrice : string;
  maxPrice : string;
  sortBy : string;
  sortOrder : string
}.

(** The part of the provider's state that [getFilteredProducts] reads. *)
Record state : Type := {
  products : list product;
  searchQuery : string;
  filters : filters_t
}.

Definition initial_filters : filters_t :=
  {| category := ""; minPrice := ""; maxPrice := "";
     sortBy := "name"; sortOrder := "asc" |}.

(** [p[key]] *)
Definition field (p : product) (key : string) : value :=
  if String.eqb key "id" then VNum (id p)
  else if String.eqb key "name" then VStr (name p)
  else if String.eqb key "description" then VStr (description p)
  else if String.eqb key "price" then VNum (price p)
  else if String.eqb key "category_id" then VNum (category_id p)
  else if String.eqb key "rating" then VNum (rating p)
  else if String.eqb key "stock" then VNum (stock p)
  else VUndefined.

Definition lower_value (v : value) : value :=
  match v with
  | VStr s => VStr (toLowerCase s)
  | _ => v
  end.

(** The value the comparator compares: the field named by [sortBy],
    lower-cased when it is a string. *)
Definition sort_key (f : filters_t) (p : product) : value :=
  lower_value (field p (sortBy f)).

(** The comparator handed to [sort]. *)
Definition comparator (f : filters_t) (a b : product) : Z :=
  let aValue := field a (sortBy f) in
  let bValue := field b (sortBy f) in
  let '(aValue, bValue) :=
    match aValue with
    | VStr _ => (lower_value aValue, lower_value bValue)
    | _ => (aValue, bValue)
    end in
  if String.eqb (sortOrder f) "asc"
  then (if js_gt aValue bValue then 1 else -1)
  else (if js_lt aValue bValue then 1 else -1).

Definition matches_search (query : string) (p : product) : bool :=
  includes (toLowerCase (name p)) query
  || includes (toLowerCase (description p)) query.

(** [product.category_id === parseInt(category)] *)
Definition in_category (category : string) (p : product) : bool :=
  strict_equal (number_of_Z (category_id p)) (parseInt category).

(** [product.price >= parseFloat(minPrice)] *)
Definition at_least (minPrice : string) (p : product) : bool :=
  number_ge (number_of_price (price p)) (parseFloat minPrice).

(** [product.price <= parseFloat(maxPrice)] *)
Definition at_most (maxPrice : string) (p : product) : bool :=
  number_le (number_of_price (price p)) (parseFloat maxPrice).

(** The filtering steps, up to the sort. *)
Definition apply_filters (st : state) : list product :=
  let filtered := products st in
  let filtered :=
    if nonempty (searchQuery st)
    then List.filter (matches_search (toLowerCase (searchQuery st))) filtered
    else filtered in
  let filtered :=
    if nonempty (category (filters st))
    then List.filter (in_category (category (filters st))) filtered
    else filtered in
  let filtered :=
    if nonempty (minPrice (filters st))
    then List.filter (at_least (minPrice (filters st))) filtered
    else filtered in
  let filtered :=
    if nonempty (maxPrice (filters st))
    then List.filter (at_most (maxPrice (filters st))) filtered
    else filtered in
  filtered.

Definition getFilteredProducts (st : state) : list product :=
  Array_sort (comparator (filters st)) (apply_filters st).

(** ** Orders on records induced by the sort key *)

(** [a]'s key is not greater than [b]'s. *)
Definition key_le (f : filters_t) (a b : product) : Prop :=
  js_gt (sort_key f a) (sort_key f b) = false.

(** [a]'s key is not less than [b]'s. *)
Definition key_ge (f : filters_t) (a b : product) : Prop :=
  js_lt (sort_key f a) (sort_key f b) = false.

(** The tie-break the specification asks for: of two records with the
    same key, the one placed first has the smaller id. *)
Definition ties_by_ascending_id (f : filters_t) (l : list product) : Prop :=
  forall (i j : nat) (a b : product),
    (i < j)%nat -> l !! i = Some a -> l !! j = Some b ->
    sort_key f a = sort_key f b -> id a < id b.

(** Two records hold values of the same kind under the same field name. *)
Definition same_kind (u v : value) : Prop :=
  match u, v with
  | VUndefined, VUndefined | VNum _, VNum _ | VStr _, VStr _ => True
  | _, _ => False
  end.

(** ** Sample catalog: three records with the same name *)

Definition lamp (n : Z) : product :=
  {| id := n; name := "Lamp"; description := "A lamp"; price := 2500;
     category_id := 1; rating := 4; stock := 10 |}.

Definition three_lamps : state :=
  {| products := [lamp 3; lamp 1; lamp 2];
     searchQuery := ""; filters := initial_filters |}.

Definition mixed_catalog : state :=
  {| products :=
       [ {| id := 1; name := "pear"; description := "Conference";
            price := 300; category_id := 2; rating := 4; stock := 10 |};
         {| id := 2; name := "Apple"; description := "Boskoop";
            price := 250; category_id := 2; rating := 5; stock := 0 |};
         {| id := 3; name := "Lamp"; description := "Desk lamp";
            price := 2500; category_id := 1; rating := 3; stock := 4 |};
         {| id := 4; name := "apple"; description := "Elstar";
            price := 200; category_id := 2; rating := 4; stock := 7 |} ];
     searchQuery := "";
     filters := {| category := "2"; minPrice := ""; maxPrice := "2.80";
                   sortBy := "price"; sortOrder := "desc" |} |}.

End Catalog.

(* ===================================================================== *)
(** * Notions about carts used beyond the basic properties                *)
(* ===================================================================== *)

Module CartNotions.
Import Cart.

(** A whole sequence of mutations, applied in order. *)
Definition apply_all (s : state) (ms : list mutation) : state :=
  fold_left apply_mutation ms s.

(** No two lines of the cart belong to the same product id. *)
Definition distinct_ids (s : state) : Prop := NoDup (map id (items s)).

(** Every line holds at least one unit. *)
Definition quantities_positive (s : state) : Prop :=
  Forall (fun it => 1 <= quantity it) (items s).

(** Every add of the sequence asks for at least one unit. *)
Definition adds_positive (ms : list mutation) : Prop :=
  Forall (fun m => match m with AddToCart _ q => 1 <= q | _ => True end) ms.

(** The line of product [n], if the cart has one. *)
Definition line_of (n : Z) (s : state) : option item :=
  List.find (fun it => id it =? n) (items s).

(** The sum [getCartTotal] forms, continued from [acc] over the lines
    [l]. *)
Definition total_from (acc : JS.number) (l : list item) : JS.number :=
  fold_left (fun total it => JS.plus total (line_total it)) l acc.

(** The cart is the lines [before], then [line], then the lines [after]. *)
Definition splits_at (s : state) (before : list item) (line : item)
    (after : list item) : Prop :=
  items s = before ++ line :: after.

End CartNotions.

(* ===================================================================== *)
(** * utils/storage.js: the general-purpose and theme methods             *)
(* ===================================================================== *)

Module StorageMethods.
Import Cart Storage.

(** [localStorage.removeItem] and [localStorage.clear]. *)
Definition removeItem (ls : localStorage) (key : string)
  : completion localStorage :=
  if accessible ls
  then Normal {| entries := delete key (entries ls); quota := quota ls;
                 accessible := true |}
  else Throw "SecurityError".

Definition clear (ls : localStorage) : completion localStorage :=
  if accessible ls
  then Normal {| entries := ∅; quota := quota ls; accessible := true |}
  else Throw "SecurityError".

(** [storage.getItem]: the parsed value, or [null]. *)
Definition storage_getItem (J : JSON) (ls : localStorage) (key : string)
  : completion json :=
  try_catch
    (item ← getItem ls key;
     match item with
     | Some text => if truthy item then JSON_parse J text else Normal JNull
     | None => Normal JNull
     end)
    (fun _ => Normal JNull).

(** [storage.setItem]: [true] or [false], and the store left behind. *)
Definition storage_setItem (J : JSON) (ls : localStorage) (key : string)
    (value : json) : bool * localStorage :=
  match (text ← JSON_stringify J value; setItem ls key text) with
  | Normal ls' => (true, ls')
  | Throw _ => (false, ls)
  end.

Definition storage_removeItem (ls : localStorage) (key : string)
  : bool * localStorage :=
  match removeItem ls key with
  | Normal ls' => (true, ls')
  | Throw _ => (false, ls)
  end.

Definition storage_clear (ls : localStorage) : bool * localStorage :=
  match clear ls with
  | Normal ls' => (true, ls')
  | Throw _ => (false, ls)
  end.

(** [storage.hasItem] has no [try]: what [getItem] throws, it throws. *)
Definition storage_hasItem (ls : localStorage) (key : string)
  : completion bool :=
  item ← getItem ls key;
  Normal (match item with Some _ => true | None => false end).

(** The theme is stored as it is, not as JSON. *)
Definition getTheme (ls : localStorage) : completion (option string) :=
  try_catch (getItem ls "theme") (fun _ => Normal None).

Definition saveTheme (ls : localStorage) (theme : string)
  : bool * localStorage :=
  match setItem ls "theme" theme with
  | Normal ls' => (true, ls')
  | Throw _ => (false, ls)
  end.

End StorageMethods.

(* ===================================================================== *)
(** * context/AppContext.js: what login and logout keep in the store      *)
(* ===================================================================== *)

Module AppStore.
Import Cart Storage StorageMethods.

(** Truthiness of a string that may be missing. *)
Definition given (token : option string) : bool := truthy token.

(** [login(userData, token)]: the token, when there is one, and the user
    data go to the store; a failed write is rethrown after a
    notification.  The result says whether the call returned, and gives
    the store it leaves behind either way. *)
Definition login_store (J : JSON) (ls : localStorage) (userData : json)
    (token : option string) : bool * localStorage :=
  match (match token with
         | Some t => if given token then setItem ls "authToken" t else Normal ls
         | None => Normal ls
         end) with
  | Normal ls1 =>
      match (text ← JSON_stringify J userData; setItem ls1 "userData" text) with
      | Normal ls2 => (true, ls2)
      | Throw _ => (false, ls1)
      end
  | Throw _ => (false, ls)
  end.

(** [logout()]: both keys are removed; an exception is logged and
    dropped, leaving whatever had been removed before it. *)
Definition logout_store (ls : localStorage) : localStorage :=
  match removeItem ls "authToken" with
  | Normal ls1 =>
      match removeItem ls1 "userData" with
      | Normal ls2 => ls2
      | Throw _ => ls1
      end
  | Throw _ => ls
  end.

(** The effect that restores the session on mount.  It reads both keys
    outside any [try]; with both present and non-empty it parses the user
    data and dispatches [SET_USER], and removes both keys when the parse
    fails.  The result is the user dispatched, if any, and the store. *)
Definition restore_session (J : JSON) (ls : localStorage)
  : completion (option json * localStorage) :=
  token ← getItem ls "authToken";
  userData ← getItem ls "userData";
  if given token && given userData then
    match userData with
    | Some text =>
        try_catch
          (user ← JSON_parse J text; Normal (Some user, ls))
          (fun _ =>
             ls1 ← removeItem ls "authToken";
             ls2 ← removeItem ls1 "userData";
             Normal (None, ls2))
    | None => Normal (None, ls)
    end
  else Normal (None, ls).

End AppStore.

(* ===================================================================== *)
(** * CartContext.js: the provider's two effects                          *)
(* ===================================================================== *)

Module CartProvider.
Import JS Cart Storage.

(** A JavaScript value used as a condition. *)
Definition js_truthy (v : json) : bool :=
  match v with
  | JNull => false
  | JBool b => b
  | JNum n => negb (n =? 0)
  | JStr s => nonempty s
  | JArr _ | JObj _ => true
  end.

(** [object[key]]: of two properties with the same key in the text, the
    later one is the object's. *)
Definition property (key : string) (ps : list (string * json)) : option json :=
  snd <$> List.find (fun kx => String.eqb (fst kx) key) (rev ps).

Definition as_number (v : json) : option Z :=
  match v with JNum n => Some n | _ => None end.

Definition as_string (v : json) : option string :=
  match v with JStr s => Some s | _ => None end.

(** A property that may be missing; present with a value of another kind
    it has no counterpart among cart lines. *)
Definition optional_property {A} (as_kind : json -> option A) (key : string)
    (ps : list (string * json)) : option (option A) :=
  match property key ps with
  | Some v => Some <$> as_kind v
  | None => Some None
  end.

(** The cart line a JavaScript value is, when it is one. *)
Definition json_to_item (v : json) : option item :=
  match v with
  | JObj ps =>
      i ← property "id" ps ≫= as_number;
      n ← property "name" ps ≫= as_string;
      p ← property "price" ps ≫= as_number;
      st ← optional_property as_number "stock" ps;
      q ← property "quantity" ps ≫= as_number;
      sz ← optional_property as_string "selectedSize" ps;
      co ← optional_property as_string "selectedColor" ps;
      ci ← optional_property as_string "cartId" ps;
      Some {| id := i; name := n; price := p; stock := st; quantity := q;
              selectedSize := sz; selectedColor := co; cartId := ci |}
  | _ => None
  end.

Definition json_to_items (v : json) : option (list item) :=
  match v with
  | JArr l => mapM json_to_item l
  | _ => None
  end.

(** The effect that loads the cart on mount: [SET_CART] with what
    [storage.getCart] returned, if that is truthy.  [None] marks a saved
    value that is truthy but not a list of cart lines, with which the
    state would leave what [items : list item] can hold. *)
Definition load_on_mount (J : JSON) (ls : localStorage) : option (list action) :=
  match getCart J ls with
  | Normal savedCart =>
      if js_truthy savedCart
      then its ← json_to_items savedCart; Some [SET_CART its]
      else Some []
  | Throw _ => Some []
  end.

(** The effect that saves the cart whenever [state.items] changes. *)
Definition save_on_change (J : JSON) (ls : localStorage) (s : state)
  : localStorage :=
  snd (saveCart J ls (items s)).

End CartProvider.

(* ===================================================================== *)
(** * context/ProductContext.js: the reducer and its entry points         *)
(* ===================================================================== *)

Module CatalogState.
Import JS.

Record pagination_t : Type := {
  currentPage : Z;
  totalPages : Z;
  totalItems : Z;
  itemsPerPage : Z
}.

(** The provider's state.  The categories are kept as the service
    delivered them. *)
Record state : Type := {
  products : list Catalog.product;
  categories : list Storage.json;
  loading : bool;
  error : option string;
  searchQuery : string;
  filters : Catalog.filters_t;
  pagination : pagination_t
}.

(** Payloads that name some of the fields: [{ ...old, ...payload }]. *)
Record filters_patch : Type := {
  new_category : option string;
  new_minPrice : option string;
  new_maxPrice : option string;
  new_sortBy : option string;
  new_sortOrder : option string
}.

Record pagination_patch : Type := {
  new_currentPage : option Z;
  new_totalPages : option Z;
  new_totalItems : option Z;
  new_itemsPerPage : option Z
}.

Definition merge_filters (old : Catalog.filters_t) (p : filters_patch)
  : Catalog.filters_t :=
  {| Catalog.category := default (Catalog.category old) (new_category p);
     Catalog.minPrice := default (Catalog.minPrice old) (new_minPrice p);
     Catalog.maxPrice := default (Catalog.maxPrice old) (new_maxPrice p);
     Catalog.sortBy := default (Catalog.sortBy old) (new_sortBy p);
     Catalog.sortOrder := default (Catalog.sortOrder old) (new_sortOrder p) |}.

Definition merge_pagination (old : pagination_t) (p : pagination_patch)
  : pagination_t :=
  {| currentPage := default (currentPage old) (new_currentPage p);
     totalPages := default (totalPages old) (new_totalPages p);
     totalItems := default (totalItems old) (new_totalItems p);
     itemsPerPage := default (itemsPerPage old) (new_itemsPerPage p) |}.

Inductive action : Type :=
| SET_PRODUCTS (payload : list Catalog.product)
| SET_CATEGORIES (payload : list Storage.json)
| SET_FILTERS (payload : filters_patch)
| SET_SEARCH_QUERY (payload : string)
| SET_LOADING (payload : bool)
| SET_ERROR (payload : string)
| SET_PAGINATION (payload : pagination_patch)
| OTHER (type : string).

Definition productReducer (s : state) (a : action) : state :=
  match a with
  | SET_PRODUCTS payload =>
      {| products := payload; categories := categories s; loading := false;
         error := error s; searchQuery := searchQuery s;
         filters := filters s; pagination := pagination s |}
  | SET_CATEGORIES payload =>
      {| products := products s; categories := payload; loading := loading s;
         error := error s; searchQuery := searchQuery s;
         filters := filters s; pagination := pagination s |}
  | SET_FILTERS payload =>
      {| products := products s; categories := categories s;
         loading := loading s; error := error s;
         searchQuery := searchQuery s;
         filters := merge_filters (filters s) payload;
         pagination := pagination s |}
  | SET_SEARCH_QUERY payload =>
      {| products := products s; categories := categories s;
         loading := loading s; error := error s;
         searchQuery := payload;
         filters := filters s; pagination := pagination s |}
  | SET_LOADING payload =>
      {| products := products s; categories := categories s;
         loading := payload; error := error s;
         searchQuery := searchQuery s;
         filters := filters s; pagination := pagination s |}
  | SET_ERROR payload =>
      {| products := products s; categories := categories s;
         loading := false; error := Some payload;
         searchQuery := searchQuery s;
         filters := filters s; pagination := pagination s |}
  | SET_PAGINATION payload =>
      {| products := products s; categories := categories s;
         loading := loading s; error := error s;
         searchQuery := searchQuery s;
         filters := filters s;
         pagination := merge_pagination (pagination s) payload |}
  | OTHER _ => s
  end.

Definition initialState : state :=
  {| products := []; categories := []; loading := false; error := None;
     searchQuery := "";
     filters := Catalog.initial_filters;
     pagination := {| currentPage := 1; totalPages := 1; totalItems := 0;
                      itemsPerPage := 12 |} |}.

Definition run (s : state) (acts : list action) : state :=
  fold_left productReducer acts s.

Definition page_one : pagination_patch :=
  {| new_currentPage := Some 1; new_totalPages := None;
     new_totalItems := None; new_itemsPerPage := None |}.

Definition setSearchQuery (query : string) : list action :=
  [SET_SEARCH_QUERY query; SET_PAGINATION page_one].

Definition setFilters (newFilters : filters_patch) : list action :=
  [SET_FILTERS newFilters; SET_PAGINATION page_one].

Definition setCurrentPage (page : Z) : list action :=
  [SET_PAGINATION {| new_currentPage := Some page; new_totalPages := None;
                     new_totalItems := None; new_itemsPerPage := None |}].

Definition clearFilters : list action :=
  [SET_FILTERS {| new_category := Some ""; new_minPrice := Some "";
                  new_maxPrice := Some ""; new_sortBy := Some "name";
                  new_sortOrder := Some "asc" |};
   SET_SEARCH_QUERY ""].

Definition getProductById (s : state) (n : Z) : option Catalog.product :=
  List.find (fun product => Catalog.id product =? n) (products s).

(** What [getFilteredProducts] reads of the provider's state. *)
Definition view (s : state) : Catalog.state :=
  {| Catalog.products := products s;
     Catalog.searchQuery := searchQuery s;
     Catalog.filters := filters s |}.

(** ** What a record has to pass to be shown *)

Definition passes (st : Catalog.state) (p : Catalog.product) : bool :=
  (if nonempty (Catalog.searchQuery st)
   then Catalog.matches_search (toLowerCase (Catalog.searchQuery st)) p
   else true)
  && (if nonempty (Catalog.category (Catalog.filters st))
      then Catalog.in_category (Catalog.category (Catalog.filters st)) p
      else true)
  && (if nonempty (Catalog.minPrice (Catalog.filters st))
      then Catalog.at_least (Catalog.minPrice (Catalog.filters st)) p
      else true)
  && (if nonempty (Catalog.maxPrice (Catalog.filters st))
      then Catalog.at_most (Catalog.maxPrice (Catalog.filters st)) p
      else true).

(** [st'] has every filter in force that [st] has, and possibly more: the
    base set is the same, and each of the search term, the category and
    the two price bounds of [st] is either empty or the same in [st'].
    The sort key and order are free. *)
Definition narrows (st st' : Catalog.state) : Prop :=
  Catalog.products st' = Catalog.products st
  /\ (Catalog.searchQuery st = ""
      \/ Catalog.searchQuery st' = Catalog.searchQuery st)
  /\ (Catalog.category (Catalog.filters st) = ""
      \/ Catalog.category (Catalog.filters st')
         = Catalog.category (Catalog.filters st))
  /\ (Catalog.minPrice (Catalog.filters st) = ""
      \/ Catalog.minPrice (Catalog.filters st')
         = Catalog.minPrice (Catalog.filters st))
  /\ (Catalog.maxPrice (Catalog.filters st) = ""
      \/ Catalog.maxPrice (Catalog.filters st')
         = Catalog.maxPrice (Catalog.filters st)).

(** A filter value whose first character is a lower-case letter: no
    number can be read from it. *)
Definition starts_with_lowercase (s : string) : bool :=
  match s with
  | String c _ =>
      let n := Ascii.nat_of_ascii c in ((97 <=? n) && (n <=? 122))%nat
  | EmptyString => false
  end.

End CatalogState.

(* ===================================================================== *)
(** * The product detail page: quantity stepper and rating stars          *)
(* ===================================================================== *)

Module ProductDetail.

(** [product?.stock || 99]: a missing stock and a stock of zero both give
    99. *)
Definition stock_limit (stock : option Z) : Z :=
  match stock with
  | Some n => if n =? 0 then 99 else n
  | None => 99
  end.

(** [handleQuantityChange(change)]: the new quantity is taken only if it
    lies between 1 and the limit. *)
Definition handleQuantityChange (stock : option Z) (quantity change : Z) : Z :=
  let newQuantity := quantity + change in
  if (1 <=? newQuantity) && (newQuantity <=? stock_limit stock)
  then newQuantity else quantity.

(** The quantity after a series of clicks; the page starts at 1. *)
Definition after_clicks (stock : option Z) (changes : list Z) : Z :=
  fold_left (handleQuantityChange stock) changes 1.

Inductive star : Type := full_star | half_star | empty_star.

(** [renderStars(rating)].  A finite JavaScript number is a rational, and
    [Math.floor], [Math.ceil] and [% 1] are exact on it. *)
Definition renderStars (rating : Q) : list star :=
  let fullStars := Qfloor rating in
  let hasHalfStar := negb (Qeq_bool rating (inject_Z (Qfloor rating))) in
  let emptyStars := 5 - Qceiling rating in
  repeat full_star (Z.to_nat fullStars)
  ++ (if hasHalfStar then [half_star] else [])
  ++ repeat empty_star (Z.to_nat emptyStars).

End ProductDetail.

(* ===================================================================== *)
(** * components/ProductGrid/ProductGrid.js: the grid's own filter        *)
(* ===================================================================== *)

Module ProductGrid.
Import JS.

(** The fields of a product the grid reads.  Prices and ratings are the
    rationals the numbers denote: the grid only compares them and takes
    the sign of differences, which is exact. *)
Record product : Type := {
  id : Z;
  name : string;
  description : option string;
  price : Q;
  category : string;
  rating : option Q
}.

Record filters_t : Type := {
  filter_category : string;
  priceRange : string;
  sortBy : string
}.

(** An entry of [priceRanges]; [None] as upper bound is [Infinity]. *)
Record price_range : Type := {
  label : string;
  min : Q;
  max : option Q
}.

Definition priceRanges : list price_range :=
  [ {| label := "Under $25"; min := 0; max := Some 25%Q |};
    {| label := "$25 - $50"; min := 25; max := Some 50%Q |};
    {| label := "$50 - $100"; min := 50; max := Some 100%Q |};
    {| label := "$100 - $200"; min := 100; max := Some 200%Q |};
    {| label := "Over $200"; min := 200; max := None |} ].

Definition find_range (l : string) : option price_range :=
  List.find (fun r => String.eqb (label r) l) priceRanges.

(** [product.price >= range.min && product.price <= range.max] *)
Definition in_range (r : price_range) (p : product) : bool :=
  Qle_bool (min r) (price p)
  && match max r with
     | Some m => Qle_bool (price p) m
     | None => true
     end.

Definition matches_search (searchTerm : string) (p : product) : bool :=
  includes (toLowerCase (name p)) (toLowerCase searchTerm)
  || match description p with
     | Some d => includes (toLowerCase d) (toLowerCase searchTerm)
     | None => false
     end.

(** What [sort] looks at in the comparator's result: its sign. *)
Definition sign (q : Q) : Z :=
  match (q ?= 0)%Q with
  | Lt => -1
  | Eq => 0
  | Gt => 1
  end.

(** [product.rating || 0] *)
Definition rating_or_zero (p : product) : Q := default 0%Q (rating p).

(** The comparator.  [localeCompare] depends on the locale and is taken
    as given. *)
Definition comparator (localeCompare : string -> string -> Z)
    (f : filters_t) (a b : product) : Z :=
  if String.eqb (sortBy f) "price-low" then sign (price a - price b)
  else if String.eqb (sortBy f) "price-high" then sign (price b - price a)
  else if String.eqb (sortBy f) "rating"
  then sign (rating_or_zero b - rating_or_zero a)
  else localeCompare (name a) (name b).

(** The filtering steps of the effect, up to the sort. *)
Definition apply_filters (products : list product) (f : filters_t)
    (searchTerm : string) : list product :=
  let filtered := products in
  let filtered :=
    if nonempty searchTerm
    then List.filter (matches_search searchTerm) filtered
    else filtered in
  let filtered :=
    if nonempty (filter_category f)
    then List.filter (fun p => String.eqb (category p) (filter_category f))
                     filtered
    else filtered in
  let filtered :=
    if nonempty (priceRange f)
    then match find_range (priceRange f) with
         | Some range => List.filter (in_range range) filtered
         | None => filtered
         end
    else filtered in
  filtered.

(** The list the effect hands to [setFilteredProducts]. *)
Definition filteredProducts (localeCompare : string -> string -> Z)
    (products : list product) (f : filters_t) (searchTerm : string)
  : list product :=
  Array_sort (comparator localeCompare f) (apply_filters products f searchTerm).

(** The products with a given price, in the order of the list. *)
Definition priced (v : Q) (l : list product) : list product :=
  List.filter (fun p => Qeq_bool (price p) v) l.

(** Sample data. *)
Definition by_code_units (a b : string) : Z :=
  match String.compare a b with Lt => -1 | Eq => 0 | Gt => 1 end.

Definition gadget (n : Z) (cost : Q) : product :=
  {| id := n; name := "Gadget"; description := None; price := cost;
     category := "Electronics"; rating := None |}.

End ProductGrid.

(* ===================================================================== *)
(** * Numbers and the texts read as numbers                               *)
(* ===================================================================== *)

Module NumberFacts.
Import JS.

(** 99.99 as a number: 7036170730324623 / 2^46. *)
Example number_of_price_9999 :
  number_of_price 9999 = SpecFloat.S754_finite false 7036170730324623 (-46).
Proof. vm_compute. reflexivity. Qed.

(** [0.1 + 0.2] is not [0.3], and [0.1 * 3] is [0.30000000000000004]. *)
Example sums_and_products_round :
  plus (number_of_price 10) (number_of_price 20) <> number_of_price 30
  /\ times (number_of_price 10) (number_of_Z 3)
     = parseFloat "0.30000000000000004".
Proof. vm_compute. split; [discriminate | reflexivity]. Qed.

(** Integers beyond 2^53 round to the nearest number. *)
Example number_of_Z_rounds :
  number_of_Z (2 ^ 53 + 1) = number_of_Z (2 ^ 53).
Proof. vm_compute. reflexivity. Qed.

Example parseFloat_examples :
  parseFloat "250.5" = number_of_ratio 501 2
  /\ parseFloat ".5" = number_of_ratio 1 2
  /\ parseFloat "1e3" = number_of_Z 1000
  /\ parseFloat "1.e5" = number_of_Z 100000
  /\ parseFloat " -12.50abc" = number_of_price (-1250)
  /\ parseFloat "99.99" = number_of_price 9999
  /\ parseFloat "5e+" = number_of_Z 5
  /\ parseFloat "-Infinity" = Infinity true
  /\ parseFloat "1e400" = Infinity false
  /\ parseFloat "0x10" = zero false
  /\ parseFloat "-0" = zero true
  /\ parseFloat "." = NaN
  /\ parseFloat "infinity" = NaN.
Proof. vm_compute. repeat split. Qed.

Example parseInt_examples :
  parseInt "0x10" = number_of_Z 16
  /\ parseInt "-0X1f" = number_of_Z (-31)
  /\ parseInt "250.5" = number_of_Z 250
  /\ parseInt "1e3" = number_of_Z 1
  /\ parseInt "  -42px" = number_of_Z (-42)
  /\ parseInt "9007199254740993" = number_of_Z 9007199254740992
  /\ parseInt "-0" = zero true
  /\ parseInt "0x" = NaN
  /\ parseInt ".5" = NaN
  /\ parseInt "" = NaN.
Proof. vm_compute. repeat split. Qed.

End NumberFacts.

(* ===================================================================== *)
(** * Properties of the cart                                              *)
(* ===================================================================== *)

Module CartFacts.
Import Cart.

(** The reducer's left folds are the sums. *)
Lemma fold_quantity_acc (l : list item) (acc : Z) :
  fold_left (fun count it => count + quantity it) l acc = acc + sum_quantity l.
Proof.
  revert acc. induction l as [|it l IH]; intros acc; simpl.
  - lia.
  - rewrite IH. lia.
Qed.

Lemma getCartItemCount_sum (s : state) :
  getCartItemCount s = sum_quantity (items s).
Proof. unfold getCartItemCount. rewrite fold_quantity_acc. lia. Qed.

(** The total is formed from the lines' totals alone. *)
Lemma fold_line_totals (l : list item) (acc : JS.number) :
  fold_left
    (fun total it =>
       JS.plus total
         (JS.times (JS.number_of_price (price it)) (JS.number_of_Z (quantity it))))
    l acc
  = fold_left JS.plus (map line_total l) acc.
Proof.
  revert acc. induction l as [|it l IH]; intros acc; [reflexivity|].
  cbn [fold_left map]. rewrite IH. reflexivity.
Qed.

Lemma sums_to_fold (l done : list JS.number) (acc : JS.number) :
  sums_to done acc -> sums_to (done ++ l) (fold_left JS.plus l acc).
Proof.
  revert done acc. induction l as [|x l IH]; intros done acc H.
  - rewrite app_nil_r. exact H.
  - cbn [fold_left].
    replace (done ++ x :: l) with ((done ++ [x]) ++ l)
      by (rewrite <- app_assoc; reflexivity).
    apply IH. constructor. exact H.
Qed.

Lemma sums_to_unique (l : list JS.number) (t t' : JS.number) :
  sums_to l t -> sums_to l t' -> t = t'.
Proof.
  intros H. revert t'. induction H as [|l x t H IH]; intros t' H'.
  - inversion H' as [|l' x' u Hu E]; [reflexivity|].
    destruct l'; discriminate E.
  - inversion H' as [E|l' x' u Hu E].
    + destruct l; discriminate E.
    + apply app_inj_tail in E as [-> ->]. rewrite (IH u Hu). reflexivity.
Qed.

Lemma getCartTotal_sums (s : state) (total : JS.number) :
  sums_to (map line_total (items s)) total <-> getCartTotal s = total.
Proof.
  assert (G : sums_to (map line_total (items s)) (getCartTotal s)).
  { unfold getCartTotal. rewrite fold_line_totals.
    apply (sums_to_fold _ [] _). constructor. }
  split.
  - intros H. exact (sums_to_unique _ _ _ G H).
  - intros <-. exact G.
Qed.

(** C1. After every step of every sequence of cart mutations started from
    the initial empty cart, [getCartItemCount] is the sum of the lines'
    quantities and [getCartTotal] is the sum of the lines' price times
    quantity, the products and the sum being those of JavaScript numbers,
    taken in the order of the lines; both are functions of the item list
    alone (two states with the same items have the same totals), so
    nothing stored can drift. *)
Theorem cart_totals_never_drift (ms : list mutation) :
  Forall (fun s =>
            getCartItemCount s = sum_quantity (items s) /\
            forall total : JS.number,
              sums_to (map line_total (items s)) total
              <-> getCartTotal s = total)
         (trace initialState ms)
  /\ (forall s s' : state,
        items s = items s' ->
        getCartItemCount s = getCartItemCount s' /\
        getCartTotal s = getCartTotal s').
Proof.
  split.
  - generalize initialState. induction ms as [|m ms IH]; intros s; simpl.
    + constructor; [|constructor].
      split; [apply getCartItemCount_sum | apply getCartTotal_sums].
    + constructor; [|apply IH].
      split; [apply getCartItemCount_sum | apply getCartTotal_sums].
  - intros s s' E. unfold getCartItemCount, getCartTotal. rewrite E. done.
Qed.

Lemma cart_totals_never_drift_witness :
  Forall (fun s =>
            getCartItemCount s = sum_quantity (items s) /\
            forall total : JS.number,
              sums_to (map line_total (items s)) total
              <-> getCartTotal s = total)
         (trace initialState
            [AddToCart shirt 2; AddToCart mug 1; UpdateQuantity (KNum 7) 5;
             RemoveFromCart (KNum 3); ClearCart])
  /\ getCartTotal (run initialState (addToCart shirt 2))
     = getCartTotal {| items := [with_quantity shirt 2];
                       loading := false; error := Some "offline" |}.
Proof.
  destruct (cart_totals_never_drift
              [AddToCart shirt 2; AddToCart mug 1; UpdateQuantity (KNum 7) 5;
               RemoveFromCart (KNum 3); ClearCart]) as [T D].
  split; [exact T|].
  apply (D (run initialState (addToCart shirt 2))
           {| items := [with_quantity shirt 2];
              loading := false; error := Some "offline" |}).
  reflexivity.
Defined.

(** The total is a sum of numbers: three lines at 199.99, 29.99 and 24.99
    total 254.97000000000003, which is not the number 254.97, and the
    same lines in another order total 254.97. *)
Example total_rounds_at_every_step :
  let line (n cost : Z) :=
    {| id := n; name := "Item"; price := cost; stock := None; quantity := 1;
       selectedSize := None; selectedColor := None; cartId := None |} in
  let s := run initialState
             [ADD_ITEM (line 1 19999); ADD_ITEM (line 2 2999);
              ADD_ITEM (line 3 2499)] in
  let s' := run initialState
              [ADD_ITEM (line 3 2499); ADD_ITEM (line 2 2999);
               ADD_ITEM (line 1 19999)] in
  getCartTotal s = JS.parseFloat "254.97000000000003"
  /\ getCartTotal s <> JS.number_of_price 25497
  /\ getCartTotal s' = JS.number_of_price 25497.
Proof. vm_compute. repeat split. discriminate. Qed.

(** *** Helper facts about the reducer *)

Lemma find_none_existsb {A} (f : A -> bool) (l : list A) :
  List.find f l = None <-> existsb f l = false.
Proof.
  induction l as [|x l IH]; simpl; [done|].
  destruct (f x); simpl; [split; discriminate | exact IH].
Qed.

Lemma map_if_absent {A} (f : A -> bool) (g : A -> A) (l : list A) :
  existsb f l = false -> map (fun x => if f x then g x else x) l = l.
Proof.
  induction l as [|x l IH]; simpl; [done|].
  intros H. apply orb_false_iff in H as [Hx Hl].
  rewrite Hx, (IH Hl). done.
Qed.

Lemma Forall2_map_self {A} (R : A -> A -> Prop) (h : A -> A) (l : list A) :
  (forall x, R x (h x)) -> Forall2 R l (map h l).
Proof. intros H. induction l; simpl; constructor; auto. Qed.

(** What [addToCart] leaves in [items], as the reducer computes it. *)
Lemma addToCart_items (s : state) (product : item) (q : Z) :
  items (run s (addToCart product q)) =
    if has_line (KNum (id product)) s
    then map (fun it => if id it =? id product
                        then with_quantity it (quantity it + q) else it)
             (items s)
    else items s ++ [with_quantity product q].
Proof.
  unfold run, addToCart, has_line. cbn [fold_left cartReducer items id_is].
  cbn [with_quantity id quantity].
  destruct (List.find _ (items s)) eqn:F.
  - destruct (existsb _ (items s)) eqn:E; [done|].
    apply find_none_existsb in E. cbn [id_is] in E. congruence.
  - apply find_none_existsb in F. cbn [id_is]. rewrite F. done.
Qed.

Lemma addToCart_error (s : state) (product : item) (q : Z) :
  error (run s (addToCart product q)) = error s.
Proof.
  unfold run, addToCart. cbn [fold_left cartReducer items].
  destruct (List.find _ _); done.
Qed.

Lemma line_after_add_map (n q : Z) (l : list item) :
  Forall2 (line_after_add n q) l
    (map (fun it => if id it =? n
                    then with_quantity it (quantity it + q) else it) l).
Proof.
  apply Forall2_map_self. intros it. unfold line_after_add.
  destruct (id it =? n); done.
Qed.

(** C2. An add whose product already has a line adds the added quantity
    to that line and keeps its unit price, every line staying at its
    position; otherwise it appends the new line after the existing ones,
    which keep their order. *)
Theorem addToCart_increments_or_appends (s : state) (product : item) (q : Z) :
  if has_line (KNum (id product)) s
  then Forall2 (line_after_add (id product) q)
               (items s) (items (run s (addToCart product q)))
  else items (run s (addToCart product q)) = items s ++ [with_quantity product q].
Proof.
  rewrite addToCart_items.
  destruct (has_line _ s); [apply line_after_add_map | done].
Qed.

(** C3. The detail page builds a cartId from the product id and the
    selected size and color, but the reducer matches lines on [id] alone:
    adding product 7 in size M and then in size L leaves ONE line, of
    quantity 2, still carrying size M and the first cartId. *)
Theorem variants_of_one_product_share_a_line :
  items (run initialState
           (handleAddToCart (Some shirt) 1 "M" "red" ++
            handleAddToCart (Some shirt) 1 "L" "red"))
  = [ {| id := 7; name := "Shirt"; price := 1000; stock := Some 5;
         quantity := 2;
         selectedSize := Some "M"; selectedColor := Some "red";
         cartId := Some "7-M-red" |} ].
Proof. vm_compute. reflexivity. Qed.

(** The same mismatch seen from the cart page: the remove button and the
    quantity stepper of a line that carries a cartId address it by that
    string, which no [id] equals; the line stays as it is. *)
Example cartId_line_cannot_be_addressed :
  let s := run initialState (handleAddToCart (Some shirt) 1 "M" "red") in
  forall it, items s = [it] ->
    line_key it = KStr "7-M-red"
    /\ items (run s (remove_button it)) = [it]
    /\ items (run s (handleQuantityChange it 5)) = [it].
Proof.
  intros s it H. vm_compute in H. injection H as <-.
  vm_compute. repeat split.
Qed.

(** C4, as stated, fails: adding quantity 0 of a product to the empty cart
    is not rejected; a line of quantity 0 is appended and no error is
    recorded. *)
Lemma add_of_quantity_zero_is_accepted :
  items (run initialState (addToCart shirt 0)) = [with_quantity shirt 0]
  /\ items (run initialState (addToCart shirt 0)) <> items initialState
  /\ error (run initialState (addToCart shirt 0)) = None.
Proof. vm_compute. repeat split; discriminate. Qed.

(** C4, amended. An add with a quantity below 1 is treated like any other
    add: no error is recorded or dispatched, and the cart is updated with
    the quantity as given (added to the product's line when there is one,
    appended as a new line otherwise). *)
Theorem addToCart_does_not_validate_quantity
    (s : state) (product : item) (q : Z) :
  q < 1 ->
  reports_no_error (addToCart product q)
  /\ error (run s (addToCart product q)) = error s
  /\ items (run s (addToCart product q)) =
       if has_line (KNum (id product)) s
       then map (fun it => if id it =? id product
                           then with_quantity it (quantity it + q) else it)
                (items s)
       else items s ++ [with_quantity product q].
Proof.
  intros _. split; [reflexivity|]. split.
  - apply addToCart_error.
  - apply addToCart_items.
Qed.

Lemma addToCart_does_not_validate_quantity_witness :
  -2 < 1
  /\ items (run (run initialState (addToCart shirt 3)) (addToCart shirt (-2)))
     = [with_quantity shirt 1].
Proof.
  split; [lia|].
  destruct (addToCart_does_not_validate_quantity
              (run initialState (addToCart shirt 3)) shirt (-2)) as (_ & _ & H);
    [lia|].
  rewrite H. vm_compute. reflexivity.
Defined.

(** C5. [updateQuantity] with a quantity of zero or less yields the very
    state [removeFromCart] yields for the same key. *)
Theorem updateQuantity_nonpositive_is_removeFromCart
    (s : state) (k : jskey) (q : Z) :
  q <= 0 ->
  run s (updateQuantity k q) = run s (removeFromCart k).
Proof.
  intros H. unfold updateQuantity.
  destruct (Z.leb_spec q 0); [reflexivity | lia].
Qed.

Lemma updateQuantity_nonpositive_is_removeFromCart_witness :
  -1 <= 0
  /\ run (run initialState (addToCart shirt 2)) (updateQuantity (KNum 7) (-1))
     = run (run initialState (addToCart shirt 2)) (removeFromCart (KNum 7)).
Proof.
  split; [lia|].
  apply (updateQuantity_nonpositive_is_removeFromCart
           (run initialState (addToCart shirt 2)) (KNum 7) (-1)).
  lia.
Defined.

(** An update that matches no line maps every line to itself. *)
Lemma UPDATE_ITEM_absent (s : state) (k : jskey) (q : Z) :
  has_line k s = false -> cartReducer s (UPDATE_ITEM k q) = s.
Proof.
  intros H. destruct s as [its ld er]. unfold has_line in H.
  cbn [cartReducer items loading error] in *.
  rewrite (map_if_absent (fun it => id_is it k)); done.
Qed.

Lemma updateQuantity_absent (s : state) (k : jskey) (q : Z) :
  0 < q -> has_line k s = false -> run s (updateQuantity k q) = s.
Proof.
  intros Hq H. unfold updateQuantity.
  destruct (Z.leb_spec q 0); [lia|].
  cbn [run fold_left]. apply UPDATE_ITEM_absent, H.
Qed.

(** C6, as stated, fails: a positive update of a line that is not in the
    cart (here: the empty cart) records no error at all. *)
Lemma update_of_absent_line_reports_nothing :
  has_line (KNum 7) initialState = false
  /\ error (run initialState (updateQuantity (KNum 7) 3)) = None
  /\ updateQuantity (KNum 7) 3 = [UPDATE_ITEM (KNum 7) 3].
Proof. vm_compute. done. Qed.

(** C6, amended. A positive update of a line that is not in the cart does
    not fail: the only action dispatched is the [UPDATE_ITEM], no
    [SET_ERROR] is, and the [error] field keeps the value it had. *)
Theorem updateQuantity_absent_line_no_error (s : state) (k : jskey) (q : Z) :
  0 < q ->
  has_line k s = false ->
  updateQuantity k q = [UPDATE_ITEM k q]
  /\ reports_no_error (updateQuantity k q)
  /\ error (run s (updateQuantity k q)) = error s.
Proof.
  intros Hq H. rewrite (updateQuantity_absent s k q Hq H).
  unfold updateQuantity. destruct (Z.leb_spec q 0); [lia|]. done.
Qed.

Lemma updateQuantity_absent_line_no_error_witness :
  0 < 3 /\ has_line (KStr "7-M-red") (run initialState (addToCart shirt 1)) = false
  /\ error (run (run initialState (addToCart shirt 1))
                (updateQuantity (KStr "7-M-red") 3)) = None.
Proof.
  split; [lia|]. split; [reflexivity|].
  destruct (updateQuantity_absent_line_no_error
              (run initialState (addToCart shirt 1)) (KStr "7-M-red") 3)
    as (_ & _ & H); [lia | reflexivity |].
  rewrite H. reflexivity.
Defined.

(** C10. A positive update of a product that has no line in the cart is a
    silent no-op: the item list (indeed the whole state) is left as it
    was, and no error is dispatched. *)
Theorem updateQuantity_absent_line_is_noop (s : state) (k : jskey) (q : Z) :
  0 < q ->
  has_line k s = false ->
  items (run s (updateQuantity k q)) = items s
  /\ run s (updateQuantity k q) = s
  /\ reports_no_error (updateQuantity k q).
Proof.
  intros Hq H. rewrite (updateQuantity_absent s k q Hq H).
  repeat split. unfold updateQuantity.
  destruct (Z.leb_spec q 0); [lia | reflexivity].
Qed.

Lemma updateQuantity_absent_line_is_noop_witness :
  0 < 4 /\ has_line (KNum 3) (run initialState (addToCart shirt 2)) = false
  /\ items (run (run initialState (addToCart shirt 2)) (updateQuantity (KNum 3) 4))
     = [with_quantity shirt 2].
Proof.
  split; [lia|]. split; [reflexivity|].
  destruct (updateQuantity_absent_line_is_noop
              (run initialState (addToCart shirt 2)) (KNum 3) 4)
    as (H & _ & _); [lia | reflexivity |].
  rewrite H. reflexivity.
Defined.

(** The specification's scenario: two units of product 7 at 10.00, one
    more of the same, then quantity set to 0. *)
Example scenario_totals :
  let s1 := apply_mutation initialState (AddToCart shirt 2) in
  let s2 := apply_mutation s1 (AddToCart shirt 1) in
  let s3 := apply_mutation s2 (UpdateQuantity (KNum 7) 0) in
  (getCartItemCount s1, getCartTotal s1) = (2, JS.number_of_Z 20)
  /\ (getCartItemCount s2, getCartTotal s2) = (3, JS.number_of_Z 30)
  /\ (getCartItemCount s3, getCartTotal s3) = (0, JS.zero false)
  /\ items s3 = [].
Proof. vm_compute. done. Qed.

End CartFacts.

(* ===================================================================== *)
(** * The reference [JSON] reads back what it writes                      *)
(* ===================================================================== *)

Module ReferenceJSONFacts.
Import JS Cart Storage ReferenceJSON.

(** ** Text *)

Lemma append_nil (r : string) : "" +:+ r = r.
Proof. reflexivity. Qed.

Lemma append_cons (c : ascii) (s r : string) :
  String c s +:+ r = String c (s +:+ r).
Proof. reflexivity. Qed.

Lemma append_assoc (a b c : string) : (a +:+ b) +:+ c = a +:+ (b +:+ c).
Proof.
  induction a as [|x a IH]; [reflexivity|].
  rewrite !append_cons, IH. reflexivity.
Qed.

Ltac eval_digit :=
  match goal with
  | |- context [digit_of ?c] =>
      let t := eval vm_compute in (digit_of c) in change (digit_of c) with t
  end.

Lemma read_digits_string_of_uint (d : Decimal.uint) (rest : string) (acc : Z) :
  ends_number rest ->
  read_digits (NilEmpty.string_of_uint d +:+ rest) acc
  = (digits_value d acc, rest).
Proof.
  intros Hrest. revert acc.
  induction d; intros acc; cbn [NilEmpty.string_of_uint digits_value];
    rewrite ?append_cons, ?append_nil; cbn [read_digits];
    try (eval_digit; apply IHd).
  destruct rest as [|c r]; [reflexivity|].
  cbn [read_digits]. destruct Hrest as [-> _]. reflexivity.
Qed.

Lemma digits_value_pos (d : Decimal.uint) (acc : positive) :
  digits_value d (Z.pos acc) = Z.pos (Pos.of_uint_acc d acc).
Proof.
  revert acc. induction d; intros acc; cbn [digits_value Pos.of_uint_acc];
    [reflexivity | rewrite <- IHd; f_equal; lia ..].
Qed.

Lemma digits_value_of_uint (d : Decimal.uint) :
  digits_value d 0 = Z.of_N (Pos.of_uint d).
Proof.
  induction d; cbn [digits_value Pos.of_uint];
    [reflexivity | exact IHd | exact (digits_value_pos d _) ..].
Qed.

Lemma digits_value_to_uint (p : positive) :
  digits_value (Pos.to_uint p) 0 = Z.pos p.
Proof. rewrite digits_value_of_uint, Unsigned.of_to. reflexivity. Qed.

Lemma string_of_uint_digit_head (d : Decimal.uint) :
  d <> Decimal.Nil ->
  exists c s, NilEmpty.string_of_uint d = String c s /\ digit_of c <> None.
Proof.
  intros H. destruct d; [contradiction | ..];
    cbn [NilEmpty.string_of_uint]; eexists _, _; (split; [reflexivity|]);
    vm_compute; discriminate.
Qed.

Lemma read_natural_uint (d : Decimal.uint) (rest : string) :
  d <> Decimal.Nil -> ends_number rest ->
  read_natural (NilEmpty.string_of_uint d +:+ rest)
  = Some (digits_value d 0, rest).
Proof.
  intros Hd Hrest.
  destruct (string_of_uint_digit_head d Hd) as (c & s & E & Hc).
  unfold read_natural.
  pose proof (read_digits_string_of_uint d rest 0 Hrest) as R.
  rewrite E in *. rewrite append_cons in *.
  destruct (digit_of c) eqn:D; [|contradiction].
  rewrite R.
  destruct rest as [|r0 rest']; [reflexivity|].
  destruct Hrest as [_ ->]. reflexivity.
Qed.

(** ** Strings *)

(** One escaped character is read back as the character it stands for. *)
Ltac read_escaped c E IH :=
  apply Ascii.eqb_eq in E; subst c;
  rewrite !append_cons; cbn [read_string];
  change (Ascii.eqb backslash dquote) with false;
  change (Ascii.eqb backslash backslash) with true;
  cbv iota;
  match goal with
  | |- context [unescape ?e] =>
      let t := eval vm_compute in (unescape e) in change (unescape e) with t
  end;
  rewrite IH; reflexivity.

Lemma read_string_escape (s rest : string) :
  read_string (escape s +:+ String dquote rest) = Some (s, rest).
Proof.
  induction s as [|c s IH]; [reflexivity|].
  cbn [escape].
  destruct (Ascii.eqb c dquote) eqn:E1; [read_escaped c E1 IH|].
  destruct (Ascii.eqb c backslash) eqn:E2; [read_escaped c E2 IH|].
  destruct (Ascii.eqb c newline) eqn:E3; [read_escaped c E3 IH|].
  destruct (Ascii.eqb c tab) eqn:E4; [read_escaped c E4 IH|].
  destruct (Ascii.eqb c carriage_return) eqn:E5; [read_escaped c E5 IH|].
  rewrite append_cons. cbn [read_string]. rewrite E1, E2, IH. reflexivity.
Qed.

Lemma read_string_quoted (s rest : string) :
  exists body, quoted s +:+ rest = String dquote body
               /\ read_string body = Some (s, rest).
Proof.
  unfold quoted. rewrite append_cons, append_assoc, append_cons, append_nil.
  eexists. split; [reflexivity|]. apply read_string_escape.
Qed.

(** ** Values *)

Lemma json_induction (P : json -> Prop) :
  P JNull -> (forall b, P (JBool b)) -> (forall n, P (JNum n)) ->
  (forall s, P (JStr s)) ->
  (forall l, Forall P l -> P (JArr l)) ->
  (forall ps, Forall (fun kx => P (snd kx)) ps -> P (JObj ps)) ->
  forall v, P v.
Proof.
  intros Hnull Hbool Hnum Hstr Harr Hobj.
  fix IH 1. intros [ | b | n | s | l | ps ].
  - exact Hnull.
  - apply Hbool.
  - apply Hnum.
  - apply Hstr.
  - apply Harr. induction l as [|x l IHl]; constructor; [apply IH | exact IHl].
  - apply Hobj. induction ps as [|[k x] ps IHps]; constructor;
      [apply IH | exact IHps].
Qed.

Lemma print_JArr (l : list json) :
  print (JArr l) = "[" +:+ print_elements l +:+ "]".
Proof. reflexivity. Qed.

Lemma print_JObj (ps : list (string * json)) :
  print (JObj ps) = "{" +:+ print_members ps +:+ "}".
Proof. reflexivity. Qed.

Lemma digit_not_special (c : ascii) :
  digit_of c <> None ->
  is_whitespace c = false
  /\ Ascii.eqb c "]" = false /\ Ascii.eqb c "-" = false
  /\ Ascii.eqb c "n" = false /\ Ascii.eqb c "t" = false
  /\ Ascii.eqb c "f" = false /\ Ascii.eqb c dquote = false
  /\ Ascii.eqb c "[" = false /\ Ascii.eqb c "{" = false.
Proof.
  destruct c as [[] [] [] [] [] [] [] []]; vm_compute; intros H;
    try (exfalso; apply H; reflexivity); repeat split.
Qed.

(** What a printed value starts with. *)
Lemma print_head (v : json) :
  exists c s, print v = String c s
              /\ is_whitespace c = false /\ Ascii.eqb c "]" = false.
Proof.
  destruct v as [ | [] | [|p|p] | s | l | ps ];
    try (eexists _, _; split; [reflexivity | split; reflexivity]).
  - destruct (string_of_uint_digit_head (Pos.to_uint p)
                (Unsigned.to_uint_nonnil p)) as (c & s & E & Hc).
    exists c, s. split; [|split; apply (digit_not_special c Hc)].
    unfold print, number_to_string. cbn [Z.to_int NilZero.string_of_int].
    unfold NilZero.string_of_uint.
    pose proof (Unsigned.to_uint_nonnil p).
    destruct (Pos.to_uint p); [contradiction | exact E ..].
Qed.

(** Decide the character tests on literal characters. *)
Ltac eval_eqb :=
  repeat match goal with
  | |- context [Ascii.eqb ?a ?b] =>
      let t := eval vm_compute in (Ascii.eqb a b) in
      match t with
      | true => change (Ascii.eqb a b) with true
      | false => change (Ascii.eqb a b) with false
      end
  end; cbv iota.

Lemma skip_whitespace_head (c : ascii) (s : string) :
  is_whitespace c = false -> skip_whitespace (String c s) = String c s.
Proof. intros H. cbn [skip_whitespace]. rewrite H. reflexivity. Qed.

(** The two shapes of a printed number. *)
Lemma print_JNum (n : Z) :
  exists d, d <> Decimal.Nil /\
    ((print (JNum n) = NilEmpty.string_of_uint d /\ digits_value d 0 = n)
     \/ (print (JNum n) = String "-" (NilEmpty.string_of_uint d)
         /\ - digits_value d 0 = n)).
Proof.
  destruct n as [|p|p].
  - exists (Decimal.D0 Decimal.Nil). split; [discriminate|]. left. split; reflexivity.
  - exists (Pos.to_uint p). pose proof (Unsigned.to_uint_nonnil p) as H.
    split; [exact H|]. left. split; [|apply digits_value_to_uint].
    unfold print, number_to_string. cbn [Z.to_int NilZero.string_of_int].
    unfold NilZero.string_of_uint. destruct (Pos.to_uint p); [contradiction | reflexivity ..].
  - exists (Pos.to_uint p). pose proof (Unsigned.to_uint_nonnil p) as H.
    split; [exact H|]. right. split; [|rewrite digits_value_to_uint; reflexivity].
    unfold print, number_to_string. cbn [Z.to_int NilZero.string_of_int].
    unfold NilZero.string_of_uint. destruct (Pos.to_uint p); [contradiction | reflexivity ..].
Qed.

Lemma reads_back_JNull : reads_back JNull.
Proof.
  intros [|fuel] rest Hf _; [cbn in Hf; lia|].
  cbn [print]. rewrite !append_cons, append_nil.
  cbn [read_value]. rewrite skip_whitespace_head by reflexivity.
  reflexivity.
Qed.

Lemma reads_back_JBool (b : bool) : reads_back (JBool b).
Proof.
  intros [|fuel] rest Hf _; [cbn in Hf; lia|].
  destruct b; cbn [print]; rewrite !append_cons, append_nil;
    cbn [read_value]; rewrite skip_whitespace_head by reflexivity;
    reflexivity.
Qed.

Lemma reads_back_JNum (n : Z) : reads_back (JNum n).
Proof.
  intros [|fuel] rest Hf Hrest; [cbn in Hf; lia|].
  destruct (print_JNum n) as (d & Hd & [[E V]|[E V]]); rewrite E.
  - destruct (string_of_uint_digit_head d Hd) as (c & s & Es & Hc).
    pose proof (read_natural_uint d rest Hd Hrest) as R.
    rewrite Es in *. rewrite append_cons in *.
    destruct (digit_not_special c Hc)
      as (W & _ & E1 & E2 & E3 & E4 & E5 & E6 & E7).
    cbn [read_value]. rewrite (skip_whitespace_head _ _ W).
    rewrite E1, E2, E3, E4, E5, E6, E7, R. cbn. rewrite V. reflexivity.
  - rewrite append_cons.
    cbn [read_value]. rewrite skip_whitespace_head by reflexivity.
    eval_eqb. rewrite (read_natural_uint d rest Hd Hrest). cbn.
    rewrite V. reflexivity.
Qed.

Lemma reads_back_JStr (s : string) : reads_back (JStr s).
Proof.
  intros [|fuel] rest Hf _; [cbn in Hf; lia|].
  cbn [print].
  destruct (read_string_quoted s rest) as (body & E & R). rewrite E.
  cbn [read_value]. rewrite skip_whitespace_head by reflexivity.
  eval_eqb. rewrite R. reflexivity.
Qed.

Lemma ends_number_head (c : ascii) (s : string) :
  digit_of c = None ->
  (Ascii.eqb c "." || Ascii.eqb c "e" || Ascii.eqb c "E") = false ->
  ends_number (String c s).
Proof. intros H1 H2. split; assumption. Qed.

Lemma print_elements_one (x : json) : print_elements [x] = print x.
Proof. reflexivity. Qed.

Lemma print_elements_more (x y : json) (l : list json) :
  print_elements (x :: y :: l) = print x +:+ "," +:+ print_elements (y :: l).
Proof. reflexivity. Qed.

Lemma read_elements_ok (l : list json) :
  l <> [] -> Forall reads_back l ->
  forall (fuel : nat) (rest : string),
    (elements_cost l <= fuel)%nat ->
    read_elements fuel (print_elements l +:+ String "]" rest) = Some (l, rest).
Proof.
  intros Hne Hall. induction Hall as [|x l Hx Hl IH]; [contradiction|].
  intros [|fuel] rest Hf; [cbn in Hf; lia|].
  cbn [elements_cost fold_right] in Hf. fold (elements_cost l) in Hf.
  cbn [read_elements].
  destruct l as [|y l].
  - rewrite print_elements_one.
    rewrite (Hx fuel (String "]" rest)); [|lia|apply ends_number_head; reflexivity].
    cbn [mbind option_bind].
    rewrite skip_whitespace_head by reflexivity. eval_eqb. reflexivity.
  - rewrite print_elements_more, !append_assoc, !append_cons, !append_nil.
    rewrite (Hx fuel); [|lia|apply ends_number_head; reflexivity].
    cbn [mbind option_bind].
    rewrite skip_whitespace_head by reflexivity. eval_eqb.
    rewrite IH; [reflexivity | discriminate | lia].
Qed.

Lemma print_members_one (k : string) (x : json) :
  print_members [(k, x)] = quoted k +:+ ":" +:+ print x.
Proof. reflexivity. Qed.

Lemma print_members_more (k : string) (x : json) (kx : string * json)
    (ps : list (string * json)) :
  print_members ((k, x) :: kx :: ps)
  = quoted k +:+ ":" +:+ print x +:+ "," +:+ print_members (kx :: ps).
Proof. reflexivity. Qed.

Lemma read_members_ok (ps : list (string * json)) :
  ps <> [] -> Forall (fun kx => reads_back (snd kx)) ps ->
  forall (fuel : nat) (rest : string),
    (members_cost ps <= fuel)%nat ->
    read_members fuel (print_members ps +:+ String "}" rest) = Some (ps, rest).
Proof.
  intros Hne Hall. induction Hall as [|[k x] ps Hx Hl IH]; [contradiction|].
  intros [|fuel] rest Hf; [cbn in Hf; lia|].
  cbn [members_cost fold_right snd] in Hf. fold (members_cost ps) in Hf.
  cbn [snd] in Hx. cbn [read_members].
  destruct ps as [|kx ps].
  - rewrite print_members_one, !append_assoc.
    destruct (read_string_quoted k (":" +:+ print x +:+ String "}" rest))
      as (body & E & R).
    rewrite E. rewrite skip_whitespace_head by reflexivity. eval_eqb.
    rewrite R. cbn [mbind option_bind]. rewrite !append_cons, !append_nil.
    rewrite skip_whitespace_head by reflexivity. eval_eqb.
    rewrite (Hx fuel (String "}" rest)); [|lia|apply ends_number_head; reflexivity].
    cbn [mbind option_bind].
    rewrite skip_whitespace_head by reflexivity. eval_eqb. reflexivity.
  - rewrite print_members_more, !append_assoc.
    destruct (read_string_quoted k
                (":" +:+ print x +:+ "," +:+ print_members (kx :: ps)
                   +:+ String "}" rest))
      as (body & E & R).
    rewrite E. rewrite skip_whitespace_head by reflexivity. eval_eqb.
    rewrite R. cbn [mbind option_bind]. rewrite !append_cons, !append_nil.
    rewrite skip_whitespace_head by reflexivity. eval_eqb.
    rewrite (Hx fuel); [|lia|apply ends_number_head; reflexivity].
    cbn [mbind option_bind].
    rewrite skip_whitespace_head by reflexivity. eval_eqb.
    rewrite IH; [reflexivity | discriminate | lia].
Qed.

Lemma reads_back_JArr (l : list json) : Forall reads_back l -> reads_back (JArr l).
Proof.
  intros Hall [|fuel] rest Hf _; [cbn in Hf; lia|].
  rewrite print_JArr, !append_assoc, !append_cons, !append_nil.
  cbn [cost] in Hf. fold (elements_cost l) in Hf.
  cbn [read_value]. rewrite skip_whitespace_head by reflexivity. eval_eqb.
  destruct l as [|x l].
  - cbn [print_elements]. rewrite append_nil.
    rewrite skip_whitespace_head by reflexivity. eval_eqb. reflexivity.
  - destruct (print_head x) as (c & s & E & W & B).
    assert (H : exists t, print_elements (x :: l) +:+ String "]" rest = String c t).
    { destruct l; [rewrite print_elements_one | rewrite print_elements_more];
        rewrite E, append_cons; eauto. }
    destruct H as (t & Ht). rewrite Ht at 1.
    rewrite (skip_whitespace_head _ _ W), B.
    rewrite read_elements_ok; [reflexivity | discriminate | exact Hall | lia].
Qed.

Lemma reads_back_JObj (ps : list (string * json)) :
  Forall (fun kx => reads_back (snd kx)) ps -> reads_back (JObj ps).
Proof.
  intros Hall [|fuel] rest Hf _; [cbn in Hf; lia|].
  rewrite print_JObj, !append_assoc, !append_cons, !append_nil.
  cbn [cost] in Hf. fold (members_cost ps) in Hf.
  cbn [read_value]. rewrite skip_whitespace_head by reflexivity. eval_eqb.
  destruct ps as [|[k x] ps].
  - cbn [print_members]. rewrite append_nil.
    rewrite skip_whitespace_head by reflexivity. eval_eqb. reflexivity.
  - assert (H : exists t, print_members ((k, x) :: ps) +:+ String "}" rest
                          = String dquote t).
    { destruct ps; [rewrite print_members_one | rewrite print_members_more];
        unfold quoted; rewrite !append_cons; eauto. }
    destruct H as (t & Ht). rewrite Ht at 1.
    rewrite skip_whitespace_head by reflexivity. eval_eqb.
    rewrite read_members_ok; [reflexivity | discriminate | exact Hall | lia].
Qed.

Theorem print_reads_back (v : json) : reads_back v.
Proof.
  induction v using json_induction.
  - apply reads_back_JNull.
  - apply reads_back_JBool.
  - apply reads_back_JNum.
  - apply reads_back_JStr.
  - apply reads_back_JArr; assumption.
  - apply reads_back_JObj; assumption.
Qed.

Lemma length_append (a b : string) :
  String.length (a +:+ b) = (String.length a + String.length b)%nat.
Proof.
  induction a as [|c a IH]; [reflexivity|].
  rewrite append_cons. cbn [String.length]. rewrite IH. reflexivity.
Qed.

Lemma append_nil_r (a : string) : a +:+ "" = a.
Proof.
  induction a as [|c a IH]; [reflexivity|]. rewrite append_cons, IH. reflexivity.
Qed.

Lemma print_nonempty (v : json) : (1 <= String.length (print v))%nat.
Proof.
  destruct (print_head v) as (c & s & E & _). rewrite E. cbn. lia.
Qed.

Lemma elements_cost_le (l : list json) :
  Forall (fun v => (cost v <= 2 * String.length (print v))%nat) l ->
  (elements_cost l <= 2 * String.length (print_elements l) + 1)%nat.
Proof.
  induction 1 as [|x l Hx Hl IH]; [cbn; lia|].
  cbn [elements_cost fold_right]. fold (elements_cost l).
  destruct l as [|y l].
  - rewrite print_elements_one. cbn [elements_cost fold_right]. lia.
  - rewrite print_elements_more, !length_append. cbn [String.length]. lia.
Qed.

Lemma members_cost_le (ps : list (string * json)) :
  Forall (fun kx => (cost (snd kx) <= 2 * String.length (print (snd kx)))%nat) ps ->
  (members_cost ps <= 2 * String.length (print_members ps) + 1)%nat.
Proof.
  induction 1 as [|[k x] ps Hx Hl IH]; [cbn; lia|].
  cbn [members_cost fold_right snd]. fold (members_cost ps). cbn [snd] in Hx.
  destruct ps as [|kx ps].
  - rewrite print_members_one, !length_append. cbn [members_cost fold_right]. lia.
  - rewrite print_members_more, !length_append. cbn [String.length]. lia.
Qed.

Lemma cost_le_length (v : json) : (cost v <= 2 * String.length (print v))%nat.
Proof.
  induction v as [ | b | n | s | l H | ps H ] using json_induction.
  - pose proof (print_nonempty JNull). cbn [cost]. lia.
  - pose proof (print_nonempty (JBool b)). cbn [cost]. lia.
  - pose proof (print_nonempty (JNum n)). cbn [cost]. lia.
  - pose proof (print_nonempty (JStr s)). cbn [cost]. lia.
  - rewrite print_JArr, !length_append. cbn [cost String.length].
    fold (elements_cost l). pose proof (elements_cost_le l H). lia.
  - rewrite print_JObj, !length_append. cbn [cost String.length].
    fold (members_cost ps). pose proof (members_cost_le ps H). lia.
Qed.

Theorem parse_print (v : json) : parse (print v) = Normal v.
Proof.
  unfold parse.
  pose proof (print_reads_back v (2 * String.length (print v) + 2)%nat "") as R.
  rewrite append_nil_r in R. rewrite R; [reflexivity | | exact I].
  pose proof (cost_le_length v). lia.
Qed.

End ReferenceJSONFacts.

(* ===================================================================== *)
(** * Properties of the persisted cart snapshot                           *)
(* ===================================================================== *)

Module StorageFacts.
Import Cart Storage ReferenceJSON.

(** The value an item denotes determines the item. *)
Lemma item_to_json_inj (a b : item) : item_to_json a = item_to_json b -> a = b.
Proof.
  destruct a as [i1 n1 p1 [st1|] q1 [sz1|] [co1|] [ci1|]];
  destruct b as [i2 n2 p2 [st2|] q2 [sz2|] [co2|] [ci2|]];
  cbn; intros H; injection H; intros; subst; try reflexivity; discriminate.
Qed.

Lemma items_to_json_inj (l l' : list item) :
  items_to_json l = items_to_json l' -> l = l'.
Proof.
  unfold items_to_json. intros H. injection H as H.
  revert l' H. induction l as [|a l IH]; intros [|b l'] H; cbn [map] in H;
    try discriminate; [reflexivity|].
  assert (Hab : item_to_json a = item_to_json b) by congruence.
  assert (Hl : map item_to_json l = map item_to_json l') by congruence.
  f_equal; [apply item_to_json_inj, Hab | apply IH, Hl].
Qed.

(** After a successful [setItem], the store is accessible and the key
    holds the value written. *)
Lemma getItem_setItem (ls ls' : localStorage) (key value : string) :
  setItem ls key value = Normal ls' ->
  accessible ls' = true /\ entries ls' !! key = Some value.
Proof.
  unfold setItem. destruct (accessible ls); [|discriminate].
  destruct (_ <=? _)%nat; [|discriminate].
  intros [= <-]. cbn. split; [reflexivity | apply lookup_insert_eq].
Qed.

(** [getCart], by what the cart key holds. *)
Lemma getCart_denied (J : JSON) (ls : localStorage) :
  accessible ls = false -> getCart J ls = Normal empty_cart.
Proof. intros H. unfold getCart, getItem. rewrite H. reflexivity. Qed.

Lemma getCart_absent (J : JSON) (ls : localStorage) :
  entries ls !! "cart" = None -> getCart J ls = Normal empty_cart.
Proof.
  intros H. unfold getCart, getItem.
  destruct (accessible ls); cbn; [rewrite H|]; reflexivity.
Qed.

Lemma getCart_empty_text (J : JSON) (ls : localStorage) :
  entries ls !! "cart" = Some "" -> getCart J ls = Normal empty_cart.
Proof.
  intros H. unfold getCart, getItem.
  destruct (accessible ls); cbn; [rewrite H|]; reflexivity.
Qed.

Lemma getCart_text (J : JSON) (ls : localStorage) (text : string) :
  accessible ls = true ->
  entries ls !! "cart" = Some text ->
  text <> "" ->
  getCart J ls = try_catch (JSON_parse J text) (fun _ => Normal empty_cart).
Proof.
  intros Ha H Hne. unfold getCart, getItem. rewrite Ha. cbn. rewrite H.
  destruct text as [|c t]; [contradiction | reflexivity].
Qed.

(** What [getCart] finds after a [saveCart] that answered [true]. *)
Lemma getCart_after_saveCart
    (J : JSON) (ls ls' : localStorage) (cartItems : list item) (text : string) :
  JSON_stringify J (items_to_json cartItems) = Normal text ->
  text <> "" ->
  saveCart J ls cartItems = (true, ls') ->
  getCart J ls' = try_catch (JSON_parse J text) (fun _ => Normal empty_cart).
Proof.
  intros Hs Hne Hsave.
  unfold saveCart in Hsave. rewrite Hs in Hsave. cbn in Hsave.
  destruct (setItem ls "cart" text) as [ls1|e] eqn:W; [|discriminate].
  injection Hsave as ->.
  destruct (getItem_setItem _ _ _ _ W) as [Ha Hg].
  apply getCart_text; assumption.
Qed.

(** C7. When the cart items serialize to a text that JSON reads back as
    the same value, and the store accepts the write ([saveCart] answers
    [true]), [getCart] on the resulting store returns exactly the saved
    item list: the value it returns denotes those items and no other
    list. *)
Theorem saveCart_getCart_roundtrip
    (J : JSON) (ls ls' : localStorage) (cartItems : list item) (text : string) :
  JSON_stringify J (items_to_json cartItems) = Normal text ->
  text <> "" ->
  JSON_parse J text = Normal (items_to_json cartItems) ->
  saveCart J ls cartItems = (true, ls') ->
  getCart J ls' = Normal (items_to_json cartItems)
  /\ (forall loaded : list item,
        getCart J ls' = Normal (items_to_json loaded) -> loaded = cartItems).
Proof.
  intros Hs Hne Hp Hsave.
  assert (G : getCart J ls' = Normal (items_to_json cartItems)).
  { rewrite (getCart_after_saveCart J ls ls' cartItems text Hs Hne Hsave), Hp.
    reflexivity. }
  split; [exact G|].
  intros loaded H. rewrite G in H.
  symmetry. apply items_to_json_inj. congruence.
Qed.

Lemma saveCart_getCart_roundtrip_witness :
  let cartItems := items (run initialState
                            (handleAddToCart (Some shirt) 2 "M" "red"
                             ++ addToCart mug 3)) in
  getCart reference (snd (saveCart reference roomy cartItems))
  = Normal (items_to_json cartItems).
Proof.
  intros cartItems.
  refine (proj1 (saveCart_getCart_roundtrip reference roomy
                   (snd (saveCart reference roomy cartItems)) cartItems
                   (print (items_to_json cartItems)) _ _ _ _)).
  - reflexivity.
  - discriminate.
  - vm_compute. reflexivity.
  - vm_compute. reflexivity.
Defined.

(** C8. [getCart] never throws, and when the cart key holds nothing, or
    holds text that [JSON.parse] rejects, it returns the empty cart: the
    corrupt snapshot and the absent one give the same result. *)
Theorem getCart_absent_or_corrupt_is_empty (J : JSON) (ls : localStorage) :
  (exists v, getCart J ls = Normal v)
  /\ (absent_or_corrupt J ls -> getCart J ls = Normal empty_cart).
Proof.
  unfold absent_or_corrupt.
  destruct (accessible ls) eqn:A;
    [|rewrite (getCart_denied J ls A); eauto].
  destruct (entries ls !! "cart") as [text|] eqn:E.
  - destruct (String.eqb_spec text "") as [->|Hne].
    + rewrite (getCart_empty_text J ls E). eauto.
    + rewrite (getCart_text J ls text A E Hne).
      destruct (JSON_parse J text) as [v|e] eqn:P; cbn.
      * split; [eauto|]. intros [e' He']. discriminate.
      * eauto.
  - rewrite (getCart_absent J ls E). eauto.
Qed.

Lemma getCart_absent_or_corrupt_is_empty_witness :
  absent_or_corrupt reference torn
  /\ getCart reference torn = Normal empty_cart
  /\ getCart reference roomy = Normal empty_cart.
Proof.
  assert (C : absent_or_corrupt reference torn).
  { exists "SyntaxError". vm_compute. reflexivity. }
  split; [exact C|]. split.
  - exact (proj2 (getCart_absent_or_corrupt_is_empty reference torn) C).
  - exact (proj2 (getCart_absent_or_corrupt_is_empty reference roomy) I).
Defined.

(** A store the page may not read gives the empty cart as well. *)
Example getCart_denied_store : getCart reference denied = Normal empty_cart.
Proof. reflexivity. Qed.

(** The reference [JSON] is faithful, so with it the round trip needs no
    assumption beyond the write being accepted. *)
Lemma reference_faithful : JSON_faithful reference.
Proof.
  intros v text H. cbn in H. injection H as <-. split.
  - pose proof (ReferenceJSONFacts.print_nonempty v) as L.
    intros E. rewrite E in L. cbn in L. lia.
  - apply ReferenceJSONFacts.parse_print.
Qed.

Lemma saveCart_getCart_faithful
    (J : JSON) (ls ls' : localStorage) (cartItems : list item) :
  JSON_faithful J ->
  saveCart J ls cartItems = (true, ls') ->
  getCart J ls' = Normal (items_to_json cartItems).
Proof.
  intros HJ Hsave.
  destruct (JSON_stringify J (items_to_json cartItems)) as [text|e] eqn:Hs.
  - destruct (HJ _ _ Hs) as [Hne Hp].
    rewrite (getCart_after_saveCart J ls ls' cartItems text Hs Hne Hsave), Hp.
    reflexivity.
  - unfold saveCart in Hsave. rewrite Hs in Hsave. discriminate.
Qed.

Corollary saveCart_getCart_reference
    (ls ls' : localStorage) (cartItems : list item) :
  saveCart reference ls cartItems = (true, ls') ->
  getCart reference ls' = Normal (items_to_json cartItems).
Proof. apply saveCart_getCart_faithful, reference_faithful. Qed.

(** A write the store refuses leaves the previous snapshot in place. *)
Example saveCart_over_quota :
  saveCart reference cramped [with_quantity shirt 1] = (false, cramped)
  /\ getCart reference cramped = Normal empty_cart.
Proof. vm_compute. split; reflexivity. Qed.

End StorageFacts.


(* ===================================================================== *)
(** * Properties of the catalog view                                      *)
(* ===================================================================== *)

Module CatalogFacts.
Import JS Catalog.

(** ** The sort model rearranges, and orders by what the comparator says *)

Section InsertionSort.
Context {A : Type}.
Variable comparefn : A -> A -> Z.

Lemma insert_sorted_perm (x : A) (l : list A) :
  Permutation (insert_sorted comparefn x l) (x :: l).
Proof.
  induction l as [|y l IH]; simpl; [reflexivity|].
  destruct (comparefn x y <=? 0); [reflexivity|].
  rewrite IH. apply perm_swap.
Qed.

Lemma Array_sort_perm (l : list A) : Permutation (Array_sort comparefn l) l.
Proof.
  induction l as [|x l IH]; simpl; [reflexivity|].
  rewrite insert_sorted_perm. constructor. exact IH.
Qed.

(** An order that agrees with the comparator's verdicts. *)
Variable le : A -> A -> Prop.
Hypothesis le_trans : forall x y z, le x y -> le y z -> le x z.
Hypothesis verdict_le : forall x y, comparefn x y <= 0 -> le x y.
Hypothesis verdict_gt : forall x y, 0 < comparefn x y -> le y x.

Lemma insert_sorted_Forall (P : A -> Prop) (x : A) (l : list A) :
  P x -> Forall P l -> Forall P (insert_sorted comparefn x l).
Proof.
  intros Hx Hl.
  apply (Permutation_Forall (Permutation_sym (insert_sorted_perm x l))).
  constructor; assumption.
Qed.

Lemma insert_sorted_sorted (x : A) (l : list A) :
  StronglySorted le l -> StronglySorted le (insert_sorted comparefn x l).
Proof.
  induction 1 as [|y l Hs IH Hy]; simpl.
  - constructor; constructor.
  - destruct (Z.leb_spec (comparefn x y) 0) as [Hc|Hc].
    + constructor; [constructor; assumption|].
      constructor; [apply verdict_le, Hc|].
      eapply Forall_impl; [exact Hy|].
      intros z Hz. eapply le_trans; [apply verdict_le, Hc | exact Hz].
    + constructor; [exact IH|].
      apply insert_sorted_Forall; [apply verdict_gt, Hc | exact Hy].
Qed.

Lemma Array_sort_sorted (l : list A) : StronglySorted le (Array_sort comparefn l).
Proof.
  induction l as [|x l IH]; simpl; [constructor|].
  apply insert_sorted_sorted, IH.
Qed.
End InsertionSort.

(** ** The comparator, in terms of the sort key *)

Lemma field_same_kind (a b : product) (key : string) :
  same_kind (field a key) (field b key).
Proof.
  unfold field.
  repeat (destruct (String.eqb key _); [exact I|]). exact I.
Qed.

Lemma sort_key_same_kind (f : filters_t) (a b : product) :
  same_kind (sort_key f a) (sort_key f b).
Proof.
  unfold sort_key. pose proof (field_same_kind a b (sortBy f)) as H.
  destruct (field a (sortBy f)), (field b (sortBy f)); exact H.
Qed.

Lemma comparator_by_key (f : filters_t) (a b : product) :
  comparator f a b =
    if String.eqb (sortOrder f) "asc"
    then (if js_gt (sort_key f a) (sort_key f b) then 1 else -1)
    else (if js_lt (sort_key f a) (sort_key f b) then 1 else -1).
Proof.
  unfold comparator, sort_key.
  pose proof (field_same_kind a b (sortBy f)) as H.
  destruct (field a (sortBy f)), (field b (sortBy f));
    try contradiction; reflexivity.
Qed.

(** ** "Not greater" is a preorder on keys of one kind *)

Lemma string_ltb_false_trans (x y z : string) :
  String.ltb y x = false -> String.ltb z y = false -> String.ltb z x = false.
Proof.
  unfold String.ltb. intros Hyx Hzy.
  destruct (String.compare z x) eqn:Hzx; try reflexivity.
  exfalso.
  apply String_as_OT.cmp_lt in Hzx.
  destruct (String.compare y x) eqn:C1; try discriminate.
  - apply String_as_OT.cmp_eq in C1. subst y.
    apply String_as_OT.cmp_lt in Hzx. unfold String_as_OT.cmp in Hzx.
    rewrite Hzx in Hzy. discriminate.
  - assert (Hxy : String_as_OT.lt x y).
    { apply String_as_OT.cmp_lt. unfold String_as_OT.cmp.
      rewrite String.compare_antisym, C1. reflexivity. }
    pose proof (String_as_OT.lt_trans _ _ _ Hzx Hxy) as Hlt.
    apply String_as_OT.cmp_lt in Hlt. unfold String_as_OT.cmp in Hlt.
    rewrite Hlt in Hzy. discriminate.
Qed.

Lemma string_ltb_asym (x y : string) :
  String.ltb x y = true -> String.ltb y x = false.
Proof.
  unfold String.ltb. rewrite (String.compare_antisym y x).
  destruct (String.compare x y); simpl; congruence.
Qed.

Lemma js_gt_false_trans (x y z : value) :
  same_kind x y -> same_kind y z ->
  js_gt x y = false -> js_gt y z = false -> js_gt x z = false.
Proof.
  destruct x, y, z; simpl; try contradiction; intros _ _; try reflexivity.
  - rewrite !Z.ltb_ge. lia.
  - intros H1 H2. exact (string_ltb_false_trans _ _ _ H1 H2).
Qed.

Lemma js_gt_asym (x y : value) : js_gt x y = true -> js_gt y x = false.
Proof.
  destruct x, y; simpl; try discriminate.
  - rewrite Z.ltb_lt, Z.ltb_ge. lia.
  - apply string_ltb_asym.
Qed.

Lemma key_le_trans (f : filters_t) (a b c : product) :
  key_le f a b -> key_le f b c -> key_le f a c.
Proof.
  unfold key_le. apply js_gt_false_trans; apply sort_key_same_kind.
Qed.

Lemma key_ge_trans (f : filters_t) (a b c : product) :
  key_ge f a b -> key_ge f b c -> key_ge f a c.
Proof.
  unfold key_ge, js_lt. intros H1 H2.
  eapply js_gt_false_trans; [apply sort_key_same_kind .. | exact H2 | exact H1].
Qed.

(** ** What the comparator's answers say about the keys *)

Lemma comparator_le_asc (f : filters_t) :
  String.eqb (sortOrder f) "asc" = true ->
  forall x y, comparator f x y <= 0 -> key_le f x y.
Proof.
  intros O x y. rewrite comparator_by_key, O. unfold key_le.
  destruct (js_gt _ _); [lia | reflexivity].
Qed.

Lemma comparator_gt_asc (f : filters_t) :
  String.eqb (sortOrder f) "asc" = true ->
  forall x y, 0 < comparator f x y -> key_le f y x.
Proof.
  intros O x y. rewrite comparator_by_key, O. unfold key_le.
  destruct (js_gt (sort_key _ x) _) eqn:G; [|lia].
  intros _. apply js_gt_asym, G.
Qed.

Lemma comparator_le_desc (f : filters_t) :
  String.eqb (sortOrder f) "asc" = false ->
  forall x y, comparator f x y <= 0 -> key_ge f x y.
Proof.
  intros O x y. rewrite comparator_by_key, O. unfold key_ge.
  destruct (js_lt _ _); [lia | reflexivity].
Qed.

Lemma comparator_gt_desc (f : filters_t) :
  String.eqb (sortOrder f) "asc" = false ->
  forall x y, 0 < comparator f x y -> key_ge f y x.
Proof.
  intros O x y. rewrite comparator_by_key, O. unfold key_ge, js_lt.
  destruct (js_gt (sort_key _ y) _) eqn:G; [|lia].
  intros _. apply js_gt_asym, G.
Qed.

(** ** The order of ties under any sort procedure

    The language leaves the result of [sort] to the engine when the
    comparator is inconsistent, as this one is on ties.  Whatever the
    engine does, if it only rearranges its input and decides by the
    comparator's answers alone (so that renaming the records commutes
    with sorting), then some catalog of two records with the same name
    comes out with the larger id first. *)

Section AnySort.
Variable sort : forall A : Type, (A -> A -> Z) -> list A -> list A.
Hypothesis sort_perm :
  forall A (comparefn : A -> A -> Z) (l : list A),
    Permutation (sort A comparefn l) l.
Hypothesis sort_natural :
  forall A B (f : A -> B) (cmpA : A -> A -> Z) (cmpB : B -> B -> Z) (l : list A),
    (forall x y, cmpB (f x) (f y) = cmpA x y) ->
    sort B cmpB (map f l) = map f (sort A cmpA l).

Lemma comparator_on_lamps (n m : Z) :
  comparator initial_filters (lamp n) (lamp m) = -1.
Proof. reflexivity. Qed.

Lemma any_sort_leaves_ties_unordered :
  exists l : list product,
    (l = [lamp 1; lamp 2] \/ l = [lamp 2; lamp 1])
    /\ sort product (comparator initial_filters) l = [lamp 2; lamp 1].
Proof.
  pose (f1 := fun b : bool => lamp (if b then 1 else 2)).
  pose (f2 := fun b : bool => lamp (if b then 2 else 1)).
  pose (always := fun _ _ : bool => -1).
  assert (N1 := sort_natural bool product f1 always
                  (comparator initial_filters) [true; false]
                  (fun x y => comparator_on_lamps _ _)).
  assert (N2 := sort_natural bool product f2 always
                  (comparator initial_filters) [true; false]
                  (fun x y => comparator_on_lamps _ _)).
  destruct (Permutation_length_2_inv
              (Permutation_sym (sort_perm bool always [true; false])))
    as [E|E]; rewrite E in N1, N2.
  - exists [lamp 2; lamp 1]. split; [right; reflexivity | exact N2].
  - exists [lamp 1; lamp 2]. split; [left; reflexivity | exact N1].
Qed.
End AnySort.

(** Conversely, any sort procedure that orders its input whenever the
    comparator's answers agree with a transitive order puts the filtered
    records in key order, as the model does. *)

Section AnyOrderingSort.
Variable sort : (product -> product -> Z) -> list product -> list product.
Hypothesis sort_orders :
  forall (comparefn : product -> product -> Z) (le : product -> product -> Prop),
    (forall x y z, le x y -> le y z -> le x z) ->
    (forall x y, comparefn x y <= 0 -> le x y) ->
    (forall x y, 0 < comparefn x y -> le y x) ->
    forall l, StronglySorted le (sort comparefn l).

Lemma any_sort_orders_by_key (st : state) :
  if String.eqb (sortOrder (filters st)) "asc"
  then StronglySorted (key_le (filters st))
         (sort (comparator (filters st)) (apply_filters st))
  else StronglySorted (key_ge (filters st))
         (sort (comparator (filters st)) (apply_filters st)).
Proof.
  destruct (String.eqb (sortOrder (filters st)) "asc") eqn:O;
    apply sort_orders.
  - apply key_le_trans.
  - apply (comparator_le_asc _ O).
  - apply (comparator_gt_asc _ O).
  - apply key_ge_trans.
  - apply (comparator_le_desc _ O).
  - apply (comparator_gt_desc _ O).
Qed.
End AnyOrderingSort.

(** The sort model is such a procedure. *)
Lemma insert_sorted_natural {A B} (f : A -> B) (cmpA : A -> A -> Z)
    (cmpB : B -> B -> Z) (x : A) (l : list A) :
  (forall x y, cmpB (f x) (f y) = cmpA x y) ->
  insert_sorted cmpB (f x) (map f l) = map f (insert_sorted cmpA x l).
Proof.
  intros H. induction l as [|y l IH]; simpl; [reflexivity|].
  rewrite H. destruct (cmpA x y <=? 0); simpl; [reflexivity|].
  rewrite IH. reflexivity.
Qed.

Lemma Array_sort_natural {A B} (f : A -> B) (cmpA : A -> A -> Z)
    (cmpB : B -> B -> Z) (l : list A) :
  (forall x y, cmpB (f x) (f y) = cmpA x y) ->
  Array_sort cmpB (map f l) = map f (Array_sort cmpA l).
Proof.
  intros H. induction l as [|x l IH]; simpl; [reflexivity|].
  rewrite IH. apply insert_sorted_natural, H.
Qed.

Example Array_sort_leaves_ties_unordered :
  exists l : list product,
    (l = [lamp 1; lamp 2] \/ l = [lamp 2; lamp 1])
    /\ Array_sort (comparator initial_filters) l = [lamp 2; lamp 1].
Proof.
  apply (any_sort_leaves_ties_unordered (@Array_sort)).
  - intros A c l. apply Array_sort_perm.
  - intros A B f cA cB l. apply Array_sort_natural.
Qed.

(** C9, as stated, fails: three records with the same name, in base order
    3, 1, 2, come out of the sort step in that order.  They are tied on
    the sort key, and the record with id 3 is ahead of the one with id 1;
    the comparator answers -1 for a tie whichever way it is asked and
    never looks at [id].  (An engine that takes the all-negative answers
    for a descending run and reverses it returns 2, 1, 3: the ids are out
    of order there too.) *)
Lemma equal_keys_not_ordered_by_id :
  getFilteredProducts three_lamps = [lamp 3; lamp 1; lamp 2]
  /\ sort_key initial_filters (lamp 3) = sort_key initial_filters (lamp 1)
  /\ comparator initial_filters (lamp 3) (lamp 1) = -1
  /\ comparator initial_filters (lamp 1) (lamp 3) = -1
  /\ ~ ties_by_ascending_id initial_filters (getFilteredProducts three_lamps).
Proof.
  repeat split; try (vm_compute; reflexivity).
  intros H.
  specialize (H 0%nat 1%nat (lamp 3) (lamp 1)).
  cbv in H. assert (F : (3 ?= 1) = Lt) by (apply H; (lia || reflexivity)).
  discriminate.
Qed.

(** C9, amended. The sort step orders the filtered records by the
    requested key alone (strings compared in lower case): with
    [sortOrder = "asc"] no record's key is greater than that of a record
    placed after it, with any other [sortOrder] none is less; the result
    is a rearrangement of the filtered records.  Nothing is said about
    the order of records with equal keys. *)
Theorem getFilteredProducts_sorted_by_key (st : state) :
  Permutation (getFilteredProducts st) (apply_filters st)
  /\ if String.eqb (sortOrder (filters st)) "asc"
     then StronglySorted (key_le (filters st)) (getFilteredProducts st)
     else StronglySorted (key_ge (filters st)) (getFilteredProducts st).
Proof.
  split; [apply Array_sort_perm|].
  unfold getFilteredProducts.
  destruct (String.eqb (sortOrder (filters st)) "asc") eqn:O;
    apply Array_sort_sorted.
  - apply key_le_trans.
  - apply (comparator_le_asc _ O).
  - apply (comparator_gt_asc _ O).
  - apply key_ge_trans.
  - apply (comparator_le_desc _ O).
  - apply (comparator_gt_desc _ O).
Qed.

Example mixed_catalog_sorted :
  map id (getFilteredProducts mixed_catalog) = [2; 4].
Proof. vm_compute. reflexivity. Qed.

End CatalogFacts.

(* ===================================================================== *)
(** * Further properties of the cart                                      *)
(* ===================================================================== *)

Module CartMore.
Import Cart CartNotions.

(** ** Lists of lines *)

Lemma ids_map_if (f : item -> bool) (g : item -> item) (l : list item) :
  (forall it, id (g it) = id it) ->
  map id (map (fun it => if f it then g it else it) l) = map id l.
Proof.
  intros Hg. induction l as [|it l IH]; [reflexivity|].
  cbn [map]. rewrite IH. destruct (f it); [rewrite Hg|]; reflexivity.
Qed.

Lemma existsb_id_In (n : Z) (l : list item) :
  existsb (fun it => id it =? n) l = false -> ~ In n (map id l).
Proof.
  induction l as [|it l IH]; cbn [existsb map]; [intros _ []|].
  intros H. apply orb_false_iff in H as [Hn Hl].
  intros [E|Hin]; [|exact (IH Hl Hin)].
  apply Z.eqb_neq in Hn. contradiction.
Qed.

Lemma In_id_existsb (n : Z) (l : list item) :
  ~ In n (map id l) -> existsb (fun it => id it =? n) l = false.
Proof.
  induction l as [|it l IH]; cbn [existsb map]; [reflexivity|].
  intros H. apply orb_false_iff. split.
  - apply Z.eqb_neq. intros E. apply H. left. exact E.
  - apply IH. intros Hin. apply H. right. exact Hin.
Qed.

Lemma NoDup_ids_filter (f : item -> bool) (l : list item) :
  NoDup (map id l) -> NoDup (map id (List.filter f l)).
Proof.
  induction l as [|it l IH]; cbn [List.filter map]; [intros H; exact H|].
  intros H. apply NoDup_cons in H as [Hn Hl].
  destruct (f it); cbn [map]; [|exact (IH Hl)].
  apply NoDup_cons. split; [|exact (IH Hl)].
  intros Hin. apply Hn.
  apply list_elem_of_In in Hin. apply list_elem_of_In.
  apply in_map_iff in Hin as (x & Hx & Hxin).
  apply in_map_iff. exists x. split; [exact Hx|].
  apply filter_In in Hxin. tauto.
Qed.

Lemma filter_all {A} (f : A -> bool) (l : list A) :
  (forall x, In x l -> f x = true) -> List.filter f l = l.
Proof.
  induction l as [|x l IH]; cbn [List.filter]; [reflexivity|].
  intros H. rewrite (H x (or_introl eq_refl)), IH; [reflexivity|].
  intros y Hy. apply H. right. exact Hy.
Qed.

(** ** One step keeps the ids distinct *)

Lemma apply_mutation_distinct (s : state) (m : mutation) :
  distinct_ids s -> distinct_ids (apply_mutation s m).
Proof.
  unfold distinct_ids, apply_mutation. intros H.
  destruct m as [p q | k q | k | ]; cbn [dispatched].
  - rewrite CartFacts.addToCart_items.
    destruct (has_line (KNum (id p)) s) eqn:E.
    + rewrite ids_map_if; [exact H | reflexivity].
    + rewrite map_app. cbn [map with_quantity id].
      apply NoDup_app. split; [exact H|]. split.
      * intros n Hn Hp. apply list_elem_of_In in Hn.
        apply list_elem_of_singleton in Hp. subst n.
        exact (existsb_id_In _ _ E Hn).
      * apply NoDup_singleton.
  - unfold updateQuantity. destruct (q <=? 0); cbn.
    + apply NoDup_ids_filter, H.
    + rewrite ids_map_if; [exact H | reflexivity].
  - cbn. apply NoDup_ids_filter, H.
  - cbn. constructor.
Qed.

(** X1. Starting from the empty cart, no sequence of adds, quantity
    updates, removals and clears ever leaves two lines with the same
    product id. *)
Theorem one_line_per_product_id (ms : list mutation) :
  distinct_ids (apply_all initialState ms).
Proof.
  unfold apply_all.
  assert (G : forall s, distinct_ids s -> distinct_ids (fold_left apply_mutation ms s)).
  { induction ms as [|m ms IH]; intros s H; cbn [fold_left]; [exact H|].
    apply IH, apply_mutation_distinct, H. }
  apply G. constructor.
Qed.

Lemma one_line_per_product_id_example :
  map id (items (apply_all initialState
                   [AddToCart shirt 1; AddToCart mug 2; AddToCart shirt 3;
                    UpdateQuantity (KNum 3) 7])) = [7; 3].
Proof. reflexivity. Qed.

(** ** Removal *)

Lemma REMOVE_ITEM_absent (s : state) (k : jskey) :
  has_line k s = false -> cartReducer s (REMOVE_ITEM k) = s.
Proof.
  unfold has_line. intros H. destruct s as [its ld er].
  cbn [cartReducer items loading error] in *. f_equal.
  apply filter_all. intros it Hit.
  destruct (id_is it k) eqn:E; [|reflexivity].
  assert (X : existsb (fun it => id_is it k) its = true).
  { apply existsb_exists. exists it. split; assumption. }
  congruence.
Qed.

Lemma has_line_after_remove (s : state) (k : jskey) :
  has_line k (cartReducer s (REMOVE_ITEM k)) = false.
Proof.
  unfold has_line. cbn [cartReducer items].
  induction (items s) as [|it l IH]; [reflexivity|].
  cbn [List.filter]. destruct (id_is it k) eqn:E; cbn [negb]; [exact IH|].
  cbn [existsb]. rewrite E, IH. reflexivity.
Qed.

(** X2. [removeFromCart] deletes the lines the key addresses and nothing
    else: afterwards the cart has no such line, the lines left are those
    of the cart that the key does not address, a second removal changes
    nothing, and removing a line the cart does not have leaves the whole
    state as it was. *)
Theorem removeFromCart_exact_and_idempotent (s : state) (k : jskey) :
  has_line k (run s (removeFromCart k)) = false
  /\ (forall it, In it (items (run s (removeFromCart k)))
                 <-> In it (items s) /\ id_is it k = false)
  /\ run (run s (removeFromCart k)) (removeFromCart k) = run s (removeFromCart k)
  /\ (has_line k s = false -> run s (removeFromCart k) = s).
Proof.
  cbn [run removeFromCart fold_left].
  split; [apply has_line_after_remove|].
  split; [|split].
  - intros it. cbn [cartReducer items]. rewrite filter_In, negb_true_iff.
    reflexivity.
  - apply REMOVE_ITEM_absent, has_line_after_remove.
  - apply REMOVE_ITEM_absent.
Qed.

Lemma removeFromCart_exact_and_idempotent_witness :
  has_line (KNum 3) (run initialState (addToCart shirt 2)) = false
  /\ run (run initialState (addToCart shirt 2)) (removeFromCart (KNum 3))
     = run initialState (addToCart shirt 2).
Proof.
  split; [reflexivity|].
  apply (removeFromCart_exact_and_idempotent
           (run initialState (addToCart shirt 2)) (KNum 3)).
  reflexivity.
Defined.

(** ** Sums over the lines when one line changes *)

Lemma sum_quantity_app (l l' : list item) :
  sum_quantity (l ++ l') = sum_quantity l + sum_quantity l'.
Proof. induction l as [|it l IH]; cbn; [reflexivity | rewrite IH; lia]. Qed.

(** With distinct ids, rewriting the quantity of the line of product [n]
    moves the sum of the quantities by that line's change alone. *)
Lemma quantity_after_requantify (n : Z) (h : item -> Z) (l : list item) :
  NoDup (map id l) ->
  sum_quantity (map (fun it => if id it =? n
                               then with_quantity it (h it) else it) l)
  = sum_quantity l
    + match List.find (fun it => id it =? n) l with
      | Some line => h line - quantity line
      | None => 0
      end.
Proof.
  induction l as [|it l IH]; intros H; cbn [map List.find]; [cbn; lia|].
  apply NoDup_cons in H as [Hn Hl].
  destruct (id it =? n) eqn:E.
  - apply Z.eqb_eq in E. subst n.
    assert (A : existsb (fun x => id x =? id it) l = false).
    { apply In_id_existsb. intros Hin. apply Hn, list_elem_of_In, Hin. }
    rewrite (CartFacts.map_if_absent (fun x => id x =? id it)
               (fun x => with_quantity x (h x)) l A).
    cbn [sum_quantity with_quantity quantity]. lia.
  - cbn [sum_quantity]. rewrite (IH Hl). lia.
Qed.

(** With distinct ids, it rewrites that one line where it stands. *)
Lemma requantify_in_place (n : Z) (g : item -> item) (l : list item)
    (line : item) :
  NoDup (map id l) ->
  List.find (fun it => id it =? n) l = Some line ->
  exists before after,
    l = before ++ line :: after
    /\ map (fun it => if id it =? n then g it else it) l
       = before ++ g line :: after.
Proof.
  induction l as [|it l IH]; intros H F; [discriminate F|].
  apply NoDup_cons in H as [Hn Hl]. cbn [List.find map] in *.
  destruct (id it =? n) eqn:E.
  - injection F as ->. apply Z.eqb_eq in E. subst n.
    assert (A : existsb (fun x => id x =? id line) l = false).
    { apply In_id_existsb. intros Hin. apply Hn, list_elem_of_In, Hin. }
    exists [], l. split; [reflexivity|].
    rewrite (CartFacts.map_if_absent (fun x => id x =? id line) g l A).
    reflexivity.
  - destruct (IH Hl F) as (before & after & E1 & E2).
    exists (it :: before), after. cbn [app]. rewrite <- E1, E2.
    split; reflexivity.
Qed.

Lemma line_of_has_line (n : Z) (s : state) :
  has_line (KNum n) s = match line_of n s with Some _ => true | None => false end.
Proof.
  unfold has_line, line_of. cbn [id_is].
  destruct (List.find _ _) eqn:F.
  - destruct (existsb _ _) eqn:E; [reflexivity|].
    apply CartFacts.find_none_existsb in E. congruence.
  - apply CartFacts.find_none_existsb in F. exact F.
Qed.

(** The sum of the quantities after an add, in a cart with distinct ids. *)
Lemma quantity_after_add (s : state) (product : item) (q : Z) :
  distinct_ids s ->
  sum_quantity (items (run s (addToCart product q)))
  = sum_quantity (items s) + q.
Proof.
  intros H. rewrite CartFacts.addToCart_items, line_of_has_line.
  pose proof (quantity_after_requantify (id product)
                (fun it => quantity it + q) (items s) H) as S1.
  unfold line_of in *.
  destruct (List.find _ (items s)) as [line|] eqn:F.
  - rewrite S1. lia.
  - rewrite sum_quantity_app. cbn. lia.
Qed.

Lemma getCartTotal_total_from (s : state) :
  getCartTotal s = total_from (JS.zero false) (items s).
Proof. reflexivity. Qed.

Lemma total_from_app (acc : JS.number) (l l' : list item) :
  total_from acc (l ++ l') = total_from (total_from acc l) l'.
Proof. apply fold_left_app. Qed.

Lemma total_from_cons (acc : JS.number) (it : item) (l : list item) :
  total_from acc (it :: l) = total_from (JS.plus acc (line_total it)) l.
Proof. reflexivity. Qed.

(** X3. In a cart with at most one line per product id, adding [q] units
    of a product raises the item count by exactly [q].  When the product
    has no line yet, the total becomes the old total plus the product's
    price times [q], these being one product and one sum of numbers.
    When it has a line, the total is the sum over the same lines in the
    same order, that line now counted for its old quantity plus [q] at
    the price the line already had: the product's current price is
    ignored. *)
Theorem addToCart_raises_totals (s : state) (product : item) (q : Z) :
  distinct_ids s ->
  getCartItemCount (run s (addToCart product q)) = getCartItemCount s + q
  /\ (line_of (id product) s = None ->
      getCartTotal (run s (addToCart product q))
      = JS.plus (getCartTotal s)
          (JS.times (JS.number_of_price (price product)) (JS.number_of_Z q)))
  /\ (forall line : item,
        line_of (id product) s = Some line ->
        exists before after : list item,
          splits_at s before line after
          /\ getCartTotal (run s (addToCart product q))
             = total_from
                 (JS.plus (total_from (JS.zero false) before)
                    (JS.times (JS.number_of_price (price line))
                       (JS.number_of_Z (quantity line + q))))
                 after).
Proof.
  intros H. split; [|split].
  - rewrite !CartFacts.getCartItemCount_sum. apply quantity_after_add, H.
  - intros F. rewrite !getCartTotal_total_from.
    rewrite CartFacts.addToCart_items, line_of_has_line, F.
    rewrite total_from_app. reflexivity.
  - intros line F.
    destruct (requantify_in_place (id product)
                (fun it => with_quantity it (quantity it + q))
                (items s) line H F) as (before & after & E1 & E2).
    exists before, after. split; [exact E1|].
    rewrite getCartTotal_total_from.
    rewrite CartFacts.addToCart_items, line_of_has_line, F, E2.
    rewrite total_from_app, total_from_cons. reflexivity.
Qed.

Lemma addToCart_raises_totals_witness :
  let s := run initialState (addToCart shirt 2) in
  let dearer := {| id := 7; name := "Shirt"; price := 1999; stock := Some 5;
                   quantity := 0; selectedSize := None;
                   selectedColor := None; cartId := None |} in
  distinct_ids s
  /\ getCartItemCount (run s (addToCart dearer 3)) = 5
  /\ getCartTotal (run s (addToCart mug 1))
     = JS.plus (JS.number_of_Z 20) (JS.number_of_price 450)
  /\ exists before after : list item,
       splits_at s before (with_quantity shirt 2) after
       /\ getCartTotal (run s (addToCart dearer 3))
          = total_from
              (JS.plus (total_from (JS.zero false) before)
                 (JS.times (JS.number_of_price 1000) (JS.number_of_Z 5)))
              after.
Proof.
  intros s dearer.
  assert (D : distinct_ids s).
  { unfold distinct_ids. cbn. apply NoDup_singleton. }
  split; [exact D|].
  destruct (addToCart_raises_totals s dearer 3 D) as (C & _ & T).
  destruct (addToCart_raises_totals s mug 1 D) as (_ & A & _).
  split; [rewrite C; reflexivity|].
  split; [rewrite (A eq_refl); vm_compute; reflexivity|].
  exact (T (with_quantity shirt 2) eq_refl).
Defined.

(** X4. In a cart with at most one line per product id, setting the
    quantity of a product that has a line to a positive [q] keeps the
    number of lines, moves the item count by the difference for that line
    alone, and leaves as total the sum over the same lines in the same
    order, that line now counted for [q] at the price it had. *)
Theorem updateQuantity_moves_totals (s : state) (n q : Z) (line : item) :
  0 < q ->
  distinct_ids s ->
  line_of n s = Some line ->
  getCartItemCount (run s (updateQuantity (KNum n) q))
  = getCartItemCount s - quantity line + q
  /\ length (items (run s (updateQuantity (KNum n) q))) = length (items s)
  /\ exists before after : list item,
       splits_at s before line after
       /\ getCartTotal (run s (updateQuantity (KNum n) q))
          = total_from
              (JS.plus (total_from (JS.zero false) before)
                 (JS.times (JS.number_of_price (price line)) (JS.number_of_Z q)))
              after.
Proof.
  intros Hq H F. unfold updateQuantity.
  destruct (Z.leb_spec q 0); [lia|].
  split; [|split].
  - rewrite !CartFacts.getCartItemCount_sum.
    cbn [run fold_left cartReducer items id_is].
    rewrite (quantity_after_requantify n (fun _ => q) (items s) H).
    unfold line_of in F. rewrite F. lia.
  - cbn [run fold_left cartReducer items]. apply length_map.
  - destruct (requantify_in_place n (fun it => with_quantity it q)
                (items s) line H F) as (before & after & E1 & E2).
    exists before, after. split; [exact E1|].
    rewrite getCartTotal_total_from.
    cbn [run fold_left cartReducer items id_is]. rewrite E2.
    rewrite total_from_app, total_from_cons. reflexivity.
Qed.

Lemma updateQuantity_moves_totals_witness :
  let s := apply_all initialState [AddToCart shirt 2; AddToCart mug 1] in
  getCartItemCount (run s (updateQuantity (KNum 7) 5)) = 6
  /\ exists before after : list item,
       splits_at s before (with_quantity shirt 2) after
       /\ getCartTotal (run s (updateQuantity (KNum 7) 5))
          = total_from
              (JS.plus (total_from (JS.zero false) before)
                 (JS.times (JS.number_of_price 1000) (JS.number_of_Z 5)))
              after.
Proof.
  intros s.
  assert (D : distinct_ids s).
  { unfold distinct_ids. cbn.
    apply NoDup_cons. split; [|apply NoDup_singleton].
    intros Hin. apply list_elem_of_singleton in Hin. discriminate. }
  destruct (updateQuantity_moves_totals s 7 5 (with_quantity shirt 2))
    as (C & _ & T); [lia | exact D | reflexivity |].
  split; [rewrite C; reflexivity | exact T].
Defined.

(** ** Invariants along a sequence of mutations *)

Lemma apply_all_invariant (P : state -> Prop) (Q : mutation -> Prop) :
  (forall s m, Q m -> P s -> P (apply_mutation s m)) ->
  forall ms s, Forall Q ms -> P s -> P (apply_all s ms).
Proof.
  intros Hstep ms. unfold apply_all.
  induction ms as [|m ms IH]; intros s HQ Hs; cbn [fold_left]; [exact Hs|].
  apply Forall_cons in HQ as [Hm Hms].
  apply IH; [exact Hms | apply Hstep; assumption].
Qed.

Lemma Forall_filter_keep {A} (P : A -> Prop) (f : A -> bool) (l : list A) :
  Forall P l -> Forall P (List.filter f l).
Proof.
  intros H. apply Forall_forall. intros x Hx.
  apply list_elem_of_In, filter_In in Hx as [Hx _].
  rewrite Forall_forall in H. apply H, list_elem_of_In, Hx.
Qed.

Lemma apply_mutation_positive (s : state) (m : mutation) :
  match m with AddToCart _ q => 1 <= q | _ => True end ->
  quantities_positive s -> quantities_positive (apply_mutation s m).
Proof.
  unfold quantities_positive, apply_mutation. intros Hm H.
  destruct m as [p q | k q | k | ]; cbn [dispatched].
  - rewrite CartFacts.addToCart_items.
    destruct (has_line _ s).
    + apply Forall_map. eapply Forall_impl; [exact H|].
      intros it Hit. unfold compose. cbn beta in Hit.
      destruct (id it =? id p); cbn [with_quantity quantity]; lia.
    + apply Forall_app. split; [exact H|].
      constructor; [cbn [with_quantity quantity]; lia | constructor].
  - unfold updateQuantity. destruct (Z.leb_spec q 0); cbn.
    + apply Forall_filter_keep, H.
    + apply Forall_map. eapply Forall_impl; [exact H|].
      intros it Hit. unfold compose. cbn beta in Hit.
      destruct (id_is it k); cbn [with_quantity quantity]; lia.
  - cbn. apply Forall_filter_keep, H.
  - cbn. constructor.
Qed.

(** X5. As long as every add asks for at least one unit, every line of
    the cart holds at least one unit after any sequence of mutations: an
    update to zero or less removes the line instead of storing the
    quantity. *)
Theorem quantities_stay_positive (s : state) (ms : list mutation) :
  adds_positive ms ->
  quantities_positive s ->
  quantities_positive (apply_all s ms).
Proof.
  apply (apply_all_invariant quantities_positive
           (fun m => match m with AddToCart _ q => 1 <= q | _ => True end)).
  intros s' m. apply apply_mutation_positive.
Qed.

Lemma quantities_stay_positive_witness :
  quantities_positive
    (apply_all initialState
       [AddToCart shirt 2; AddToCart mug 1; UpdateQuantity (KNum 7) 0;
        UpdateQuantity (KNum 3) 4; AddToCart shirt 1]).
Proof.
  apply quantities_stay_positive.
  - unfold adds_positive. repeat constructor; lia.
  - constructor.
Defined.

Lemma apply_mutation_loading (s : state) (m : mutation) :
  loading s = true -> loading (apply_mutation s m) = true.
Proof.
  intros H. unfold apply_mutation.
  destruct m as [p q | k q | k | ]; cbn [dispatched].
  - unfold run, addToCart. cbn [fold_left cartReducer loading items].
    destruct (List.find _ _); reflexivity.
  - unfold updateQuantity. destruct (q <=? 0); exact H.
  - exact H.
  - exact H.
Qed.

(** X6. [addToCart] raises the [loading] flag and nothing lowers it
    again: after an add the flag is set, and it stays set through every
    later add, update, removal and clear. *)
Theorem loading_stays_set_after_add
    (s : state) (product : item) (q : Z) (ms : list mutation) :
  loading (apply_all (apply_mutation s (AddToCart product q)) ms) = true.
Proof.
  apply (apply_all_invariant (fun s => loading s = true) (fun _ => True)).
  - intros s' m _. apply apply_mutation_loading.
  - apply Forall_forall. intros; exact I.
  - unfold apply_mutation, run. cbn [dispatched addToCart fold_left].
    cbn [cartReducer loading items]. destruct (List.find _ _); reflexivity.
Qed.

Lemma apply_mutation_error (s : state) (m : mutation) :
  error (apply_mutation s m) = error s.
Proof.
  unfold apply_mutation.
  destruct m as [p q | k q | k | ]; cbn [dispatched].
  - apply CartFacts.addToCart_error.
  - unfold updateQuantity. destruct (q <=? 0); reflexivity.
  - reflexivity.
  - reflexivity.
Qed.

(** X7. No sequence of adds, updates, removals and clears ever touches
    the [error] field: whatever the arguments, the four entry points
    report nothing. *)
Theorem mutations_never_set_error (s : state) (ms : list mutation) :
  error (apply_all s ms) = error s.
Proof.
  apply (apply_all_invariant (fun s' => error s' = error s) (fun _ => True)).
  - intros s' m _ H. rewrite apply_mutation_error. exact H.
  - apply Forall_forall. intros; exact I.
  - reflexivity.
Qed.

(** X8. Adding a product the cart has no line for and then removing it
    gives back the item list there was before the add. *)
Theorem add_then_remove_restores_items (s : state) (product : item) (q : Z) :
  has_line (KNum (id product)) s = false ->
  items (run (run s (addToCart product q)) (removeFromCart (KNum (id product))))
  = items s.
Proof.
  intros H. cbn [run removeFromCart fold_left cartReducer items].
  change (fold_left cartReducer (addToCart product q) s)
    with (run s (addToCart product q)).
  rewrite CartFacts.addToCart_items, H.
  rewrite List.filter_app. cbn [List.filter id_is with_quantity id].
  rewrite Z.eqb_refl. cbn [negb]. rewrite app_nil_r.
  apply filter_all. intros it Hit.
  destruct (id it =? id product) eqn:E; [|reflexivity].
  assert (X : has_line (KNum (id product)) s = true).
  { apply existsb_exists. exists it. split; [exact Hit | exact E]. }
  congruence.
Qed.

Lemma add_then_remove_restores_items_witness :
  items (run (run (run initialState (addToCart mug 1)) (addToCart shirt 4))
             (removeFromCart (KNum 7)))
  = [with_quantity mug 1].
Proof.
  exact (add_then_remove_restores_items
           (run initialState (addToCart mug 1)) shirt 4 eq_refl).
Defined.

(** X9. The product page's add puts exactly one unit in the cart,
    whatever quantity was chosen on the page: the chosen quantity is
    overwritten by [addToCart]'s default, so the dispatched actions do not
    depend on it and the item count of a cart with distinct ids grows by
    one. *)
Theorem handleAddToCart_adds_one_unit
    (s : state) (product : item) (q q' : Z) (size color : string) :
  distinct_ids s ->
  handleAddToCart (Some product) q size color
  = handleAddToCart (Some product) q' size color
  /\ getCartItemCount (run s (handleAddToCart (Some product) q size color))
     = getCartItemCount s + 1.
Proof.
  intros H. split; [reflexivity|].
  cbn [handleAddToCart]. rewrite !CartFacts.getCartItemCount_sum.
  apply quantity_after_add, H.
Qed.

Lemma handleAddToCart_adds_one_unit_witness :
  getCartItemCount (run initialState (handleAddToCart (Some shirt) 4 "M" "red"))
  = 1.
Proof.
  destruct (handleAddToCart_adds_one_unit initialState shirt 4 1 "M" "red")
    as [_ C]; [constructor|].
  rewrite C. reflexivity.
Defined.

(** X10. A line that carries a non-empty cartId cannot be addressed from
    the cart page: its remove button and its quantity stepper hand the
    cartId string to the reducer, which compares it with numeric ids, so
    neither changes the state. *)
Theorem cartId_lines_are_stuck (s : state) (it : item) (c : string) (q : Z) :
  cartId it = Some c ->
  c <> "" ->
  run s (remove_button it) = s
  /\ run s (handleQuantityChange it q) = s.
Proof.
  intros Hc Hne.
  assert (K : line_key it = KStr c).
  { unfold line_key. rewrite Hc.
    destruct (String.eqb_spec c ""); [contradiction | reflexivity]. }
  assert (R : run s (removeFromCart (KStr c)) = s).
  { cbn [run removeFromCart fold_left]. apply REMOVE_ITEM_absent.
    unfold has_line. cbn [id_is].
    induction (items s) as [|x l IH]; [reflexivity | exact IH]. }
  unfold remove_button, handleQuantityChange. rewrite K.
  split; [exact R|].
  destruct (q <=? 0) eqn:Q; [exact R|].
  unfold updateQuantity. rewrite Q.
  cbn [run fold_left]. apply CartFacts.UPDATE_ITEM_absent.
  unfold has_line. cbn [id_is].
  induction (items s) as [|x l IH]; [reflexivity | exact IH].
Qed.

Lemma cartId_lines_are_stuck_witness :
  let it := {| id := 7; name := "Shirt"; price := 1000; stock := Some 5;
               quantity := 1; selectedSize := Some "M";
               selectedColor := Some "red"; cartId := Some "7-M-red" |} in
  let s := run initialState (handleAddToCart (Some shirt) 1 "M" "red") in
  items s = [it]
  /\ run s (remove_button it) = s
  /\ run s (handleQuantityChange it 0) = s.
Proof.
  intros it s. split; [reflexivity|].
  apply (cartId_lines_are_stuck s it "7-M-red" 0); [reflexivity | discriminate].
Defined.

End CartMore.

(* ===================================================================== *)
(** * Further properties of the storage helpers                           *)
(* ===================================================================== *)

Module StorageMore.
Import Cart Storage StorageMethods ReferenceJSON.

(** ** Reading a key *)

Lemma storage_getItem_text (J : JSON) (ls : localStorage) (key text : string) :
  accessible ls = true ->
  entries ls !! key = Some text ->
  text <> "" ->
  storage_getItem J ls key
  = try_catch (JSON_parse J text) (fun _ => Normal JNull).
Proof.
  intros Ha H Hne. unfold storage_getItem, getItem. rewrite Ha. cbn. rewrite H.
  destruct text as [|c t]; [contradiction | reflexivity].
Qed.

Lemma storage_getItem_absent (J : JSON) (ls : localStorage) (key : string) :
  entries ls !! key = None -> storage_getItem J ls key = Normal JNull.
Proof.
  intros H. unfold storage_getItem, getItem.
  destruct (accessible ls); cbn; [rewrite H|]; reflexivity.
Qed.

(** Reading depends on the store only through its accessibility and the
    one key read. *)
Lemma storage_getItem_same (J : JSON) (ls ls' : localStorage) (key : string) :
  accessible ls' = accessible ls ->
  entries ls' !! key = entries ls !! key ->
  storage_getItem J ls' key = storage_getItem J ls key.
Proof.
  intros Ha He. unfold storage_getItem, getItem. rewrite Ha, He. reflexivity.
Qed.

Lemma getCart_same (J : JSON) (ls ls' : localStorage) :
  accessible ls' = accessible ls ->
  entries ls' !! "cart" = entries ls !! "cart" ->
  getCart J ls' = getCart J ls.
Proof.
  intros Ha He. unfold getCart, getItem. rewrite Ha, He. reflexivity.
Qed.

Lemma getTheme_same (ls ls' : localStorage) :
  accessible ls' = accessible ls ->
  entries ls' !! "theme" = entries ls !! "theme" ->
  getTheme ls' = getTheme ls.
Proof.
  intros Ha He. unfold getTheme, getItem. rewrite Ha, He. reflexivity.
Qed.

(** ** What a write leaves behind *)

Lemma setItem_store (ls ls' : localStorage) (key value : string) :
  setItem ls key value = Normal ls' ->
  accessible ls = true /\ accessible ls' = true
  /\ entries ls' = <[key := value]> (entries ls).
Proof.
  unfold setItem. destruct (accessible ls); [|discriminate].
  destruct (_ <=? _)%nat; [|discriminate].
  intros [= <-]. repeat split.
Qed.

Lemma removeItem_store (ls ls' : localStorage) (key : string) :
  removeItem ls key = Normal ls' ->
  accessible ls = true /\ accessible ls' = true
  /\ entries ls' = delete key (entries ls).
Proof.
  unfold removeItem. destruct (accessible ls); [|discriminate].
  intros [= <-]. repeat split.
Qed.

Lemma storage_setItem_store (J : JSON) (ls ls' : localStorage) (key : string)
    (v : json) (b : bool) :
  storage_setItem J ls key v = (b, ls') ->
  (b = false /\ ls' = ls)
  \/ (b = true /\ exists text,
        JSON_stringify J v = Normal text
        /\ accessible ls = true /\ accessible ls' = true
        /\ entries ls' = <[key := text]> (entries ls)).
Proof.
  unfold storage_setItem.
  destruct (JSON_stringify J v) as [text|e]; cbn; [|intros [= <- <-]; auto].
  destruct (setItem ls key text) as [ls1|e] eqn:W; intros [= <- <-]; [|auto].
  right. split; [reflexivity|]. exists text. split; [reflexivity|].
  apply (setItem_store _ _ _ _ W).
Qed.

(** X11. With a JSON that reads back what it writes, a value stored with
    [storage.setItem] (the call answering [true]) is what
    [storage.getItem] returns for that key afterwards, whatever the key
    held before. *)
Theorem storage_setItem_getItem (J : JSON) (ls ls' : localStorage)
    (key : string) (v : json) :
  JSON_faithful J ->
  storage_setItem J ls key v = (true, ls') ->
  storage_getItem J ls' key = Normal v.
Proof.
  intros HJ H.
  destruct (storage_setItem_store J ls ls' key v true H)
    as [[F _]|(_ & text & Hs & _ & Ha & He)]; [discriminate|].
  destruct (HJ v text Hs) as [Hne Hp].
  rewrite (storage_getItem_text J ls' key text Ha); [| |exact Hne].
  - rewrite Hp. reflexivity.
  - rewrite He. apply lookup_insert_eq.
Qed.

Lemma storage_setItem_getItem_witness :
  let profile := JObj [("name", JStr "Ada"); ("visits", JNum 3)] in
  storage_getItem reference
    (snd (storage_setItem reference roomy "profile" profile)) "profile"
  = Normal profile.
Proof.
  intros profile.
  apply (storage_setItem_getItem reference roomy _ "profile" profile).
  - apply StorageFacts.reference_faithful.
  - vm_compute. reflexivity.
Defined.

(** X12. Writes touch one key only: after [storage.setItem],
    [storage.removeItem] or [saveTheme] on one key, successful or not,
    every other key reads as before; in particular saving the theme never
    changes what [getCart] returns, and saving the cart never changes the
    theme. *)
Theorem writes_leave_other_keys (J : JSON) (ls : localStorage)
    (key other : string) (v : json) (theme : string) (cartItems : list item) :
  key <> other ->
  storage_getItem J (snd (storage_setItem J ls key v)) other
  = storage_getItem J ls other
  /\ storage_getItem J (snd (storage_removeItem ls key)) other
     = storage_getItem J ls other
  /\ getCart J (snd (saveTheme ls theme)) = getCart J ls
  /\ getTheme (snd (saveCart J ls cartItems)) = getTheme ls.
Proof.
  intros Hne. repeat split.
  - destruct (storage_setItem J ls key v) as [b ls'] eqn:E.
    destruct (storage_setItem_store J ls ls' key v b E)
      as [[_ ->]|(_ & text & _ & Ha & Ha' & He)]; [reflexivity|].
    apply storage_getItem_same; [cbn [snd]; congruence|].
    cbn [snd]. rewrite He. apply lookup_insert_ne, Hne.
  - unfold storage_removeItem.
    destruct (removeItem ls key) as [ls'|e] eqn:E; [|reflexivity].
    destruct (removeItem_store _ _ _ E) as (Ha & Ha' & He).
    apply storage_getItem_same; [cbn [snd]; congruence|].
    cbn [snd]. rewrite He. apply lookup_delete_ne, Hne.
  - unfold saveTheme.
    destruct (setItem ls "theme" theme) as [ls'|e] eqn:E; [|reflexivity].
    destruct (setItem_store _ _ _ _ E) as (Ha & Ha' & He).
    apply getCart_same; [cbn [snd]; congruence|].
    cbn [snd]. rewrite He. apply lookup_insert_ne. discriminate.
  - unfold saveCart.
    destruct (JSON_stringify J (items_to_json cartItems)) as [text|e];
      cbn; [|reflexivity].
    destruct (setItem ls "cart" text) as [ls'|e] eqn:E; [|reflexivity].
    destruct (setItem_store _ _ _ _ E) as (Ha & Ha' & He).
    apply getTheme_same; [cbn [snd]; congruence|].
    cbn [snd]. rewrite He. apply lookup_insert_ne. discriminate.
Qed.

Lemma writes_leave_other_keys_witness :
  getCart reference
    (snd (saveTheme (snd (saveCart reference roomy [with_quantity shirt 2]))
            "dark"))
  = Normal (items_to_json [with_quantity shirt 2]).
Proof.
  destruct (writes_leave_other_keys reference
              (snd (saveCart reference roomy [with_quantity shirt 2]))
              "theme" "cart" JNull "dark" [])
    as (_ & _ & H & _); [discriminate|].
  rewrite H. vm_compute. reflexivity.
Defined.

(** X13. After a [storage.removeItem] that answers [true] the key reads
    as [null] and [hasItem] answers [false]; on a store the page may
    not touch the call answers [false] and leaves the store as it
    was. *)
Theorem storage_removeItem_removes (J : JSON) (ls : localStorage) (key : string) :
  (accessible ls = true ->
   fst (storage_removeItem ls key) = true
   /\ storage_getItem J (snd (storage_removeItem ls key)) key = Normal JNull
   /\ storage_hasItem (snd (storage_removeItem ls key)) key = Normal false)
  /\ (accessible ls = false -> storage_removeItem ls key = (false, ls)).
Proof.
  unfold storage_removeItem, removeItem. split; intros Ha; rewrite Ha.
  - cbn [fst snd]. split; [reflexivity|]. split.
    + apply storage_getItem_absent. cbn. apply lookup_delete_eq.
    + unfold storage_hasItem, getItem. cbn. rewrite lookup_delete_eq.
      reflexivity.
  - reflexivity.
Qed.

Lemma storage_removeItem_removes_witness :
  storage_hasItem cramped "cart" = Normal true
  /\ storage_hasItem (snd (storage_removeItem cramped "cart")) "cart"
     = Normal false
  /\ storage_removeItem denied "cart" = (false, denied).
Proof.
  split; [reflexivity|].
  destruct (storage_removeItem_removes reference cramped "cart") as [H _].
  destruct (H eq_refl) as (_ & _ & Hh).
  destruct (storage_removeItem_removes reference denied "cart") as [_ H'].
  split; [exact Hh | exact (H' eq_refl)].
Defined.

Lemma storage_getItem_returns (J : JSON) (ls : localStorage) (key : string) :
  exists v, storage_getItem J ls key = Normal v.
Proof.
  unfold storage_getItem, getItem.
  destruct (accessible ls); cbn; [|eauto].
  destruct (entries ls !! key) as [[|c t]|]; cbn; eauto.
  destruct (JSON_parse J (String c t)); cbn; eauto.
Qed.

Lemma getCart_returns (J : JSON) (ls : localStorage) :
  exists c, getCart J ls = Normal c.
Proof.
  unfold getCart, getItem.
  destruct (accessible ls); cbn; [|eauto].
  destruct (entries ls !! "cart") as [[|c t]|]; cbn; eauto.
  destruct (JSON_parse J (String c t)); cbn; eauto.
Qed.

Lemma getTheme_returns (ls : localStorage) : exists t, getTheme ls = Normal t.
Proof.
  unfold getTheme, getItem. destruct (accessible ls); cbn; eauto.
Qed.

(** X14. The guarded readers never throw: [storage.getItem], [getTheme]
    and [getCart] return normally on every store, giving [null], [null]
    and the empty cart when the page is denied storage.  [hasItem] has no
    guard: it throws exactly when the store is inaccessible. *)
Theorem guarded_readers_never_throw (J : JSON) (ls : localStorage) (key : string) :
  (exists v, storage_getItem J ls key = Normal v)
  /\ (exists t, getTheme ls = Normal t)
  /\ (exists c, getCart J ls = Normal c)
  /\ (accessible ls = false ->
      storage_getItem J ls key = Normal JNull
      /\ getTheme ls = Normal None
      /\ getCart J ls = Normal empty_cart)
  /\ ((exists e, storage_hasItem ls key = Throw e) <-> accessible ls = false).
Proof.
  split; [apply storage_getItem_returns|].
  split; [apply getTheme_returns|].
  split; [apply getCart_returns|].
  unfold storage_getItem, getTheme, getCart, storage_hasItem, getItem.
  split.
  - intros ->. repeat split.
  - destruct (accessible ls); cbn.
    + split; [intros [e He]; discriminate | discriminate].
    + split; [reflexivity | eauto].
Qed.

Lemma guarded_readers_never_throw_witness :
  storage_getItem reference denied "cart" = Normal JNull
  /\ getCart reference denied = Normal empty_cart
  /\ storage_hasItem denied "cart" = Throw "SecurityError".
Proof.
  destruct (guarded_readers_never_throw reference denied "cart")
    as (_ & _ & _ & H & _).
  destruct (H eq_refl) as (G & _ & C).
  split; [exact G|]. split; [exact C | reflexivity].
Defined.

(** X15. The theme is stored as it is: after a [saveTheme] that answers
    [true], [getTheme] returns that very string, the empty string
    included. *)
Theorem saveTheme_getTheme (ls ls' : localStorage) (theme : string) :
  saveTheme ls theme = (true, ls') ->
  getTheme ls' = Normal (Some theme).
Proof.
  unfold saveTheme.
  destruct (setItem ls "theme" theme) as [ls1|e] eqn:W; intros [= <-].
  destruct (setItem_store _ _ _ _ W) as (_ & Ha & He).
  unfold getTheme, getItem. rewrite Ha, He, lookup_insert_eq. reflexivity.
Qed.

Lemma saveTheme_getTheme_witness :
  getTheme (snd (saveTheme roomy "dark")) = Normal (Some "dark")
  /\ getTheme (snd (saveTheme roomy "")) = Normal (Some "").
Proof.
  split.
  - apply (saveTheme_getTheme roomy _ "dark"). reflexivity.
  - apply (saveTheme_getTheme roomy _ ""). reflexivity.
Defined.

(** X16. After a [storage.clear] that answers [true] nothing is left:
    every key reads as [null], [hasItem] answers [false] for every key,
    there is no theme, and [getCart] returns the empty cart. *)
Theorem storage_clear_empties (J : JSON) (ls ls' : localStorage) (key : string) :
  storage_clear ls = (true, ls') ->
  storage_getItem J ls' key = Normal JNull
  /\ storage_hasItem ls' key = Normal false
  /\ getTheme ls' = Normal None
  /\ getCart J ls' = Normal empty_cart.
Proof.
  unfold storage_clear, clear.
  destruct (accessible ls); intros [= <-].
  unfold storage_getItem, storage_hasItem, getTheme, getCart, getItem.
  cbn. rewrite !lookup_empty. repeat split.
Qed.

Lemma storage_clear_empties_witness :
  getCart reference (snd (storage_clear cramped)) = Normal empty_cart.
Proof.
  destruct (storage_clear_empties reference cramped
              (snd (storage_clear cramped)) "cart") as (_ & _ & _ & H);
    [reflexivity | exact H].
Defined.

End StorageMore.

(* ===================================================================== *)
(** * The session keys and the cart across login, logout and reload       *)
(* ===================================================================== *)

Module SessionMore.
Import Cart Storage StorageMethods AppStore CartProvider ReferenceJSON.

(** ** Logout *)

Lemma logout_store_entries (ls : localStorage) :
  accessible (logout_store ls) = accessible ls
  /\ (accessible ls = true ->
      entries (logout_store ls)
      = delete "userData" (delete "authToken" (entries ls))).
Proof.
  unfold logout_store, removeItem. destruct (accessible ls) eqn:A; cbn.
  - split; [reflexivity|]. intros _. reflexivity.
  - split; [exact A | discriminate].
Qed.

(** X17. Logging out removes the token and the user data and nothing
    else: the cart snapshot and the theme read exactly as before, so a
    cart survives a logout. *)
Theorem logout_keeps_cart_and_theme (J : JSON) (ls : localStorage) :
  getCart J (logout_store ls) = getCart J ls
  /\ getTheme (logout_store ls) = getTheme ls
  /\ (accessible ls = true ->
      storage_hasItem (logout_store ls) "authToken" = Normal false
      /\ storage_hasItem (logout_store ls) "userData" = Normal false).
Proof.
  destruct (logout_store_entries ls) as [Ha He].
  destruct (accessible ls) eqn:A.
  - specialize (He eq_refl). split; [|split].
    + apply StorageMore.getCart_same; [congruence|].
      rewrite He, !lookup_delete_ne by discriminate. reflexivity.
    + apply StorageMore.getTheme_same; [congruence|].
      rewrite He, !lookup_delete_ne by discriminate. reflexivity.
    + intros _. unfold storage_hasItem, getItem. rewrite Ha, He. cbn.
      rewrite lookup_delete_ne by discriminate.
      rewrite !lookup_delete_eq. split; reflexivity.
  - unfold logout_store, removeItem. rewrite A.
    split; [reflexivity|]. split; [reflexivity | discriminate].
Qed.

Lemma logout_keeps_cart_and_theme_witness :
  let ls := snd (login_store reference
                   (snd (saveCart reference roomy [with_quantity shirt 2]))
                   (JObj [("name", JStr "Ada")]) (Some "t0k3n")) in
  storage_hasItem ls "authToken" = Normal true
  /\ storage_hasItem (logout_store ls) "authToken" = Normal false
  /\ getCart reference (logout_store ls)
     = Normal (items_to_json [with_quantity shirt 2]).
Proof.
  intros ls.
  destruct (logout_keeps_cart_and_theme reference ls) as (C & _ & H).
  destruct (H eq_refl) as [T _].
  split; [vm_compute; reflexivity|]. split; [exact T|].
  rewrite C. vm_compute. reflexivity.
Defined.

(** ** Login and the restored session *)

Lemma login_store_entries (J : JSON) (ls ls' : localStorage) (userData : json)
    (t : string) :
  t <> "" ->
  login_store J ls userData (Some t) = (true, ls') ->
  exists text,
    JSON_stringify J userData = Normal text
    /\ accessible ls' = true
    /\ entries ls' = <["userData" := text]> (<["authToken" := t]> (entries ls)).
Proof.
  intros Ht. unfold login_store, given, truthy.
  destruct (String.eqb_spec t ""); [contradiction|]. cbn [negb].
  destruct (setItem ls "authToken" t) as [ls1|e] eqn:W1; [|discriminate].
  destruct (JSON_stringify J userData) as [text|e]; cbn; [|discriminate].
  destruct (setItem ls1 "userData" text) as [ls2|e] eqn:W2; [|discriminate].
  intros [= <-]. exists text. split; [reflexivity|].
  destruct (StorageMore.setItem_store _ _ _ _ W1) as (_ & _ & E1).
  destruct (StorageMore.setItem_store _ _ _ _ W2) as (_ & A2 & E2).
  split; [exact A2 | rewrite E2, E1; reflexivity].
Qed.

(** X18. With a JSON that reads back what it writes, a login with a
    non-empty token that returns is undone by no reload: the effect that
    restores the session finds both keys, parses the user data and
    dispatches exactly the user that logged in, leaving the store as it
    is. *)
Theorem login_then_reload_restores_user
    (J : JSON) (ls ls' : localStorage) (userData : json) (t : string) :
  JSON_faithful J ->
  t <> "" ->
  login_store J ls userData (Some t) = (true, ls') ->
  restore_session J ls' = Normal (Some userData, ls').
Proof.
  intros HJ Ht H.
  destruct (login_store_entries J ls ls' userData t Ht H) as (text & Hs & Ha & He).
  destruct (HJ userData text Hs) as [Hne Hp].
  unfold restore_session, getItem. rewrite Ha, He. cbn [mbind completion_bind].
  rewrite lookup_insert_ne by discriminate.
  rewrite !lookup_insert_eq. unfold given, truthy.
  destruct (String.eqb_spec t ""); [contradiction|].
  destruct (String.eqb_spec text ""); [contradiction|].
  cbn [negb andb]. rewrite Hp. reflexivity.
Qed.

Lemma login_then_reload_restores_user_witness :
  let ada := JObj [("id", JNum 12); ("name", JStr "Ada")] in
  restore_session reference (snd (login_store reference roomy ada (Some "t0k3n")))
  = Normal (Some ada, snd (login_store reference roomy ada (Some "t0k3n"))).
Proof.
  intros ada.
  apply (login_then_reload_restores_user reference roomy _ ada "t0k3n").
  - apply StorageFacts.reference_faithful.
  - discriminate.
  - vm_compute. reflexivity.
Defined.

(** X19. A session whose stored user data does not parse is dropped and
    cleaned up: with a non-empty token and non-empty user data that
    [JSON.parse] rejects, the restoring effect dispatches no user and
    removes both keys, and the cart snapshot is left alone. *)
Theorem corrupt_session_is_purged
    (J : JSON) (ls : localStorage) (t text e : string) :
  accessible ls = true ->
  entries ls !! "authToken" = Some t -> t <> "" ->
  entries ls !! "userData" = Some text -> text <> "" ->
  JSON_parse J text = Throw e ->
  exists ls',
    restore_session J ls = Normal (None, ls')
    /\ storage_hasItem ls' "authToken" = Normal false
    /\ storage_hasItem ls' "userData" = Normal false
    /\ getCart J ls' = getCart J ls.
Proof.
  intros Ha Ht Hne Hu Hne' Hp.
  exists {| entries := delete "userData" (delete "authToken" (entries ls));
            quota := quota ls; accessible := true |}.
  split; [|split; [|split]].
  - unfold restore_session, getItem. rewrite Ha. cbn [mbind completion_bind].
    rewrite Ht, Hu. unfold given, truthy.
    destruct (String.eqb_spec t ""); [contradiction|].
    destruct (String.eqb_spec text ""); [contradiction|].
    cbn [negb andb]. rewrite Hp. cbn [mbind completion_bind try_catch].
    unfold removeItem. rewrite Ha. reflexivity.
  - unfold storage_hasItem, getItem. cbn.
    rewrite lookup_delete_ne by discriminate. rewrite lookup_delete_eq.
    reflexivity.
  - unfold storage_hasItem, getItem. cbn. rewrite lookup_delete_eq.
    reflexivity.
  - apply StorageMore.getCart_same; [cbn; congruence|].
    cbn. rewrite !lookup_delete_ne by discriminate. reflexivity.
Qed.

Lemma corrupt_session_is_purged_witness :
  let ls := {| entries := {[ "authToken" := "t0k3n"; "userData" := "{oops";
                             "cart" := "[]" ]};
               quota := 5000; accessible := true |} in
  exists ls',
    restore_session reference ls = Normal (None, ls')
    /\ storage_hasItem ls' "authToken" = Normal false.
Proof.
  intros ls.
  destruct (corrupt_session_is_purged reference ls "t0k3n" "{oops" "SyntaxError")
    as (ls' & R & T & _);
    [reflexivity | reflexivity | discriminate | reflexivity | discriminate
    | vm_compute; reflexivity |].
  exists ls'. split; assumption.
Defined.

(** ** The cart across a reload *)

Lemma json_to_item_of_item (it : item) : json_to_item (item_to_json it) = Some it.
Proof.
  destruct it as [i n p [st|] q [sz|] [co|] [ci|]]; reflexivity.
Qed.

Lemma json_to_items_of_items (l : list item) :
  json_to_items (items_to_json l) = Some l.
Proof.
  unfold json_to_items, items_to_json.
  induction l as [|it l IH]; [reflexivity|].
  cbn [map mapM]. rewrite json_to_item_of_item. cbn [mbind option_bind].
  rewrite IH. reflexivity.
Qed.

(** X20. What was in the cart comes back after a reload: with a JSON that
    reads back what it writes, once the saving effect has written the
    items (the write being accepted), the loading effect of a freshly
    mounted provider dispatches [SET_CART] with exactly those items, and
    the provider's state then holds them. *)
Theorem cart_survives_reload (J : JSON) (ls : localStorage) (s : state) :
  JSON_faithful J ->
  fst (saveCart J ls (items s)) = true ->
  load_on_mount J (save_on_change J ls s) = Some [SET_CART (items s)]
  /\ items (run initialState [SET_CART (items s)]) = items s.
Proof.
  intros HJ Hsave. split; [|reflexivity].
  unfold load_on_mount, save_on_change.
  destruct (saveCart J ls (items s)) as [b ls'] eqn:E. cbn [fst snd] in *.
  subst b.
  rewrite (StorageFacts.saveCart_getCart_faithful J ls ls' (items s) HJ E).
  cbn [js_truthy items_to_json]. rewrite json_to_items_of_items. reflexivity.
Qed.

Lemma cart_survives_reload_witness :
  let s := run initialState
             (handleAddToCart (Some shirt) 1 "M" "red" ++ addToCart mug 3) in
  load_on_mount reference (save_on_change reference roomy s)
  = Some [SET_CART (items s)].
Proof.
  intros s.
  apply (cart_survives_reload reference roomy s).
  - apply StorageFacts.reference_faithful.
  - vm_compute. reflexivity.
Defined.

(** X21. On a store that holds no snapshot, or one that does not parse,
    the loading effect still dispatches: [getCart] hands it the empty
    array, which is truthy, so [SET_CART] with no items is dispatched and
    the provider ends with an empty cart that is not loading. *)
Theorem mount_without_snapshot (J : JSON) (ls : localStorage) :
  absent_or_corrupt J ls ->
  load_on_mount J ls = Some [SET_CART []]
  /\ forall s, items (run s [SET_CART []]) = []
               /\ loading (run s [SET_CART []]) = false.
Proof.
  intros H. split; [|intros s; split; reflexivity].
  unfold load_on_mount.
  assert (G : getCart J ls = Normal empty_cart).
  { unfold absent_or_corrupt in H.
    destruct (accessible ls) eqn:A;
      [|apply StorageFacts.getCart_denied, A].
    destruct (entries ls !! "cart") as [text|] eqn:E;
      [|apply StorageFacts.getCart_absent, E].
    destruct (String.eqb_spec text "") as [->|Hne];
      [apply StorageFacts.getCart_empty_text, E|].
    rewrite (StorageFacts.getCart_text J ls text A E Hne).
    destruct H as [e ->]. reflexivity. }
  rewrite G. reflexivity.
Qed.

Lemma mount_without_snapshot_witness :
  load_on_mount reference torn = Some [SET_CART []]
  /\ load_on_mount reference roomy = Some [SET_CART []].
Proof.
  split.
  - apply (mount_without_snapshot reference torn).
    exists "SyntaxError". vm_compute. reflexivity.
  - apply (mount_without_snapshot reference roomy). exact I.
Defined.

End SessionMore.

(* ===================================================================== *)
(** * Further properties of the catalog                                   *)
(* ===================================================================== *)

Module CatalogMore.
Import JS.
Import CatalogState.

(** ** The filtering steps as one filter *)

Lemma filter_filter {A} (f g : A -> bool) (l : list A) :
  List.filter g (List.filter f l) = List.filter (fun x => f x && g x) l.
Proof.
  induction l as [|x l IH]; [reflexivity|].
  cbn [List.filter]. destruct (f x); cbn [List.filter andb];
    [destruct (g x)|]; rewrite IH; reflexivity.
Qed.

Lemma filter_true {A} (l : list A) : List.filter (fun _ => true) l = l.
Proof. induction l as [|x l IH]; cbn; [|rewrite IH]; reflexivity. Qed.

Lemma filter_if {A} (c : bool) (f : A -> bool) (l : list A) :
  (if c then List.filter f l else l)
  = List.filter (fun x => if c then f x else true) l.
Proof. destruct c; [reflexivity | symmetry; apply filter_true]. Qed.

Lemma apply_filters_passes (st : Catalog.state) :
  Catalog.apply_filters st = List.filter (passes st) (Catalog.products st).
Proof.
  unfold Catalog.apply_filters, passes. cbn zeta.
  rewrite !filter_if, !filter_filter.
  apply List.filter_ext. intros p. rewrite !andb_assoc. reflexivity.
Qed.

Example apply_filters_passes_example :
  map Catalog.id (List.filter (passes Catalog.mixed_catalog)
                    (Catalog.products Catalog.mixed_catalog)) = [2; 4].
Proof. vm_compute. reflexivity. Qed.

(** ** Filters only hide *)

Lemma filter_rest {A} (f : A -> bool) (l : list A) :
  Permutation l (List.filter f l ++ List.filter (fun x => negb (f x)) l).
Proof.
  induction l as [|x l IH]; [constructor|].
  cbn [List.filter]. destruct (f x); cbn [negb app].
  - constructor. exact IH.
  - apply Permutation_cons_app. exact IH.
Qed.

Lemma filter_stricter {A} (f g : A -> bool) (l : list A) :
  (forall x, f x = true -> g x = true) ->
  List.filter f l = List.filter f (List.filter g l).
Proof.
  intros H. rewrite filter_filter. apply List.filter_ext. intros x.
  destruct (f x) eqn:F; [rewrite (H x F)|rewrite andb_false_r]; reflexivity.
Qed.

Lemma passes_narrower (st st' : Catalog.state) (p : Catalog.product) :
  narrows st st' -> passes st' p = true -> passes st p = true.
Proof.
  intros (_ & Q & C & Lo & Hi). unfold passes.
  rewrite !andb_true_iff. intros [[[Pq Pc] Plo] Phi].
  repeat split.
  - destruct Q as [-> | <-]; [reflexivity | exact Pq].
  - destruct C as [-> | <-]; [reflexivity | exact Pc].
  - destruct Lo as [-> | <-]; [reflexivity | exact Plo].
  - destruct Hi as [-> | <-]; [reflexivity | exact Phi].
Qed.

(** X22. Filters only hide.  What [getFilteredProducts] shows is part of
    the base set, no record shown more often than the base set has it;
    and with one more of the search term, the category and the two price
    bounds in force, the others as they were, what is shown is part of
    what was shown before: a record that one filter hides is not brought
    back by another filter, nor by the sort. *)
Theorem filters_only_hide (st st' : Catalog.state) :
  narrows st st' ->
  (exists hidden : list Catalog.product,
     Permutation (Catalog.products st) (Catalog.getFilteredProducts st ++ hidden))
  /\ (exists hidden : list Catalog.product,
        Permutation (Catalog.getFilteredProducts st)
                    (Catalog.getFilteredProducts st' ++ hidden))
  /\ (forall p : Catalog.product,
        In p (Catalog.getFilteredProducts st') ->
        In p (Catalog.getFilteredProducts st) /\ In p (Catalog.products st)).
Proof.
  intros N.
  assert (S : forall t, Permutation (Catalog.getFilteredProducts t)
                          (List.filter (passes t) (Catalog.products t))).
  { intros t. unfold Catalog.getFilteredProducts. rewrite <- apply_filters_passes.
    apply CatalogFacts.Array_sort_perm. }
  assert (B : exists hidden,
             Permutation (Catalog.products st)
                         (Catalog.getFilteredProducts st ++ hidden)).
  { exists (List.filter (fun x => negb (passes st x)) (Catalog.products st)).
    rewrite (S st). apply filter_rest. }
  assert (P : exists hidden,
             Permutation (Catalog.getFilteredProducts st)
                         (Catalog.getFilteredProducts st' ++ hidden)).
  { exists (List.filter (fun x => negb (passes st' x))
              (List.filter (passes st) (Catalog.products st))).
    rewrite (S st), (S st'). destruct N as (E & N). rewrite E.
    rewrite (filter_stricter (passes st') (passes st) (Catalog.products st)).
    - apply filter_rest.
    - intros x. apply passes_narrower. split; [exact E | exact N]. }
  split; [exact B|]. split; [exact P|].
  intros p Hp. destruct P as (h & P), B as (h' & B).
  assert (I : In p (Catalog.getFilteredProducts st)).
  { apply (Permutation_in p (Permutation_sym P)), in_or_app. left. exact Hp. }
  split; [exact I|].
  apply (Permutation_in p (Permutation_sym B)), in_or_app. left. exact I.
Qed.

Lemma filters_only_hide_witness :
  let st := {| Catalog.products := Catalog.products Catalog.mixed_catalog;
               Catalog.searchQuery := "";
               Catalog.filters :=
                 {| Catalog.category := "2"; Catalog.minPrice := "";
                    Catalog.maxPrice := ""; Catalog.sortBy := "name";
                    Catalog.sortOrder := "asc" |} |} in
  narrows st Catalog.mixed_catalog
  /\ map Catalog.id (Catalog.getFilteredProducts st) = [2; 4; 1]
  /\ map Catalog.id (Catalog.getFilteredProducts Catalog.mixed_catalog) = [2; 4]
  /\ exists hidden : list Catalog.product,
       Permutation (Catalog.getFilteredProducts st)
                   (Catalog.getFilteredProducts Catalog.mixed_catalog ++ hidden).
Proof.
  intros st.
  assert (N : narrows st Catalog.mixed_catalog).
  { repeat split; (left; reflexivity) || (right; reflexivity). }
  split; [exact N|]. split; [vm_compute; reflexivity|].
  split; [vm_compute; reflexivity|].
  destruct (filters_only_hide st Catalog.mixed_catalog N) as (_ & P & _).
  exact P.
Defined.

(** A bound with a fraction: of the records at 3.00, 2.50, 25.00 and
    2.00, those at 2.505 or more are the first and the third, and 2.5 is
    not above 2.50. *)
Example price_bound_with_fraction :
  let bounded lo hi :=
    {| Catalog.products := Catalog.products Catalog.mixed_catalog;
       Catalog.searchQuery := "";
       Catalog.filters :=
         {| Catalog.category := ""; Catalog.minPrice := lo;
            Catalog.maxPrice := hi; Catalog.sortBy := "id";
            Catalog.sortOrder := "asc" |} |} in
  map Catalog.id (Catalog.getFilteredProducts (bounded "2.505" "")) = [1; 3]
  /\ map Catalog.id (Catalog.getFilteredProducts (bounded "2.5" "2.50")) = [2]
  /\ map Catalog.id (Catalog.getFilteredProducts (bounded "" "0x10")) = []
  /\ map Catalog.id (Catalog.getFilteredProducts (bounded "1e1" "")) = [3].
Proof. vm_compute. repeat split. Qed.

(** ** The search term *)

Lemma toLowerCase_empty (s : string) : toLowerCase s = "" <-> s = "".
Proof. destruct s; cbn; split; intros H; (reflexivity || discriminate). Qed.

Lemma nonempty_toLowerCase (s : string) :
  nonempty (toLowerCase s) = nonempty s.
Proof. destruct s; reflexivity. Qed.

(** X23. The search does not depend on the case of the term typed: two
    search terms that differ only in case give the same result, whatever
    the base set and the other filters. *)
Theorem search_term_case_is_irrelevant
    (base : list Catalog.product) (f : Catalog.filters_t) (q q' : string) :
  toLowerCase q = toLowerCase q' ->
  Catalog.getFilteredProducts
    {| Catalog.products := base; Catalog.searchQuery := q; Catalog.filters := f |}
  = Catalog.getFilteredProducts
      {| Catalog.products := base; Catalog.searchQuery := q';
         Catalog.filters := f |}.
Proof.
  intros H. unfold Catalog.getFilteredProducts, Catalog.apply_filters.
  cbn [Catalog.products Catalog.searchQuery Catalog.filters].
  rewrite <- (nonempty_toLowerCase q), <- (nonempty_toLowerCase q'), H.
  reflexivity.
Qed.

Lemma search_term_case_is_irrelevant_witness :
  Catalog.getFilteredProducts
    {| Catalog.products := Catalog.products Catalog.mixed_catalog;
       Catalog.searchQuery := "APPLE";
       Catalog.filters := Catalog.initial_filters |}
  = Catalog.getFilteredProducts
      {| Catalog.products := Catalog.products Catalog.mixed_catalog;
         Catalog.searchQuery := "apple";
         Catalog.filters := Catalog.initial_filters |}.
Proof.
  apply (search_term_case_is_irrelevant _ _ "APPLE" "apple"). reflexivity.
Defined.

(** ** Bounds that are not numbers *)

Lemma filter_none {A} (f : A -> bool) (l : list A) :
  (forall x, f x = false) -> List.filter f l = [].
Proof.
  intros H. induction l as [|x l IH]; [reflexivity|].
  cbn [List.filter]. rewrite H. exact IH.
Qed.

Lemma lowercase_is_not_a_number (s : string) :
  starts_with_lowercase s = true ->
  nonempty s = true /\ parseInt s = NaN /\ parseFloat s = NaN.
Proof.
  destruct s as [|c rest]; [discriminate|].
  destruct c as [[] [] [] [] [] [] [] []]; intros H;
    try discriminate H; repeat split.
Qed.

(** No comparison with [NaN] holds. *)
Lemma strict_equal_NaN (x : number) : strict_equal x NaN = false.
Proof. destruct x; reflexivity. Qed.

Lemma number_ge_NaN (x : number) : number_ge x NaN = false.
Proof. reflexivity. Qed.

Lemma number_le_NaN (x : number) : number_le x NaN = false.
Proof. destruct x; reflexivity. Qed.

(** X24. A filter value that is there but cannot be a number hides every
    record: when the category, the lower or the upper price bound starts
    with a lower-case letter, [parseInt] or [parseFloat] gives [NaN], the
    comparison fails for each record, and the result is empty. *)
Theorem non_numeric_filter_hides_everything (st : Catalog.state) :
  starts_with_lowercase (Catalog.category (Catalog.filters st)) = true
  \/ starts_with_lowercase (Catalog.minPrice (Catalog.filters st)) = true
  \/ starts_with_lowercase (Catalog.maxPrice (Catalog.filters st)) = true ->
  Catalog.getFilteredProducts st = [].
Proof.
  intros H. unfold Catalog.getFilteredProducts.
  rewrite apply_filters_passes.
  rewrite (filter_none (passes st)); [reflexivity|].
  intros p. unfold passes, Catalog.in_category, Catalog.at_least, Catalog.at_most.
  destruct H as [H|[H|H]];
    destruct (lowercase_is_not_a_number _ H) as (N & Ei & Ef);
    rewrite N, ?Ei, ?Ef, ?strict_equal_NaN, ?number_ge_NaN, ?number_le_NaN;
    rewrite ?andb_false_r; reflexivity.
Qed.

Lemma non_numeric_filter_hides_everything_witness :
  Catalog.getFilteredProducts
    {| Catalog.products := Catalog.products Catalog.mixed_catalog;
       Catalog.searchQuery := "";
       Catalog.filters :=
         {| Catalog.category := ""; Catalog.minPrice := "cheap";
            Catalog.maxPrice := ""; Catalog.sortBy := "name";
            Catalog.sortOrder := "asc" |} |} = [].
Proof.
  apply non_numeric_filter_hides_everything.
  right. left. reflexivity.
Defined.

(** ** The entry points that change the query *)

Lemma no_filters_pass_all (base : list Catalog.product) :
  Catalog.apply_filters
    {| Catalog.products := base; Catalog.searchQuery := "";
       Catalog.filters := Catalog.initial_filters |} = base.
Proof. reflexivity. Qed.

(** X25. [clearFilters] puts the filters and the search term back to
    their initial values, so that every product of the base set is shown
    again, but it leaves the current page where it was, whereas
    [setFilters] and [setSearchQuery] both go back to page 1. *)
Theorem clearFilters_shows_all_but_keeps_page
    (s : state) (patch : filters_patch) (query : string) :
  filters (run s clearFilters) = Catalog.initial_filters
  /\ searchQuery (run s clearFilters) = ""
  /\ Permutation (Catalog.getFilteredProducts (view (run s clearFilters)))
                 (products s)
  /\ pagination (run s clearFilters) = pagination s
  /\ currentPage (pagination (run s (setFilters patch))) = 1
  /\ currentPage (pagination (run s (setSearchQuery query))) = 1.
Proof.
  repeat split.
  unfold Catalog.getFilteredProducts.
  change (view (run s clearFilters))
    with {| Catalog.products := products s; Catalog.searchQuery := "";
            Catalog.filters := Catalog.initial_filters |}.
  rewrite no_filters_pass_all. apply CatalogFacts.Array_sort_perm.
Qed.

(** X26. [getProductById] finds a product of the base set with the id
    asked for whenever there is one, and returns nothing exactly when no
    product has that id. *)
Theorem getProductById_finds (s : state) (n : Z) :
  (forall p, getProductById s n = Some p ->
             In p (products s) /\ Catalog.id p = n)
  /\ (getProductById s n = None
      <-> forall p, In p (products s) -> Catalog.id p <> n).
Proof.
  unfold getProductById. split.
  - intros p H. apply find_some in H as [Hin E].
    split; [exact Hin | apply Z.eqb_eq, E].
  - split.
    + intros H p Hin. apply Z.eqb_neq. exact (find_none _ _ H p Hin).
    + intros H. destruct (List.find _ _) as [p|] eqn:F; [|reflexivity].
      apply find_some in F as [Hin E]. apply Z.eqb_eq in E.
      exfalso. exact (H p Hin E).
Qed.

Lemma getProductById_finds_witness :
  let s := run initialState [SET_PRODUCTS [Catalog.lamp 3; Catalog.lamp 1]] in
  getProductById s 1 = Some (Catalog.lamp 1) /\ getProductById s 2 = None.
Proof.
  intros s. split; [reflexivity|].
  apply (getProductById_finds s 2).
  intros p [<-|[<-|[]]]; discriminate.
Defined.

End CatalogMore.

(* ===================================================================== *)
(** * Properties of the product detail page                               *)
(* ===================================================================== *)

Module ProductDetailMore.
Import ProductDetail.

(** ** The quantity stepper *)

Lemma handleQuantityChange_range (stock : option Z) (quantity change : Z) :
  1 <= quantity <= Z.max 1 (stock_limit stock) ->
  1 <= handleQuantityChange stock quantity change <= Z.max 1 (stock_limit stock).
Proof.
  intros H. unfold handleQuantityChange. cbn zeta.
  destruct (Z.leb_spec 1 (quantity + change));
    destruct (Z.leb_spec (quantity + change) (stock_limit stock));
    cbn [andb]; lia.
Qed.

(** X27. The quantity chosen on the product page never leaves the range
    from 1 to the stock limit (99 when the stock is missing or zero):
    whatever changes are asked for, in whatever order, a change that
    would leave the range is ignored.  (With a limit below 1 the
    quantity stays at 1.) *)
Theorem stepper_stays_in_range (stock : option Z) (changes : list Z) :
  1 <= after_clicks stock changes <= Z.max 1 (stock_limit stock).
Proof.
  unfold after_clicks.
  assert (G : forall q, 1 <= q <= Z.max 1 (stock_limit stock) ->
                        1 <= fold_left (handleQuantityChange stock) changes q
                        <= Z.max 1 (stock_limit stock)).
  { induction changes as [|c cs IH]; intros q Hq; cbn [fold_left]; [exact Hq|].
    apply IH, handleQuantityChange_range, Hq. }
  apply G. lia.
Qed.

Example stepper_examples :
  after_clicks (Some 3) [1; 1; 1; 1; -1] = 2
  /\ after_clicks (Some 0) [98; 1; 1] = 99
  /\ after_clicks None [-1; -1] = 1.
Proof. repeat split. Qed.

(** ** The rating stars *)

Lemma floor_ceiling_bounds (r : Q) :
  (inject_Z (Qfloor r) <= r)%Q /\ (r < inject_Z (Qfloor r + 1))%Q
  /\ (r <= inject_Z (Qceiling r))%Q /\ (inject_Z (Qceiling r - 1) < r)%Q.
Proof.
  repeat split;
    [apply Qfloor_le | apply Qlt_floor | apply Qle_ceiling | apply Qceiling_lt].
Qed.

(** The ceiling is the floor, plus one unless the number is whole. *)
Lemma Qceiling_by_floor (r : Q) :
  Qceiling r
  = Qfloor r + (if Qeq_bool r (inject_Z (Qfloor r)) then 0 else 1).
Proof.
  destruct (floor_ceiling_bounds r) as (F1 & F2 & C1 & C2).
  destruct (Qeq_bool r (inject_Z (Qfloor r))) eqn:E.
  - apply Qeq_bool_iff in E.
    assert (A : (inject_Z (Qceiling r - 1) < inject_Z (Qfloor r))%Q)
      by (rewrite <- E; exact C2).
    assert (B : (inject_Z (Qfloor r) <= inject_Z (Qceiling r))%Q)
      by (rewrite <- E at 1; exact C1).
    rewrite <- Zlt_Qlt in A. rewrite <- Zle_Qle in B. lia.
  - apply Qeq_bool_neq in E.
    assert (A : (inject_Z (Qfloor r) < r)%Q).
    { apply Qle_lteq in F1 as [F1|F1]; [exact F1|].
      exfalso. apply E. symmetry. exact F1. }
    assert (B : (inject_Z (Qfloor r) < inject_Z (Qceiling r))%Q)
      by (eapply Qlt_le_trans; [exact A | exact C1]).
    assert (C : (inject_Z (Qceiling r - 1) < inject_Z (Qfloor r + 1))%Q)
      by (eapply Qlt_trans; [exact C2 | exact F2]).
    rewrite <- Zlt_Qlt in B, C. lia.
Qed.

Lemma length_renderStars (r : Q) :
  Z.of_nat (length (renderStars r))
  = Z.max 0 (Qfloor r)
    + (if Qeq_bool r (inject_Z (Qfloor r)) then 0 else 1)
    + Z.max 0 (5 - Qceiling r).
Proof.
  unfold renderStars. cbn zeta.
  rewrite !length_app, !repeat_length.
  destruct (Qeq_bool r (inject_Z (Qfloor r))); cbn [negb length]; lia.
Qed.

(** X28. [renderStars] draws exactly five stars for a rating between 0
    and 5, and only then: a rating below 0 or above 5 draws more than
    five. *)
Theorem renderStars_draws_five (r : Q) :
  length (renderStars r) = 5%nat <-> (0 <= r <= 5)%Q.
Proof.
  pose proof (length_renderStars r) as L.
  pose proof (Qceiling_by_floor r) as C.
  destruct (floor_ceiling_bounds r) as (F1 & F2 & C1 & C2).
  split.
  - intros H. rewrite H in L. clear H.
    destruct (Qeq_bool r (inject_Z (Qfloor r))) eqn:E.
    + apply Qeq_bool_iff in E.
      assert (R : 0 <= Qfloor r <= 5) by lia.
      rewrite E. change 0%Q with (inject_Z 0). change 5%Q with (inject_Z 5).
      rewrite <- !Zle_Qle. exact R.
    + assert (R : 0 <= Qfloor r /\ Qceiling r <= 5) by lia.
      destruct R as [R1 R2]. split.
      * eapply Qle_trans; [|exact F1].
        change 0%Q with (inject_Z 0). rewrite <- Zle_Qle. exact R1.
      * eapply Qle_trans; [exact C1|].
        change 5%Q with (inject_Z 5). rewrite <- Zle_Qle. exact R2.
  - intros [H0 H5].
    assert (A : 0 <= Qfloor r).
    { assert (X : (inject_Z 0 < inject_Z (Qfloor r + 1))%Q)
        by (eapply Qle_lt_trans; [exact H0 | exact F2]).
      rewrite <- Zlt_Qlt in X. lia. }
    assert (B : Qceiling r <= 5).
    { assert (X : (inject_Z (Qceiling r - 1) < inject_Z 5)%Q)
        by (eapply Qlt_le_trans; [exact C2 | exact H5]).
      rewrite <- Zlt_Qlt in X. lia. }
    apply Nat2Z.inj. rewrite L.
    destruct (Qeq_bool r (inject_Z (Qfloor r))); lia.
Qed.

Lemma renderStars_draws_five_witness :
  renderStars (9 # 2)
  = [full_star; full_star; full_star; full_star; half_star]
  /\ length (renderStars (9 # 2)) = 5%nat
  /\ length (renderStars (11 # 2)) <> 5%nat.
Proof.
  split; [reflexivity|]. split.
  - apply (renderStars_draws_five (9 # 2)). split; discriminate.
  - intros H. apply (renderStars_draws_five (11 # 2)) in H as [_ H].
    apply H. reflexivity.
Defined.

End ProductDetailMore.

(* ===================================================================== *)
(** * Properties of the product grid's filter                             *)
(* ===================================================================== *)

Module ProductGridMore.
Import JS.
Import ProductGrid.

(** ** The sort model is stable under a comparator that ties a class *)

Section Stability.
Context {A : Type}.
Variable comparefn : A -> A -> Z.
Variable P : A -> bool.
Hypothesis ties : forall x y, P x = true -> P y = true -> comparefn x y <= 0.

Lemma insert_sorted_class (x : A) (l : list A) :
  List.filter P (insert_sorted comparefn x l) = List.filter P (x :: l).
Proof.
  induction l as [|y l IH]; [reflexivity|].
  cbn [insert_sorted]. destruct (Z.leb_spec (comparefn x y) 0) as [H|H];
    [reflexivity|].
  cbn [List.filter] in *. rewrite IH.
  destruct (P x) eqn:Px; [|reflexivity].
  destruct (P y) eqn:Py; [|reflexivity].
  specialize (ties x y Px Py). lia.
Qed.

Lemma Array_sort_class (l : list A) :
  List.filter P (Array_sort comparefn l) = List.filter P l.
Proof.
  induction l as [|x l IH]; [reflexivity|].
  cbn [Array_sort]. rewrite insert_sorted_class.
  cbn [List.filter]. rewrite IH. reflexivity.
Qed.
End Stability.

(** ** Signs of differences *)

Lemma sign_minus_le (a b : Q) : sign (a - b) <= 0 <-> (a <= b)%Q.
Proof.
  unfold sign. destruct (Qcompare_spec (a - b) 0) as [E|L|G]; split;
    intros H; try lia.
  - lra.
  - lra.
  - exfalso. lra.
Qed.

Lemma sign_minus_gt (a b : Q) : 0 < sign (a - b) -> (b <= a)%Q.
Proof.
  unfold sign. destruct (Qcompare_spec (a - b) 0) as [E|L|G];
    intros H; try lia. lra.
Qed.

(** ** The price range *)

Lemma in_range_spec (r : price_range) (p : product) :
  in_range r p = true
  <-> (min r <= price p)%Q
      /\ match max r with Some m => (price p <= m)%Q | None => True end.
Proof.
  unfold in_range. rewrite andb_true_iff, Qle_bool_iff.
  destruct (max r); [rewrite Qle_bool_iff|]; tauto.
Qed.

(** X29. With only a price range chosen, the grid shows the products
    whose price lies between the range's bounds, both bounds included, so
    a price that sits on a boundary shared by two ranges is shown under
    both; a range label that is not in the table filters nothing. *)
Theorem price_range_includes_both_bounds
    (localeCompare : string -> string -> Z) (products : list product)
    (l sort_key : string) :
  l <> "" ->
  let f := {| filter_category := ""; priceRange := l; sortBy := sort_key |} in
  match find_range l with
  | Some r =>
      forall p, In p (filteredProducts localeCompare products f "")
                <-> In p products
                    /\ (min r <= price p)%Q
                    /\ match max r with
                       | Some m => (price p <= m)%Q
                       | None => True
                       end
  | None => Permutation (filteredProducts localeCompare products f "") products
  end.
Proof.
  intros Hl f.
  assert (N : nonempty l = true).
  { unfold nonempty. destruct (String.eqb_spec l ""); [contradiction|reflexivity]. }
  assert (P : Permutation (filteredProducts localeCompare products f "")
                (apply_filters products f "")).
  { apply CatalogFacts.Array_sort_perm. }
  unfold apply_filters in P. cbn [nonempty String.eqb negb filter_category f priceRange] in P.
  rewrite N in P.
  destruct (find_range l) as [r|]; [|exact P].
  intros p. rewrite <- in_range_spec, <- filter_In.
  split; apply Permutation_in; [exact P | symmetry; exact P].
Qed.

Lemma price_range_includes_both_bounds_witness :
  In (gadget 1 25)
     (filteredProducts by_code_units [gadget 1 25; gadget 2 60]
        {| filter_category := ""; priceRange := "Under $25"; sortBy := "name" |}
        "")
  /\ In (gadget 1 25)
        (filteredProducts by_code_units [gadget 1 25; gadget 2 60]
           {| filter_category := ""; priceRange := "$25 - $50"; sortBy := "name" |}
           "").
Proof.
  split.
  - apply (price_range_includes_both_bounds by_code_units
             [gadget 1 25; gadget 2 60] "Under $25" "name");
      [discriminate|].
    split; [left; reflexivity|]. split; discriminate.
  - apply (price_range_includes_both_bounds by_code_units
             [gadget 1 25; gadget 2 60] "$25 - $50" "name");
      [discriminate|].
    split; [left; reflexivity|]. split; discriminate.
Defined.

(** X30. Sorted by "price-low", the grid lists the filtered products by
    ascending price, and the sort is stable: products with the same price
    keep the order they had in the base set.  (This comparator answers 0
    on ties, unlike the one of the products context.) *)
Theorem price_low_sort_is_ascending_and_stable
    (localeCompare : string -> string -> Z) (products : list product)
    (f : filters_t) (searchTerm : string) :
  sortBy f = "price-low" ->
  StronglySorted (fun a b => (price a <= price b)%Q)
                 (filteredProducts localeCompare products f searchTerm)
  /\ Permutation (filteredProducts localeCompare products f searchTerm)
                 (apply_filters products f searchTerm)
  /\ forall v, priced v (filteredProducts localeCompare products f searchTerm)
               = priced v (apply_filters products f searchTerm).
Proof.
  intros Hs.
  assert (C : forall a b, comparator localeCompare f a b
                          = sign (price a - price b)).
  { intros a b. unfold comparator. rewrite Hs. reflexivity. }
  unfold filteredProducts. split; [|split].
  - apply CatalogFacts.Array_sort_sorted.
    + intros x y z. apply Qle_trans.
    + intros x y. rewrite C. apply sign_minus_le.
    + intros x y. rewrite C. apply sign_minus_gt.
  - apply CatalogFacts.Array_sort_perm.
  - intros v. unfold priced. apply Array_sort_class.
    intros x y Px Py. rewrite C. apply sign_minus_le.
    apply Qeq_bool_iff in Px, Py. rewrite Px, Py. apply Qle_refl.
Qed.

Lemma price_low_sort_is_ascending_and_stable_witness :
  map id (filteredProducts by_code_units
            [gadget 3 60; gadget 1 25; gadget 2 60; gadget 4 (51 # 2)]
            {| filter_category := ""; priceRange := ""; sortBy := "price-low" |}
            "")
  = [1; 4; 3; 2]
  /\ StronglySorted (fun a b => (price a <= price b)%Q)
       (filteredProducts by_code_units
          [gadget 3 60; gadget 1 25; gadget 2 60; gadget 4 (51 # 2)]
          {| filter_category := ""; priceRange := ""; sortBy := "price-low" |}
          "").
Proof.
  split; [reflexivity|].
  apply (price_low_sort_is_ascending_and_stable by_code_units
           [gadget 3 60; gadget 1 25; gadget 2 60; gadget 4 (51 # 2)]
           {| filter_category := ""; priceRange := ""; sortBy := "price-low" |}
           "").
  reflexivity.
Defined.

End ProductGridMore.
